(** * watertap-seto (REFLO): costing reconciliation, FO draw-solution state
      blocks, the flat-plate surrogate and the KBHDP zero-liquid-discharge
      case study, embedded in Rocq.

    Numbers are exact rationals ([Q]); a Pyomo constraint is a proposition
    over the values of its variables, and a solved model is an assignment
    that satisfies the constraints of its blocks.  Python exceptions are
    the [Raise] outcomes of [result]. *)

From Stdlib Require Import QArith Qminmax Qround Lqa Lia List String Bool ZArith.
From stdpp Require Import gmap strings list.

Open Scope Q_scope.

(** ** Python outcomes *)

Module Py.

Inductive init_failure : Type :=
| DofNonzero (sb_name : string) (dof : Z)
| SolveFailed.

Inductive exn : Type :=
| ValueError (msg : string)
| InitializationError (why : init_failure)
| ConfigurationError (msg : string)
| AttributeError (attr : string)
| AssertionError
| RuntimeError (msg : string)
| TypeError
| IndexError
| ZeroDivisionError
| InconsistentUnitsError.

Inductive result (A : Type) : Type :=
| Ok (a : A)
| Raise (e : exn).

Arguments Ok {A} a.
Arguments Raise {A} e.

Definition bind {A B : Type} (r : result A) (k : A -> result B) : result B :=
  match r with
  | Ok a => k a
  | Raise e => Raise e
  end.

Definition assert (b : bool) : result unit :=
  if b then Ok tt else Raise AssertionError.

(** Python's [round] on a number: nearest integer, ties to the even one. *)
Definition round (q : Q) : Z :=
  let f := Qfloor q in
  let r := q - inject_Z f in
  if Qle_bool r (1 # 2)
  then (if Qeq_bool r (1 # 2) then (if Z.even f then f else (f + 1)%Z) else f)
  else (f + 1)%Z.

(** Python's float division: a zero divisor raises. *)
Definition div (a b : Q) : result Q :=
  if Qeq_bool b 0 then Raise ZeroDivisionError else Ok (a / b).

Fixpoint sum (l : list Q) : Q :=
  match l with
  | nil => 0
  | x :: l' => x + sum l'
  end.

End Py.

#[global] Instance result_ret : MRet Py.result := fun A a => Py.Ok a.
#[global] Instance result_bind : MBind Py.result := fun A B k r => Py.bind r k.

(** ** Units of measurement used by the conversions in the sources *)

Module Units.

Inductive time_unit : Type := second | hour | day | year.

(** Length of a time unit in seconds (the year is the Julian year of the
    unit registry, 365.25 days). *)
Definition seconds (u : time_unit) : Q :=
  match u with
  | second => 1
  | hour => 3600
  | day => 86400
  | year => 31557600
  end.

(** [pyunits.convert(x * m**3 / s, to_units = m**3 / u)]. *)
Definition per_second_to_per (u : time_unit) (x : Q) : Q := x * seconds u.

(** One million US gallons in cubic metres. *)
Definition m3_per_Mgallon : Q := 3785.411784.

(** [pyunits.convert(x * m**3 / s, to_units = Mgallons / day)]. *)
Definition m3_s_to_mgd (x : Q) : Q := x * seconds day / m3_per_Mgallon.

(** [pyunits.convert(x * Mgallons / day, to_units = m**3 / s)]. *)
Definition mgd_to_m3_s (x : Q) : Q := x * m3_per_Mgallon / seconds day.

(** [pyunits.convert(x * g / liter, to_units = kg / m**3)]. *)
Definition g_L_to_kg_m3 (x : Q) : Q := x * 1.

(** [pyunits.convert(x * hour * MW / (kJ / m**3), to_units = m**3)]:
    one megawatt-hour is 3.6e6 kilojoules. *)
Definition h_MW_per_kJ_to_1 (x : Q) : Q := x * 3600000.

End Units.

(** ** solar_models/surrogate/flat_plate/flat_plate_surrogate.py *)

Module FlatPlate.

(** The parameters and variables of [FlatPlateSurrogateData.build] that the
    storage-volume constraint reads or determines. *)
Record FlatPlateSurrogateData : Type := {
  specific_heat_water : Q;   (* kJ / (kg K) *)
  dens_water : Q;            (* kg / m3 *)
  temperature_cold : Q;      (* K *)
  heat_load : Q;             (* MW *)
  hours_storage : Q;         (* h *)
  temperature_hot : Q;
  storage_volume : Q         (* m3 *)
}.

(** Right-hand side of [storage_volume_constraint]. *)
Definition storage_volume_expr (b : FlatPlateSurrogateData) : Q :=
  Units.h_MW_per_kJ_to_1
    ((hours_storage b * heat_load b)
     / (specific_heat_water b * temperature_cold b * dens_water b)).

Definition storage_volume_constraint (b : FlatPlateSurrogateData) : Prop :=
  storage_volume b == storage_volume_expr b.

(** The block as [build] initialises it (defaults from SAM), with the three
    surrogate inputs and the mutable cold temperature supplied. *)
Definition build (heat_load_MW hours T_hot T_cold : Q) : FlatPlateSurrogateData :=
  {| specific_heat_water := 4.181;
     dens_water := 1000;
     temperature_cold := T_cold;
     heat_load := heat_load_MW;
     hours_storage := hours;
     temperature_hot := T_hot;
     storage_volume := 10 |}.

(** The value the solver gives [storage_volume]: the constraint is an
    explicit equation for it. *)
Definition solve_storage_volume (b : FlatPlateSurrogateData) : FlatPlateSurrogateData :=
  {| specific_heat_water := specific_heat_water b;
     dens_water := dens_water b;
     temperature_cold := temperature_cold b;
     heat_load := heat_load b;
     hours_storage := hours_storage b;
     temperature_hot := temperature_hot b;
     storage_volume := storage_volume_expr b |}.

End FlatPlate.

(** ** analysis/case_studies/KBHDP/data/run_pysam_kbhdp_fpc.py *)

Module PySAM.

(** The PySAM SolarWaterHeating inputs that [run_pysam_fpc_model] reads and
    writes before the draw search. *)
Record tech_model : Type := {
  area_coll : Q;
  ncoll : Q;
  FRta : Q;
  FRUL : Q;
  custom_mains_0 : Q;     (* T_cold, C *)
  T_set : Q;              (* C *)
  system_capacity : Q;    (* kW *)
  V_tank : Q              (* m3 *)
}.

Definition set_ncoll (tm : tech_model) (v : Q) : tech_model :=
  {| area_coll := area_coll tm; ncoll := v; FRta := FRta tm; FRUL := FRUL tm;
     custom_mains_0 := custom_mains_0 tm; T_set := T_set tm;
     system_capacity := system_capacity tm; V_tank := V_tank tm |}.

Definition set_system_capacity (tm : tech_model) (v : Q) : tech_model :=
  {| area_coll := area_coll tm; ncoll := ncoll tm; FRta := FRta tm; FRUL := FRUL tm;
     custom_mains_0 := custom_mains_0 tm; T_set := T_set tm;
     system_capacity := v; V_tank := V_tank tm |}.

Definition set_T_set (tm : tech_model) (v : Q) : tech_model :=
  {| area_coll := area_coll tm; ncoll := ncoll tm; FRta := FRta tm; FRUL := FRUL tm;
     custom_mains_0 := custom_mains_0 tm; T_set := v;
     system_capacity := system_capacity tm; V_tank := V_tank tm |}.

Definition set_V_tank (tm : tech_model) (v : Q) : tech_model :=
  {| area_coll := area_coll tm; ncoll := ncoll tm; FRta := FRta tm; FRUL := FRUL tm;
     custom_mains_0 := custom_mains_0 tm; T_set := T_set tm;
     system_capacity := system_capacity tm; V_tank := v |}.

Definition system_capacity_computed (tm : tech_model) : Q :=
  area_coll tm * ncoll tm * (FRta tm - FRUL tm * 30 / 1000).

Definition cp_water : Q := 4.181.
Definition density_water : Q := 1000.

(** The tank volume assigned to [V_tank], from the system capacity, the
    set-point and the mains temperature held by the technology model. *)
Definition volume_tank (hours system_cap T_hot T_cold : Q) : Py.result Q :=
  mass_tank_water ← Py.div (hours * 3600 * system_cap) (cp_water * (T_hot - T_cold));
  Py.Ok (mass_tank_water / density_water).

(** [run_pysam_fpc_model] up to and including the assignment of [V_tank]:
    the three optional inputs are applied in the order of the source. *)
Definition run_pysam_fpc_model_design
    (tm : tech_model) (heat_load_mwt hours_storage temperature_hot : option Q)
  : Py.result tech_model :=
  let T_cold := custom_mains_0 tm in
  let heat_load := option_map (fun h => h * 1000) heat_load_mwt in
  tm1 ← match heat_load with
         | Some hl =>
             n_collectors ←
               Py.div hl (area_coll tm * (FRta tm - FRUL tm * 30 / 1000));
             let tm' := set_ncoll tm (inject_Z (Py.round n_collectors)) in
             Py.Ok (set_system_capacity tm' (system_capacity_computed tm'))
         | None => Py.Ok tm
         end;
  let tm2 := match temperature_hot with
             | Some t => set_T_set tm1 t
             | None => tm1
             end in
  match hours_storage with
  | Some h =>
      let h' := Qmax h 0.001 in
      v ← volume_tank h' (system_capacity tm2) (T_set tm2) T_cold;
      Py.Ok (set_V_tank tm2 v)
  | None => Py.Ok tm2
  end.

(** The SAM defaults of the collector, with mains water at 20 C. *)
Definition sam_defaults : tech_model :=
  {| area_coll := 2.98; ncoll := 1; FRta := 0.689; FRUL := 3.85;
     custom_mains_0 := 20; T_set := 50;
     system_capacity := 1.70903; V_tank := 0.1 |}.

End PySAM.

(** ** analysis/case_studies/KBHDP/KBHDP_ZLD.py *)

Module KBHDP_ZLD.

(** *** Connections *)

(** A port is the attribute path below [m.fs]: [m.fs.EC.product.outlet] is
    [["EC"; "product"; "outlet"]]; the head of the path is the unit. *)
Definition port : Type := list string.

Record Arc : Type := {
  arc_name : string;
  source : port;
  destination : port
}.

Definition add_primary_connections : list Arc := [
  {| arc_name := "feed_to_translator";
     source := ["feed"; "outlet"];
     destination := ["MCAS_to_TDS_translator"; "inlet"] |};
  {| arc_name := "translator_to_EC";
     source := ["MCAS_to_TDS_translator"; "outlet"];
     destination := ["EC"; "feed"; "inlet"] |};
  {| arc_name := "EC_to_UF";
     source := ["EC"; "product"; "outlet"];
     destination := ["UF"; "feed"; "inlet"] |};
  {| arc_name := "EC_to_sludge";
     source := ["EC"; "disposal"; "outlet"];
     destination := ["sludge"; "inlet"] |};
  {| arc_name := "UF_to_translator3";
     source := ["UF"; "product"; "outlet"];
     destination := ["TDS_to_NaCl_translator"; "inlet"] |};
  {| arc_name := "UF_to_waste";
     source := ["UF"; "disposal"; "outlet"];
     destination := ["UF_waste"; "inlet"] |};
  {| arc_name := "translator_to_pump";
     source := ["TDS_to_NaCl_translator"; "outlet"];
     destination := ["pump"; "inlet"] |};
  {| arc_name := "pump_to_ro";
     source := ["pump"; "outlet"];
     destination := ["RO"; "feed"; "inlet"] |};
  {| arc_name := "ro_to_product";
     source := ["RO"; "product"; "outlet"];
     destination := ["product"; "inlet"] |};
  {| arc_name := "ro_to_brine_translator";
     source := ["RO"; "disposal"; "outlet"];
     destination := ["RO_brine_to_MD_translator"; "inlet"] |};
  {| arc_name := "brine_translator_to_brine";
     source := ["RO_brine_to_MD_translator"; "outlet"];
     destination := ["brine"; "inlet"] |}
]%string.

(** The arcs of [build_md_system]. *)
Definition md_connections : list Arc := [
  {| arc_name := "feed_to_md";
     source := ["feed"; "outlet"];
     destination := ["md"; "feed"; "inlet"] |};
  {| arc_name := "md_to_product";
     source := ["md"; "permeate"; "outlet"];
     destination := ["product"; "inlet"] |};
  {| arc_name := "md_to_disposal";
     source := ["md"; "concentrate"; "outlet"];
     destination := ["disposal"; "inlet"] |}
]%string.

(** The arcs of [build_mec_system]. *)
Definition mec_connections : list Arc := [
  {| arc_name := "feed_to_unit";
     source := ["feed"; "outlet"];
     destination := ["MEC"; "unit"; "inlet"] |};
  {| arc_name := "mec_to_product";
     source := ["MEC"; "product"; "outlet"];
     destination := ["product"; "inlet"] |};
  {| arc_name := "mec_to_solids";
     source := ["MEC"; "solids"; "outlet"];
     destination := ["solids"; "inlet"] |}
]%string.

Definition unit_of (p : port) : string := hd ""%string p.

(** The unit fed by the given outlet stream of unit [u], if an arc leaves it.
    A unit with a single outlet has the port [u.outlet]; a sub-flowsheet
    has one outlet per stream, [u.<stream>.outlet]. *)
Definition fed_by (arcs : list Arc) (u : string) (stream : option string) : option string :=
  let src := match stream with
             | Some s => [u; s; "outlet"%string]
             | None => [u; "outlet"%string]
             end in
  option_map (fun a => unit_of (destination a))
             (List.find (fun a => bool_decide (source a = src)) arcs).

(** The product line: the units met when following, from [u], the single
    outlet of a unit or the [product] stream of a sub-flowsheet. *)
Fixpoint product_line (arcs : list Arc) (fuel : nat) (u : string) : list string :=
  match fuel with
  | O => [u]
  | Datatypes.S fuel' =>
      match fed_by arcs u None with
      | Some v => u :: product_line arcs fuel' v
      | None =>
          match fed_by arcs u (Some "product"%string) with
          | Some v => u :: product_line arcs fuel' v
          | None => [u]
          end
      end
  end.

(** The treatment sub-flowsheets built by [build_primary_treatment]. *)
Definition treatment_units : list string := ["EC"; "UF"; "RO"]%string.

Definition is_treatment_unit (u : string) : bool := bool_decide (u ∈ treatment_units).

(** *** The modelling framework underneath the flowsheets *)

Record CostingData : Type := {
  capital_recovery_factor : Q;
  electricity_cost : Q;
  heat_cost : Q;
  total_capital_cost : Q;
  total_operating_cost : Q
}.

Module Agg.

(** The attributes that [build_agg_costing_blk] puts on the block [b] and
    that its LCOW expression reads.  The two costs are Pyomo variables;
    the other fields are plain values. *)
Record block : Type := {
  models : list CostingData;
  base_period : Units.time_unit;
  capital_recovery_factor : Q;      (* per base period *)
  electricity_cost : Q;
  heat_cost : Q;
  product_flow : Q;                 (* m3 / s *)
  total_capital_cost : Q;
  total_operating_cost : Q
}.

End Agg.

(** What the operating-condition functions fix on the feed block. *)
Inductive feed_inputs : Type :=
| NoFeed
| PrimaryFeed (Qin_mgd : Q)
| MDFeed (flow_vol conc_tds : Q)
| MECFeed (flow_mass_water flow_mass_nacl : Q).

(** The variable store of a Pyomo model with the operations of the
    framework, of the solver and of the KBHDP component builders that the
    case study calls. *)
Class Framework (S : Type) : Type := {
  degrees_of_freedom : S -> Z;
  (** [solver.solve(m)]: optimal termination or not, and the store after. *)
  solver_solve : S -> bool * S;
  (** [value(m.fs.<blk>.properties[0].flow_vol_phase["Liq"])]. *)
  value_flow_vol : S -> string -> Q;
  (** [value(m.fs.<blk>.properties[0].conc_mass_phase_comp["Liq", "TDS"])]. *)
  value_conc_tds : S -> string -> Q;
  (** [value(m.fs.<blk>.properties[0].flow_mass_phase_comp["Liq", j])]. *)
  value_flow_mass : S -> string -> string -> Q;
  (** The values held by [m.fs.costing]. *)
  value_costing : S -> CostingData;
  (** The blocks of a flowsheet with its arcs expanded. *)
  construct : list Arc -> S;
  (** Fixing the feed block (or [calculate_state] with [hold_state]). *)
  fix_feed : feed_inputs -> S -> S;
  (** Scaling and the sequential initialisation of the units. *)
  initialize_units : S -> S;
  (** Costing modules, [cost_process], [costing.initialize], [add_LCOW]. *)
  add_costing : S -> S;
  (** Objective and the fixing or bounding of the decision variables. *)
  optimize : option Q -> option Q -> option Q -> option string -> S -> S;
  (** [SolverFactory("ipopt").solve(m_agg)] on the aggregate model: the
      values the solver loads into [total_capital_cost] and
      [total_operating_cost], whatever its termination condition, or the
      exception of the solver interface. *)
  solver_solve_agg : Agg.block -> Py.result (Q * Q)
}.

Record model (S : Type) : Type := {
  fs_arcs : list Arc;
  fs_inputs : feed_inputs;
  fs_state : S
}.

Arguments fs_arcs {S} m.
Arguments fs_inputs {S} m.
Arguments fs_state {S} m.

Definition with_state {S : Type} (m : model S) (s : S) : model S :=
  {| fs_arcs := fs_arcs m; fs_inputs := fs_inputs m; fs_state := s |}.

Definition with_inputs {S : Type} (m : model S) (i : feed_inputs) : model S :=
  {| fs_arcs := fs_arcs m; fs_inputs := i; fs_state := fs_state m |}.

Section Flowsheets.

Context {S : Type} `{Framework S}.

Definition on_state (f : S -> S) (m : model S) : model S :=
  with_state m (f (fs_state m)).

(** [solve(m, raise_on_failure)]: the results when the solver terminates
    optimally; otherwise a [RuntimeError], or the failing [assert False]. *)
Definition solve (m : model S) (raise_on_failure : bool) : Py.result (model S) :=
  let '(optimal, s) := solver_solve (fs_state m) in
  if optimal then Py.Ok (with_state m s)
  else if raise_on_failure
       then Py.Raise (Py.RuntimeError
              "The current configuration is infeasible. Please adjust the decision variables.")
       else Py.Raise Py.AssertionError.

(** **** Primary treatment *)

Record primary_kwargs : Type := {
  kw_Qin : Q;
  kw_water_recovery : option Q;
  kw_fixed_pressure : option Q;
  kw_ro_mem_area : option Q;
  kw_objective : option string
}.

Definition default_primary_kwargs : primary_kwargs :=
  {| kw_Qin := 4; kw_water_recovery := Some 0.8; kw_fixed_pressure := None;
     kw_ro_mem_area := None; kw_objective := None |}.

Definition build_primary_system : model S :=
  {| fs_arcs := []; fs_inputs := NoFeed; fs_state := construct [] |}.

Definition apply_primary_connections (m : model S) : model S :=
  {| fs_arcs := add_primary_connections;
     fs_inputs := fs_inputs m;
     fs_state := construct add_primary_connections |}.

Definition set_primary_operating_conditions (m : model S) (Qin : Q) : model S :=
  on_state (fix_feed (PrimaryFeed Qin)) (with_inputs m (PrimaryFeed Qin)).

Definition build_and_run_primary_treatment (kw : primary_kwargs)
  : Py.result (model S) :=
  let m := build_primary_system in
  let m := apply_primary_connections m in
  let m := set_primary_operating_conditions m (kw_Qin kw) in
  let m := on_state initialize_units m in
  let m := on_state (optimize (kw_water_recovery kw) (kw_fixed_pressure kw)
                              (kw_ro_mem_area kw) (kw_objective kw)) m in
  solve m true.

(** [value(m.fs.brine.flow_mgd)]. *)
Definition brine_flow_mgd (m : model S) : Q :=
  Units.m3_s_to_mgd (value_flow_vol (fs_state m) "brine").

(** **** Membrane distillation *)

Record md_build : Type := {
  inlet_flow_rate : Q;     (* m3 / s *)
  inlet_salinity : Q;      (* kg / m3 *)
  water_recovery : Q;
  md_model : model S
}.

Definition build_md_system (Qin Cin wr : Q) : md_build :=
  {| inlet_flow_rate := Units.mgd_to_m3_s Qin;
     inlet_salinity := Units.g_L_to_kg_m3 Cin;
     water_recovery := wr;
     md_model := {| fs_arcs := md_connections; fs_inputs := NoFeed;
                    fs_state := construct md_connections |} |}.

Definition set_md_operating_conditions (b : md_build) : model S :=
  let i := MDFeed (inlet_flow_rate b) (inlet_salinity b) in
  on_state (fix_feed i) (with_inputs (md_model b) i).

Definition init_md_system (m : model S) : model S := on_state initialize_units m.

(** The model on which [build_and_run_md_system] checks the degrees of
    freedom: built, initialised, solved once and costed. *)
Definition md_before_final_solve (Qin Cin wr : Q) : Py.result (model S) :=
  let m := build_md_system Qin Cin wr in
  let m := set_md_operating_conditions m in
  let m := init_md_system m in
  m ← solve m true;
  Py.Ok (on_state add_costing m).

Definition build_and_run_md_system (Qin Cin wr : Q) : Py.result (model S) :=
  m ← md_before_final_solve Qin Cin wr;
  Py.assert (Z.eqb (degrees_of_freedom (fs_state m)) 0);;
  solve m true.

(** [value(m.fs.disposal.flow_mgd)]. *)
Definition disposal_flow_mgd (m : model S) : Q :=
  Units.m3_s_to_mgd (value_flow_vol (fs_state m) "disposal").

(** **** Multi-effect crystallisation *)

Record mec_kwargs : Type := {
  kw_flow_mass_water : option Q;
  kw_flow_mass_tds : option Q
}.

Definition rho : Q := 1000.

(** The two feed mass flows fixed by [set_mec_operating_conditions].  A
    missing [Qin] or [tds] is Python's [None], on which the arithmetic
    raises.  [Qin] is given its units only where the water mass flow is
    computed from it: with [flow_mass_water] supplied and [flow_mass_tds]
    missing, [Qin * tds] is a concentration, which [pyunits.convert] does
    not convert to a mass flow. *)
Definition set_mec_operating_conditions
    (m : model S) (Qin tds : option Q) (kw : mec_kwargs) : Py.result (model S) :=
  water ← match kw_flow_mass_water kw with
          | None =>
              match Qin with
              | Some q => Py.Ok (Units.mgd_to_m3_s q * rho)
              | None => Py.Raise Py.TypeError
              end
          | Some w => Py.Ok w
          end;
  nacl ← match kw_flow_mass_tds kw with
         | None =>
             match kw_flow_mass_water kw, Qin, tds with
             | None, Some q, Some t => Py.Ok (Units.mgd_to_m3_s q * Units.g_L_to_kg_m3 t)
             | Some _, Some _, Some _ => Py.Raise Py.InconsistentUnitsError
             | _, _, _ => Py.Raise Py.TypeError
             end
         | Some t => Py.Ok t
         end;
  let i := MECFeed water nacl in
  Py.Ok (on_state (fix_feed i) (with_inputs m i)).

Definition build_mec_system (number_effects : nat) : model S :=
  {| fs_arcs := mec_connections; fs_inputs := NoFeed;
     fs_state := construct mec_connections |}.

Definition init_mec_system (m : model S) : model S :=
  on_state add_costing (on_state initialize_units m).

Definition build_and_run_mec_system
    (Qin Cin : option Q) (number_effects : nat) (kw : mec_kwargs)
  : Py.result (model S) :=
  let m := build_mec_system number_effects in
  m ← set_mec_operating_conditions m Qin Cin kw;
  let m := init_mec_system m in
  solve m true.

End Flowsheets.

(** *** The aggregate costing block *)

Definition same_parameters (crf elec heat : Q) (m : CostingData) : bool :=
  Qeq_bool (capital_recovery_factor m) crf
  && Qeq_bool (electricity_cost m) elec
  && Qeq_bool (heat_cost m) heat.

(** [build_agg_costing_blk]: the parameters are read from the first model
    and asserted equal on every model; the two cost variables start at
    their [initialize] values.  (The bookkeeping of registered flows that
    the function also copies is not read by the LCOW expression.) *)
Definition build_agg_costing_blk
    (models : list CostingData) (base_period : Units.time_unit) (product_flow : Q)
  : Py.result Agg.block :=
  match models with
  | [] => Py.Raise Py.IndexError
  | m0 :: _ =>
      let crf := capital_recovery_factor m0 in
      let elec := electricity_cost m0 in
      let heat := heat_cost m0 in
      Py.assert (forallb (same_parameters crf elec heat) models);;
      Py.Ok {| Agg.models := models;
               Agg.base_period := base_period;
               Agg.capital_recovery_factor := crf;
               Agg.electricity_cost := elec;
               Agg.heat_cost := heat;
               Agg.product_flow := product_flow;
               Agg.total_capital_cost := 1000000;
               Agg.total_operating_cost := 10000 |}
  end.

Definition eq_total_capital_cost (b : Agg.block) : Prop :=
  Agg.total_capital_cost b == Py.sum (map total_capital_cost (Agg.models b)).

Definition eq_total_operating_cost (b : Agg.block) : Prop :=
  Agg.total_operating_cost b == Py.sum (map total_operating_cost (Agg.models b)).

(** The block is solved when its variables satisfy its two constraints. *)
Definition agg_solved (b : Agg.block) : Prop :=
  eq_total_capital_cost b /\ eq_total_operating_cost b.

(** The block with values given to its two variables. *)
Definition with_costs (b : Agg.block) (capital operating : Q) : Agg.block :=
  {| Agg.models := Agg.models b;
     Agg.base_period := Agg.base_period b;
     Agg.capital_recovery_factor := Agg.capital_recovery_factor b;
     Agg.electricity_cost := Agg.electricity_cost b;
     Agg.heat_cost := Agg.heat_cost b;
     Agg.product_flow := Agg.product_flow b;
     Agg.total_capital_cost := capital;
     Agg.total_operating_cost := operating |}.

(** The assignment the solver reaches: each constraint is an explicit
    equation for its variable. *)
Definition solve_agg (b : Agg.block) : Agg.block :=
  with_costs b (Py.sum (map total_capital_cost (Agg.models b)))
               (Py.sum (map total_operating_cost (Agg.models b))).

(** The value of the [LCOW] expression: currency per cubic metre.  The
    numerator is in currency per base period and the denominator in cubic
    metres per base period, so the closing conversion is by one. *)
Definition LCOW (b : Agg.block) : Py.result Q :=
  let numerator :=
    Agg.total_capital_cost b * Agg.capital_recovery_factor b
    + Agg.total_operating_cost b in
  let denominator := Units.per_second_to_per (Agg.base_period b) (Agg.product_flow b) in
  Py.div numerator denominator.

(** Three solved models with the same economic parameters. *)
Definition example_costings : list CostingData := [
  {| capital_recovery_factor := 0.1; electricity_cost := 0.066; heat_cost := 0.0166;
     total_capital_cost := 1000000; total_operating_cost := 100000 |};
  {| capital_recovery_factor := 0.1; electricity_cost := 0.066; heat_cost := 0.0166;
     total_capital_cost := 2000000; total_operating_cost := 200000 |};
  {| capital_recovery_factor := 0.1; electricity_cost := 0.066; heat_cost := 0.0166;
     total_capital_cost := 3000000; total_operating_cost := 300000 |}
].

(** A framework in which every model is square and every solve ends
    optimally, and one in which a degree of freedom is always left. *)
Definition square_framework : Framework unit :=
  {| degrees_of_freedom := fun _ => 0%Z;
     solver_solve := fun s => (true, s);
     value_flow_vol := fun _ _ => 0.05;
     value_conc_tds := fun _ _ => 60;
     value_flow_mass := fun _ _ j => if String.eqb j "H2O" then 50 else 3;
     value_costing := fun _ => hd {| capital_recovery_factor := 0;
                                      electricity_cost := 0; heat_cost := 0;
                                      total_capital_cost := 0;
                                      total_operating_cost := 0 |} example_costings;
     construct := fun _ => tt;
     fix_feed := fun _ s => s;
     initialize_units := fun s => s;
     add_costing := fun s => s;
     optimize := fun _ _ _ _ s => s;
     solver_solve_agg := fun b =>
       Py.Ok (Agg.total_capital_cost (solve_agg b),
              Agg.total_operating_cost (solve_agg b)) |}.

Definition underdetermined_framework : Framework unit :=
  {| degrees_of_freedom := fun _ => 1%Z;
     solver_solve := fun s => (true, s);
     value_flow_vol := fun _ _ => 0.05;
     value_conc_tds := fun _ _ => 60;
     value_flow_mass := fun _ _ _ => 1;
     value_costing := value_costing (Framework := square_framework);
     construct := fun _ => tt;
     fix_feed := fun _ s => s;
     initialize_units := fun s => s;
     add_costing := fun s => s;
     optimize := fun _ _ _ _ s => s;
     solver_solve_agg := fun b =>
       Py.Ok (Agg.total_capital_cost (solve_agg b),
              Agg.total_operating_cost (solve_agg b)) |}.

(** *** The full train *)

Section Train.

Context {S : Type} `{Framework S}.

Definition build_agg_model (m1 m_md m_mec : model S) : Py.result Agg.block :=
  let product_flows :=
    map (fun m => value_flow_vol (fs_state m) "product") [m1; m_md; m_mec] in
  let flow_treated := Py.sum product_flows in
  build_agg_costing_blk
    (map (fun m => value_costing (fs_state m)) [m1; m_md; m_mec])
    Units.year flow_treated.

Definition build_and_run_kbhdp_zld (primary_kwargs : primary_kwargs)
  : Py.result (model S * model S * model S) :=
  m1 ← build_and_run_primary_treatment primary_kwargs;
  let flow_to_md := brine_flow_mgd m1 in
  let tds_to_md := value_conc_tds (fs_state m1) "brine" in
  m_md ← build_and_run_md_system flow_to_md tds_to_md 0.5;
  let flow_mass_water := value_flow_mass (fs_state m_md) "disposal" "H2O" in
  let flow_mass_tds := value_flow_mass (fs_state m_md) "disposal" "TDS" in
  let mec_kwargs := {| kw_flow_mass_water := Some flow_mass_water;
                       kw_flow_mass_tds := Some flow_mass_tds |} in
  m_mec ← build_and_run_mec_system None None 4 mec_kwargs;
  m_agg ← build_agg_model m1 m_md m_mec;
  (* the termination condition of the solve is printed, not tested *)
  '(capital, operating) ← solver_solve_agg m_agg;
  let m_agg := with_costs m_agg capital operating in
  (* [m_agg.fs.costing.LCOW.display()] evaluates the expression *)
  LCOW m_agg;;
  Py.Ok (m1, m_md, m_mec).

End Train.

End KBHDP_ZLD.

(** ** property_models/fo_draw_solution_properties.py *)

Module FODrawSolution.

(** A variable of a block is named by its component and its index within
    the component: [flow_mass_phase_comp["Liq", "H2O"]] is
    [("flow_mass_phase_comp", ["Liq"; "H2O"])], the scalar [temperature] is
    [("temperature", [])]. *)
Definition var_id : Type := string * list string.

Record Var : Type := {
  value : Q;
  fixed : bool
}.

(** An activated or deactivated equality constraint with the variables of
    its body. *)
Record Constraint : Type := {
  active : bool;
  body : list var_id
}.

(** One element of an indexed state block: its variables (the state
    variables and the properties built on demand) and its constraints. *)
Record StateBlockData : Type := {
  vars : gmap var_id Var;
  constraints : list Constraint
}.

(** The indexed block, with the elements under their time index. *)
Record StateBlock : Type := {
  name : string;
  data : gmap Z StateBlockData
}.

(** The dictionary returned by [fix_state_vars]: the Python key [(k, n, i)]
    is curried into the element key [k] and the variable [(n, i)]. *)
Abbreviation Flags := (gmap Z (gmap var_id bool)).

(** Initial guesses, by state-variable name and index. *)
Abbreviation StateArgs := (gmap string (gmap (list string) Q)).

(** The keys of [define_state_vars]. *)
Definition define_state_vars : list string :=
  ["flow_mass_phase_comp"; "temperature"; "pressure"]%string.

Definition is_state_var (id : var_id) : bool :=
  bool_decide (id.1 ∈ define_state_vars).

Definition fix_ (v : Var) : Var := {| value := value v; fixed := true |}.
Definition fix_at (v : Var) (x : Q) : Var := {| value := x; fixed := true |}.
Definition unfix (v : Var) : Var := {| value := value v; fixed := false |}.

Definition with_vars (b : StateBlockData) (vs : gmap var_id Var) : StateBlockData :=
  {| vars := vs; constraints := constraints b |}.

Definition with_data (blk : StateBlock) (d : gmap Z StateBlockData) : StateBlock :=
  {| name := name blk; data := d |}.

(** The fixed flag of a variable of the block, when the variable exists. *)
Definition fixed_status (blk : StateBlock) (k : Z) (id : var_id) : option bool :=
  b ← data blk !! k; v ← vars b !! id; Some (fixed v).

(** *** The helpers of [idaes.core.util.initialization] and
        [idaes.core.util.model_statistics] that the state block calls *)

(** An unfixed state variable named in [state_args] needs a guess under
    its own index. *)
Definition guess_present (state_args : StateArgs) (id : var_id) (v : Var) : Prop :=
  is_state_var id = true -> fixed v = false ->
  forall g, state_args !! id.1 = Some g -> is_Some (g !! id.2).

#[global] Instance guess_present_dec state_args id v :
  Decision (guess_present state_args id v).
Proof.
  unfold guess_present.
  destruct (is_state_var id); [| left; discriminate].
  destruct (fixed v); [left; discriminate |].
  destruct (state_args !! id.1) as [g |]; [| left; discriminate].
  destruct (g !! id.2) as [x |] eqn:E.
  - left. intros _ _ g' Hg. injection Hg as <-. rewrite E. eauto.
  - right. intros Hc. destruct (Hc eq_refl eq_refl g eq_refl) as [x Hx]. congruence.
Defined.

Definition fix_state_var (state_args : StateArgs) (id : var_id) (v : Var) : Var :=
  if is_state_var id then
    if fixed v then v
    else match state_args !! id.1 with
         | Some g => match g !! id.2 with
                     | Some x => fix_at v x
                     | None => fix_ v
                     end
         | None => fix_ v
         end
  else v.

Definition state_flags (b : StateBlockData) : gmap var_id bool :=
  map_imap (fun id v => if is_state_var id then Some (fixed v) else None) (vars b).

(** [fix_state_vars(blk, state_args)]: records for every state variable
    whether it was fixed already, and fixes the others at the guess or at
    their current value. *)
Definition fix_state_vars (blk : StateBlock) (state_args : StateArgs)
  : Py.result (Flags * StateBlock) :=
  if bool_decide (map_Forall (fun _ b => map_Forall (guess_present state_args) (vars b))
                             (data blk))
  then Py.Ok (state_flags <$> data blk,
              with_data blk
                ((fun b => with_vars b (map_imap (fun id v => Some (fix_state_var state_args id v))
                                                 (vars b))) <$> data blk))
  else Py.Raise (Py.ConfigurationError
                   "Indexes in state_args did not agree with those of state variable").

Definition flag_of (flags : Flags) (k : Z) (id : var_id) : option bool :=
  fl ← flags !! k; fl !! id.

Definition revert_state_var (flags : Flags) (k : Z) (id : var_id) (v : Var) : Var :=
  if is_state_var id then
    match flag_of flags k id with
    | Some false => unfix v
    | _ => v
    end
  else v.

(** [revert_state_vars(blk, flags)]: unfixes the state variables whose flag
    is false; a state variable without a flag is a configuration error. *)
Definition revert_state_vars (blk : StateBlock) (flags : Flags) : Py.result StateBlock :=
  if bool_decide (map_Forall (fun k b =>
                    map_Forall (fun id _ => is_state_var id = true ->
                                            is_Some (flag_of flags k id)) (vars b))
                  (data blk))
  then Py.Ok (with_data blk
                (map_imap (fun k b =>
                   Some (with_vars b (map_imap (fun id v => Some (revert_state_var flags k id v))
                                               (vars b))))
                 (data blk)))
  else Py.Raise (Py.ConfigurationError
                   "Indices of flags provided do not match with indices of the StateBlock").

Definition is_unfixed (b : StateBlockData) (id : var_id) : bool :=
  match vars b !! id with
  | Some v => negb (fixed v)
  | None => false
  end.

Definition activated_equalities (b : StateBlockData) : list Constraint :=
  List.filter active (constraints b).

(** The unfixed variables that appear in activated equalities, each once. *)
Definition unfixed_variables_in_activated_equalities (b : StateBlockData) : list var_id :=
  List.filter (is_unfixed b) (remove_dups (concat (map body (activated_equalities b)))).

Definition degrees_of_freedom (b : StateBlockData) : Z :=
  (Z.of_nat (length (unfixed_variables_in_activated_equalities b))
   - Z.of_nat (length (activated_equalities b)))%Z.

Definition number_unfixed_variables (b : StateBlockData) : nat :=
  size (filter (fun kv => fixed kv.2 = false) (vars b)).

(** *** [_FODrawSolutionStateBlock] *)

Section Methods.

(** [solve_indexed_blocks(opt, [self])] with [check_optimal_termination]:
    whether the solver ended optimally, and the values it proposes. *)
Variable solve_indexed_blocks : gmap Z StateBlockData -> bool * (Z -> var_id -> Q).

(** The solver assigns the unfixed variables; fixed ones are constants. *)
Definition assign (x : Q) (v : Var) : Var :=
  if fixed v then v else {| value := x; fixed := false |}.

Definition load_solution (sol : Z -> var_id -> Q) (d : gmap Z StateBlockData)
  : gmap Z StateBlockData :=
  map_imap (fun k b =>
    Some (with_vars b (map_imap (fun id v => Some (assign (sol k id) v)) (vars b)))) d.

(** The check that every element has zero degrees of freedom: the first
    element that has not stops the initialisation. *)
Definition check_dof (blk : StateBlock) : Py.result unit :=
  match List.find (fun kb => negb (degrees_of_freedom kb.2 =? 0)%Z)
                  (map_to_list (data blk)) with
  | Some kb => Py.Raise (Py.InitializationError
                           (Py.DofNonzero (name blk) (degrees_of_freedom kb.2)))
  | None => Py.Ok tt
  end.

Definition skip_solve (blk : StateBlock) : bool :=
  forallb (fun kb => Nat.eqb (number_unfixed_variables kb.2) 0) (map_to_list (data blk)).

Definition release_state (blk : StateBlock) (flags : option Flags) : Py.result StateBlock :=
  match flags with
  | None => Py.Ok blk
  | Some fl => revert_state_vars blk fl
  end.

(** [initialize]: the returned value ([None] or the flags) and the block
    after the call. *)
Definition initialize
    (blk : StateBlock) (state_args : StateArgs) (state_vars_fixed hold_state : bool)
  : Py.result (option Flags * StateBlock) :=
  '(flags, blk) ← fix_state_vars blk state_args;
  check_dof blk;;
  blk ← (if skip_solve blk then Py.Ok blk
         else let '(optimal, sol) := solve_indexed_blocks (data blk) in
              if optimal then Py.Ok (with_data blk (load_solution sol (data blk)))
              else Py.Raise (Py.InitializationError Py.SolveFailed));
  if negb state_vars_fixed then
    if hold_state then Py.Ok (Some flags, blk)
    else blk ← release_state blk (Some flags); Py.Ok (None, blk)
  else Py.Ok (None, blk).

End Methods.

(** *** A state block at one time point *)

Definition flow_H2O : var_id := ("flow_mass_phase_comp", ["Liq"; "H2O"])%string.
Definition flow_DrawSolution : var_id :=
  ("flow_mass_phase_comp", ["Liq"; "DrawSolution"])%string.
Definition temperature : var_id := ("temperature", [])%string.
Definition pressure : var_id := ("pressure", [])%string.
Definition mass_frac_H2O : var_id := ("mass_frac_phase_comp", ["Liq"; "H2O"])%string.
Definition mass_frac_DrawSolution : var_id :=
  ("mass_frac_phase_comp", ["Liq"; "DrawSolution"])%string.

(** The element as [build] and [_mass_frac_phase_comp] construct it: the
    state variables at their initial values and the mass fractions with
    their two defining equalities.  [frac_fixed] says whether the user has
    fixed the mass fraction of water beforehand. *)
Definition element (frac_fixed : bool) : StateBlockData :=
  {| vars := list_to_map [
       (flow_H2O, {| value := 0.2; fixed := false |});
       (flow_DrawSolution, {| value := 0.8; fixed := false |});
       (temperature, {| value := 298.15; fixed := false |});
       (pressure, {| value := 101325; fixed := false |});
       (mass_frac_H2O, {| value := 0.1; fixed := frac_fixed |});
       (mass_frac_DrawSolution, {| value := 0.1; fixed := false |})
     ];
     constraints := [
       {| active := true; body := [mass_frac_H2O; flow_H2O; flow_DrawSolution] |};
       {| active := true; body := [mass_frac_DrawSolution; flow_DrawSolution; flow_H2O] |}
     ] |}.

Definition properties (frac_fixed : bool) : StateBlock :=
  {| name := "fs.properties"; data := {[ 0%Z := element frac_fixed ]} |}.

(** A solver that ends optimally with the mass fractions of the flows. *)
Definition ideal_solver (d : gmap Z StateBlockData) : bool * (Z -> var_id -> Q) :=
  (true, fun _ id => if bool_decide (id = mass_frac_H2O) then 0.2 else 0.8).

End FODrawSolution.

(** ** costing: the REFLO costing packages exercised by
       costing/tests/test_reflo_watertap_costing_package.py *)

Module REFLOCosting.

(** The value of a costing parameter: the number held by a [Var] or
    [Param], or a units object such as [USD_2021] or [year]. *)
Inductive pval : Type :=
| PNum (x : Q)
| PUnit (u : string).

(** Numbers are compared by value, units objects by identity. *)
Definition pval_eqb (a b : pval) : bool :=
  match a, b with
  | PNum x, PNum y => Qeq_bool x y
  | PUnit u, PUnit v => bool_decide (u = v)
  | _, _ => false
  end.

Inductive Domain : Type := Reals | NonNegativeReals.

Definition within (d : Domain) (x : Q) : bool :=
  match d with
  | Reals => true
  | NonNegativeReals => Qle_bool 0 x
  end.

Inductive costing_kind : Type := TreatmentCosting | EnergyCosting.

#[global] Instance costing_kind_eq_dec : EqDecision costing_kind.
Proof. solve_decision. Defined.

(** A treatment or energy costing block: its global parameters and the
    electricity flows that the unit costing blocks registered on it with
    [cost_flow] (consumption positive, generation negative). *)
Record CostingBlock : Type := {
  kind : costing_kind;
  params : gmap string pval;
  electricity_flows : list Q
}.

(** The parameters with which a costing block is built, as
    [test_default_build] finds them. *)
Definition default_params : gmap string pval :=
  <["electricity_cost" := PNum 0]>
  (<["heat_cost" := PNum 0]>
  (<["base_currency" := PUnit "USD_2021"]>
  (<["base_period" := PUnit "year"]> ∅))).

Definition new_costing (k : costing_kind) : CostingBlock :=
  {| kind := k; params := default_params; electricity_flows := [] |}.

(** [blk.<name>.fix(v)] on a parameter, or the assignment of a units
    object to [base_currency]. *)
Definition set_param (b : CostingBlock) (n : string) (v : pval) : CostingBlock :=
  {| kind := kind b; params := <[n := v]> (params b);
     electricity_flows := electricity_flows b |}.

(** A treatment unit registers its electricity consumption, an energy unit
    the negative of the electricity it generates. *)
Definition cost_unit (b : CostingBlock) (electricity : Q) : CostingBlock :=
  {| kind := kind b; params := params b;
     electricity_flows :=
       electricity_flows b ++
       [match kind b with
        | TreatmentCosting => electricity
        | EnergyCosting => - electricity
        end] |}.

(** The flowsheet as the system costing block sees it: the named
    components, of which some are costing blocks. *)
Inductive component : Type :=
| Costing (b : CostingBlock)
| Other.

Definition flowsheet : Type := list (string * component).

(** The first costing block of the given kind among the components. *)
Fixpoint find_costing (k : costing_kind) (fs : flowsheet) : option CostingBlock :=
  match fs with
  | [] => None
  | (_, Costing b) :: rest =>
      if bool_decide (kind b = k) then Some b else find_costing k rest
  | (_, Other) :: rest => find_costing k rest
  end.

Definition missing_block_msg (which : string) : string :=
  String.append "REFLOSystemCosting package requires a "
    (String.append which " block but one was not found.").

Definition different_value_msg (cp : string) : string :=
  String.append "The common costing parameter "
    (String.append cp
       (String.append
          " was found to have a different value on the energy and treatment costing blocks. "
          "Common costing parameters must be equivalent across all costing blocks to use REFLOSystemCosting.")).

Definition getattr (b : CostingBlock) (n : string) : Py.result pval :=
  match params b !! n with
  | Some v => Py.Ok v
  | None => Py.Raise (Py.AttributeError n)
  end.

(** The system-level block: its own parameters and the two blocks it
    reconciles. *)
Record SystemCosting : Type := {
  sys_params : gmap string pval;
  treatment : CostingBlock;
  energy : CostingBlock;
  process_costs_built : bool
}.

(** Modelled from the spec: the consistency check on shared economic
    parameters made when a REFLOSystemCosting block is constructed (the
    package itself is not among the sources; the tests fix its messages).
    Each common parameter is read on the treatment and on the energy block;
    a difference raises [ValueError], agreement copies the value to the
    system block. *)
Fixpoint reconcile_common_params
    (common_params : list string) (t e : CostingBlock) (acc : gmap string pval)
  : Py.result (gmap string pval) :=
  match common_params with
  | [] => Py.Ok acc
  | cp :: rest =>
      tp ← getattr t cp;
      ep ← getattr e cp;
      if pval_eqb tp ep
      then reconcile_common_params rest t e (<[cp := tp]> acc)
      else Py.Raise (Py.ValueError (different_value_msg cp))
  end.

(** Modelled from the spec: the construction of a REFLOSystemCosting block
    on a flowsheet (not among the sources).  It needs a treatment and an
    energy costing block and reconciles their common parameters. *)
Definition REFLOSystemCosting (common_params : list string) (fs : flowsheet)
  : Py.result SystemCosting :=
  t ← match find_costing TreatmentCosting fs with
      | Some t => Py.Ok t
      | None => Py.Raise (Py.ValueError (missing_block_msg "TreatmentCosting"))
      end;
  e ← match find_costing EnergyCosting fs with
      | Some e => Py.Ok e
      | None => Py.Raise (Py.ValueError (missing_block_msg "EnergyCosting"))
      end;
  ps ← reconcile_common_params common_params t e default_params;
  Py.Ok {| sys_params := ps; treatment := t; energy := e;
           process_costs_built := false |}.

(** Modelled from the spec: [cost_process] of the system block (not among
    the sources) builds the aggregate variables and constraints and leaves
    the parameters as they are. *)
Definition cost_process (s : SystemCosting) : SystemCosting :=
  {| sys_params := sys_params s; treatment := treatment s; energy := energy s;
     process_costs_built := true |}.

(** The values of the electricity variables of a solved flowsheet. *)
Record ElectricitySolution : Type := {
  treatment_aggregate_flow_electricity : Q;
  energy_aggregate_flow_electricity : Q;
  aggregate_flow_electricity : Q;
  aggregate_flow_electricity_purchased : Q;
  aggregate_flow_electricity_sold : Q;
  frac_elec_from_grid : Q
}.

(** Electricity generated by the energy units and consumed by the
    treatment units. *)
Definition electricity_generated (s : SystemCosting) : Q :=
  - Py.sum (electricity_flows (energy s)).

Definition electricity_consumed (s : SystemCosting) : Q :=
  Py.sum (electricity_flows (treatment s)).

(** Modelled from the spec: the reconciliation of the registered flows
    into the grid purchase and sale balance (the constraints are not among
    the sources).  Each costing block aggregates the flows registered on
    it; what is purchased from the grid and what is generated covers what
    is consumed and what is sold; the system flow is the net exchange with
    the grid; the grid fraction is the part of the consumption that is
    purchased; purchases and sales stay in their declared domain. *)
Definition solved (s : SystemCosting) (x : ElectricitySolution) : Prop :=
  treatment_aggregate_flow_electricity x == Py.sum (electricity_flows (treatment s))
  /\ energy_aggregate_flow_electricity x == Py.sum (electricity_flows (energy s))
  /\ aggregate_flow_electricity_purchased x + - energy_aggregate_flow_electricity x
     == treatment_aggregate_flow_electricity x + aggregate_flow_electricity_sold x
  /\ aggregate_flow_electricity x
     == aggregate_flow_electricity_purchased x - aggregate_flow_electricity_sold x
  /\ frac_elec_from_grid x * treatment_aggregate_flow_electricity x
     == aggregate_flow_electricity_purchased x
  /\ within NonNegativeReals (aggregate_flow_electricity_purchased x) = true
  /\ within NonNegativeReals (aggregate_flow_electricity_sold x) = true.

(** The solution in which the grid is used one way only: the shortfall is
    purchased or the surplus is sold. *)
Definition solve_electricity (s : SystemCosting) : ElectricitySolution :=
  let consumed := electricity_consumed s in
  let generated := electricity_generated s in
  let purchased := Qmax 0 (consumed - generated) in
  {| treatment_aggregate_flow_electricity := consumed;
     energy_aggregate_flow_electricity := - generated;
     aggregate_flow_electricity := consumed - generated;
     aggregate_flow_electricity_purchased := purchased;
     aggregate_flow_electricity_sold := Qmax 0 (generated - consumed);
     frac_elec_from_grid := purchased / consumed |}.

(** The flowsheets of the tests: a treatment block whose unit consumes
    electricity and an energy block whose unit generates it. *)
Definition test_flowsheet (consumption generation : Q) : flowsheet := [
  ("treatment.costing", Costing (cost_unit (new_costing TreatmentCosting) consumption));
  ("treatment.unit", Other);
  ("energy.costing", Costing (cost_unit (new_costing EnergyCosting) generation));
  ("energy.unit", Other)
]%string.

(** The flowsheet of [test_no_energy_treatment_block]. *)
Definition treatment_only_flowsheet : flowsheet := [
  ("treatment.costing", Costing (new_costing TreatmentCosting));
  ("treatment.unit", Other)
]%string.

(** The flowsheet of [build_default] with parameters set on the two
    costing blocks. *)
Definition default_flowsheet (on_treatment on_energy : list (string * pval)) : flowsheet := [
  ("treatment.costing",
   Costing (fold_left (fun b nv => set_param b nv.1 nv.2) on_treatment
                      (new_costing TreatmentCosting)));
  ("treatment.unit", Other);
  ("energy.costing",
   Costing (fold_left (fun b nv => set_param b nv.1 nv.2) on_energy
                      (new_costing EnergyCosting)));
  ("energy.unit", Other)
]%string.

(** The common parameters that the tests exercise. *)
Definition tested_common_params : list string :=
  ["electricity_cost"; "base_currency"; "base_period"]%string.

(** The two costing blocks hold every common parameter. *)
Definition holds_params (common_params : list string) (b : CostingBlock) : Prop :=
  forall cp, cp ∈ common_params -> is_Some (params b !! cp).

Definition agree (t e : CostingBlock) (cp : string) : Prop :=
  exists v ve, params t !! cp = Some v /\ params e !! cp = Some ve
               /\ pval_eqb v ve = true.

Definition differ (t e : CostingBlock) (cp : string) : Prop :=
  exists v ve, params t !! cp = Some v /\ params e !! cp = Some ve
               /\ pval_eqb v ve = false.

End REFLOCosting.

(** ** flat_plate_surrogate.py: the collector-sizing constraints *)

Module FlatPlateSizing.

(** The parameters and variables of [FlatPlateSurrogateData.build] that the
    two collector constraints read or determine. *)
Record Sizing : Type := {
  FR_ta : Q;                 (* kW / m2 *)
  FR_UL : Q;                 (* kW / (m2 K) *)
  factor_delta_T : Q;        (* K *)
  collector_area_per : Q;    (* m2 *)
  heat_load : Q;             (* MW *)
  collector_area_total : Q;  (* m2 *)
  number_collectors : Q
}.

(** [pyunits.convert(x * MW, to_units = kW)]. *)
Definition MW_to_kW (x : Q) : Q := x * 1000.

Definition collector_area_total_constraint (b : Sizing) : Prop :=
  collector_area_total b * (FR_ta b - FR_UL b * factor_delta_T b)
  == MW_to_kW (heat_load b).

Definition number_collectors_constraint (b : Sizing) : Prop :=
  number_collectors b == collector_area_total b / collector_area_per b.

(** The bounds declared on the three variables. *)
Definition within_bounds (b : Sizing) : Prop :=
  0 <= collector_area_total b /\ 1 <= number_collectors b
  /\ 100 <= heat_load b <= 1000.

(** The block as [build] initialises it, with the heat load supplied. *)
Definition build_sizing (heat_load_MW : Q) : Sizing :=
  {| FR_ta := 0.689; FR_UL := 3.85; factor_delta_T := 0.03;
     collector_area_per := 2.98;
     heat_load := heat_load_MW;
     collector_area_total := 3;
     number_collectors := 1 |}.

(** The block with values given to its two sizing variables. *)
Definition with_sizing (b : Sizing) (area number : Q) : Sizing :=
  {| FR_ta := FR_ta b; FR_UL := FR_UL b; factor_delta_T := factor_delta_T b;
     collector_area_per := collector_area_per b;
     heat_load := heat_load b;
     collector_area_total := area;
     number_collectors := number |}.

End FlatPlateSizing.

(** ** run_pysam_kbhdp_fpc.py: [run_pysam_fpc_model] with its draw search *)

Module PySAMRun.

Import PySAM.

(** The SolarWaterHeating model object: the inputs of the design step and
    the inputs written before the search. *)
Record swh : Type := {
  inputs : tech_model;
  test_flow : Q;
  mdot : Q;          (* kg / s *)
  T_tank_max : Q;    (* C *)
  pipe_length : Q;   (* m *)
  pump_power : Q;    (* W *)
  scaled_draw : Q    (* kg / h, the same in each of the 8760 hours *)
}.

(** The outputs of one execution that the function reads; the hourly
    arrays have 8760 entries. *)
Record Outputs : Type := {
  T_deliv : list Q;
  draw : list Q;
  annual_Q_deliv : Q;
  P_pump : list Q;
  Q_aux : list Q
}.

Record results : Type := {
  heat_annual : Q;
  electricity_annual : Q;
  system_capacity_actual : Q;
  r_scaled_draw : Q;
  temperature_delivered : Q
}.

(** [np.mean] of a non-empty array. *)
Definition np_mean (l : list Q) : Q := Py.sum l / inject_Z (Z.of_nat (length l)).

(** [np.linspace(start, stop, num)] for a positive number of points. *)
Definition linspace (start stop : Q) (num : positive) : list Q :=
  match num with
  | 1%positive => [start]
  | _ =>
      let step := (stop - start) / inject_Z (Z.pos num - 1) in
      map (fun i => start + inject_Z (Z.of_nat i) * step) (seq 0 (Pos.to_nat num))
  end.

Definition Qlt_bool (a b : Q) : bool := negb (Qle_bool b a).

(** [lb < t < ub]. *)
Definition between (lb ub t : Q) : bool := Qlt_bool lb t && Qlt_bool t ub.

Definition set_scaled_draw (tm : swh) (sd : Q) : swh :=
  {| inputs := inputs tm; test_flow := test_flow tm; mdot := mdot tm;
     T_tank_max := T_tank_max tm; pipe_length := pipe_length tm;
     pump_power := pump_power tm; scaled_draw := sd |}.

(** The local variables of the search and the model object. *)
Record search : Type := {
  s_model : swh;
  s_outputs : option Outputs;   (* [None] before the first execution *)
  temp_delivered : Q;
  num_runs : nat
}.

Section Run.

(** [tech_model.execute()]: the simulation, a function of the inputs. *)
Variable execute : swh -> Outputs.

(** One [for sd in np.linspace(...)] loop with its two [break]s. *)
Fixpoint scan (lb ub : Q) (pts : list Q) (s : search) : search :=
  match pts with
  | [] => s
  | sd :: rest =>
      let tm := set_scaled_draw (s_model s) sd in
      let out := execute tm in
      let t := np_mean (T_deliv out) in
      let s' := {| s_model := tm; s_outputs := Some out;
                   temp_delivered := t; num_runs := S (num_runs s) |} in
      if Qlt_bool t lb then s'
      else if between lb ub t then s'
      else scan lb ub rest s'
  end.

(** The three passes, each run only if the temperature left by the
    previous one is not within the bounds. *)
Definition draw_search (tm : swh) (lb ub scaled_draw_min mdot_hot : Q)
    (num_scaled_draw_pts : positive) : search :=
  let s0 := {| s_model := tm; s_outputs := None;
               temp_delivered := 0; num_runs := 0 |} in
  let s1 := scan lb ub (linspace scaled_draw_min mdot_hot num_scaled_draw_pts) s0 in
  let s2 := if between lb ub (temp_delivered s1) then s1
            else scan lb ub
                   (linspace scaled_draw_min mdot_hot (num_scaled_draw_pts * 10)) s1 in
  if between lb ub (temp_delivered s2) then s2
  else scan lb ub (linspace scaled_draw_min mdot_hot (num_scaled_draw_pts * 100)) s2.

(** The design step and the inputs derived from it: the model before the
    search and the hot-water mass flow [mdot_hot]. *)
Definition prepare (tm : swh) (heat_load_mwt : Q)
    (hours_storage temperature_hot : option Q) (temp_frac : Q)
  : Py.result (swh * Q) :=
  let T_cold := custom_mains_0 (inputs tm) in
  d ← run_pysam_fpc_model_design (inputs tm) (Some heat_load_mwt)
        hours_storage temperature_hot;
  let mdot_collectors := test_flow tm * ncoll d in
  let T_hot := T_set d in
  q ← Py.div (system_capacity d) (cp_water * (T_hot - T_cold));
  let mdot_hot := q * 3600 in
  let T_tank_max := T_hot * (1 + temp_frac) in
  let T_tank_max := if Qlt_bool 99 T_tank_max then 99 else T_tank_max in
  let pipe_length := 9 + 0.5 * ncoll d in
  let pumping_power := (45 / 2) * ncoll d in
  Py.Ok ({| inputs := d; test_flow := test_flow tm; mdot := mdot_collectors;
            T_tank_max := T_tank_max; pipe_length := pipe_length;
            pump_power := pumping_power; scaled_draw := scaled_draw tm |},
         mdot_hot).

Definition outside_bounds_msg : string :=
  "Final design results in delivered temperature that is outside the bounds.".

(** [run_pysam_fpc_model] called with a heat load and a positive number of
    points; the results are returned with the model object
    ([return_tech_model]).  A missing [temp_ub_thresh] is the lower
    threshold. *)
Definition run_pysam_fpc_model (tm : swh) (heat_load_mwt : Q)
    (hours_storage temperature_hot : option Q)
    (temp_lb_thresh : Q) (temp_ub_thresh : option Q)
    (scaled_draw_min : Q) (num_scaled_draw_pts : positive) (temp_frac : Q)
  : Py.result (results * swh) :=
  let temp_ub_thresh := default temp_lb_thresh temp_ub_thresh in
  '(tm, mdot_hot) ← prepare tm heat_load_mwt hours_storage temperature_hot temp_frac;
  match temperature_hot with
  | None => Py.Raise Py.AssertionError
  | Some temperature_hot =>
      Py.assert (Qeq_bool (T_set (inputs tm)) temperature_hot);;
      let lb := temperature_hot - temp_lb_thresh in
      let ub := temperature_hot + temp_ub_thresh in
      let s := draw_search tm lb ub scaled_draw_min mdot_hot num_scaled_draw_pts in
      if negb (between lb ub (temp_delivered s))
      then Py.Raise (Py.RuntimeError outside_bounds_msg)
      else
        match s_outputs s with
        | None =>
            (* no execution yet, so no outputs to read: not reached, the
               first pass executes at least once *)
            Py.Raise (Py.AttributeError "Outputs")
        | Some out =>
            let heat_annual := annual_Q_deliv out in
            let electricity_annual := Py.sum (P_pump out) + Py.sum (Q_aux out) in
            frac_electricity_annual ← Py.div electricity_annual heat_annual;
            Py.Ok ({| heat_annual := heat_annual;
                      electricity_annual := electricity_annual;
                      system_capacity_actual := system_capacity_computed (inputs tm);
                      r_scaled_draw := np_mean (draw out);
                      temperature_delivered := np_mean (T_deliv out) |},
                   s_model s)
        end
  end.

End Run.

(** A model object on the SAM defaults, a simulation that delivers the
    set-point whatever the draw, and one that delivers mains water. *)
Definition swh_defaults : swh :=
  {| inputs := sam_defaults; test_flow := 0.055; mdot := 0.055;
     T_tank_max := 99; pipe_length := 10; pump_power := 45; scaled_draw := 1 |}.

Definition ideal_execute (tm : swh) : Outputs :=
  let t := T_set (inputs tm) in
  {| T_deliv := [t; t]; draw := [scaled_draw tm; scaled_draw tm];
     annual_Q_deliv := 2190 * system_capacity (inputs tm);
     P_pump := [pump_power tm / 1000]; Q_aux := [0; 0] |}.

Definition cold_execute (tm : swh) : Outputs :=
  let t := custom_mains_0 (inputs tm) in
  {| T_deliv := [t; t]; draw := [scaled_draw tm; scaled_draw tm];
     annual_Q_deliv := 0;
     P_pump := [pump_power tm / 1000]; Q_aux := [0; 0] |}.

End PySAMRun.

(** ** KBHDP_ZLD.py: the feed of the primary treatment *)

Module KBHDP_Inlet.

(** The solutes of the MCAS property package of [build_primary_system]. *)
Definition solute_list : list string :=
  ["Alkalinity_2-"; "Ca_2+"; "Cl_-"; "Mg_2+"; "K_+"; "SiO2"; "Na_+"; "SO2_-4+"]%string.

(** What [set_inlet_conditions] writes: the fixed values of
    [m.fs.feed.properties[0].flow_mass_phase_comp["Liq", j]] by component
    [j], the default scaling factors of [flow_mass_phase_comp] set on the
    property package, and the fixed pressure and temperature of the feed. *)
Record feed : Type := {
  flow_mass_phase_comp : gmap string Q;   (* kg / s *)
  default_scaling : gmap string Q;
  pressure : option Q;                    (* Pa *)
  temperature : option Q                  (* K *)
}.

Definition no_feed : feed :=
  {| flow_mass_phase_comp := ∅; default_scaling := ∅;
     pressure := None; temperature := None |}.

Definition fix_flow (f : feed) (j : string) (v : Q) : feed :=
  {| flow_mass_phase_comp := <[j := v]> (flow_mass_phase_comp f);
     default_scaling := default_scaling f;
     pressure := pressure f; temperature := temperature f |}.

Definition set_default_scaling (f : feed) (j : string) (sf : Q) : feed :=
  {| flow_mass_phase_comp := flow_mass_phase_comp f;
     default_scaling := <[j := sf]> (default_scaling f);
     pressure := pressure f; temperature := temperature f |}.

(** [value(m.fs.feed.properties[0].flow_mass_phase_comp["Liq", j])] of a
    flow that has been fixed. *)
Definition value_flow (f : feed) (j : string) : Q :=
  default 0 (flow_mass_phase_comp f !! j).

(** Concentrations in kg/m3, in the order of the dictionary. *)
Definition inlet_dict : list (string * Q) :=
  [("Ca_2+", 0.61); ("Mg_2+", 0.161); ("Alkalinity_2-", 0.0821); ("SiO2", 0.13);
   ("Cl_-", 5.5); ("Na_+", 5.5); ("K_+", 0.016); ("SO2_-4+", 0.23)]%string.

(** One turn of the loop over [inlet_dict]. *)
Definition set_solute (f : feed) (solute : string) (solute_conc : Q) : Py.result feed :=
  let f := fix_flow f solute (value_flow f "H2O" / 1000 * solute_conc) in
  sf ← Py.div 1 (value_flow f solute);
  Py.Ok (set_default_scaling f solute sf).

Fixpoint set_solutes (f : feed) (l : list (string * Q)) : Py.result feed :=
  match l with
  | [] => Py.Ok f
  | (solute, solute_conc) :: l' =>
      f ← set_solute f solute solute_conc;
      set_solutes f l'
  end.

(** [set_inlet_conditions(m, Qin, supply_pressure)] with the flow in MGD
    that its caller passes. *)
Definition set_inlet_conditions (f : feed) (Qin supply_pressure : Q) : Py.result feed :=
  let Qin := Units.mgd_to_m3_s Qin in
  let feed_density := 1000 in
  let f := fix_flow f "H2O" (Qin * feed_density) in
  f ← set_solutes f inlet_dict;
  sf ← Py.div 1 (value_flow f "H2O");
  let f := set_default_scaling f "H2O" sf in
  let feed_temperature := 273.15 + 20 in
  Py.Ok {| flow_mass_phase_comp := flow_mass_phase_comp f;
           default_scaling := default_scaling f;
           pressure := Some supply_pressure;
           temperature := Some feed_temperature |}.

End KBHDP_Inlet.

(** ** fo_draw_solution_properties.py: the properties built on demand *)

Module FOProperties.

Inductive draw_component : Type := H2O | DrawSolution.

Definition component_list : list draw_component := [H2O; DrawSolution].

(** The parameters of [FODrawSolutionParameterBlockData.build]. *)
Definition dens_mass_param_A0 : Q := 1000.446.
Definition dens_mass_param_A1 : Q := 1.1849.
Definition dens_mass_param_A2 : Q := 0.011455.
Definition dens_mass_param_A3 : Q := - 0.000163.

Definition osm_coeff_param_0 : Q := 123708.54.
Definition osm_coeff_param_1 : Q := 129619.75.
Definition osm_coeff_param_2 : Q := 13862.31.
Definition osm_coeff_param_3 : Q := 635.6857.
Definition osm_coeff_param_4 : Q := - 11.0696.
Definition osm_coeff_param_5 : Q := 0.0692.

Definition cp_phase_param_A0 : Q := 4200.03.
Definition cp_phase_param_A1 : Q := - 34.9888.
Definition cp_phase_param_A2 : Q := 0.133883.

(** The values of the variables of one state block in the liquid phase. *)
Record FODrawSolutionStateBlockData : Type := {
  flow_mass_phase_comp : draw_component -> Q;   (* kg / s *)
  mass_frac_phase_comp : draw_component -> Q;
  dens_mass_phase : Q;                     (* kg / m3 *)
  flow_vol_phase : Q;                      (* m3 / s *)
  conc_mass_phase_comp : draw_component -> Q;   (* kg / m3 *)
  pressure_osm_phase : Q;                  (* Pa *)
  cp_mass_phase : Q                        (* J / (kg K) *)
}.

(** [sum(b.flow_mass_phase_comp[p, j] for j in b.params.component_list)]. *)
Definition flow_mass_total (b : FODrawSolutionStateBlockData) : Q :=
  Py.sum (map (flow_mass_phase_comp b) component_list).

Definition eq_mass_frac_phase_comp
    (b : FODrawSolutionStateBlockData) (j : draw_component) : Prop :=
  mass_frac_phase_comp b j == flow_mass_phase_comp b j / flow_mass_total b.

Definition dens_mass (s : Q) : Q :=
  dens_mass_param_A0 + dens_mass_param_A1 * s + dens_mass_param_A2 * s ^ 2
  + dens_mass_param_A3 * s ^ 3.

Definition eq_dens_mass_phase (b : FODrawSolutionStateBlockData) : Prop :=
  let s := mass_frac_phase_comp b DrawSolution * 100 in
  dens_mass_phase b == dens_mass s.

Definition eq_flow_vol_phase (b : FODrawSolutionStateBlockData) : Prop :=
  flow_vol_phase b == flow_mass_total b / dens_mass_phase b.

Definition eq_conc_mass_phase_comp
    (b : FODrawSolutionStateBlockData) (j : draw_component) : Prop :=
  conc_mass_phase_comp b j == dens_mass_phase b * mass_frac_phase_comp b j.

Definition pressure_osm (s : Q) : Q :=
  osm_coeff_param_0 + osm_coeff_param_1 * s + osm_coeff_param_2 * s ^ 2
  + osm_coeff_param_3 * s ^ 3 + osm_coeff_param_4 * s ^ 4
  + osm_coeff_param_5 * s ^ 5.

Definition eq_pressure_osm_phase (b : FODrawSolutionStateBlockData) : Prop :=
  let s := mass_frac_phase_comp b DrawSolution * 100 in
  pressure_osm_phase b == pressure_osm s.

Definition cp_mass (s : Q) : Q :=
  cp_phase_param_A0 + cp_phase_param_A1 * s + cp_phase_param_A2 * s ^ 2.

Definition eq_cp_mass_phase (b : FODrawSolutionStateBlockData) : Prop :=
  let s := mass_frac_phase_comp b DrawSolution * 100 in
  cp_mass_phase b == cp_mass s.

(** The bounds declared on the variables. *)
Definition flow_mass_bounds (b : FODrawSolutionStateBlockData) : Prop :=
  forall j, 0 <= flow_mass_phase_comp b j.
Definition dens_mass_bounds (b : FODrawSolutionStateBlockData) : Prop :=
  1 <= dens_mass_phase b <= 1000000.
Definition pressure_osm_bounds (b : FODrawSolutionStateBlockData) : Prop :=
  1 <= pressure_osm_phase b <= 100000000.
Definition cp_mass_bounds (b : FODrawSolutionStateBlockData) : Prop :=
  0 <= cp_mass_phase b <= 100000000.

(** The values that the equalities give from the state variables, when
    the total flow is not zero. *)
Definition calculate (flow_H2O flow_Draw : Q) : FODrawSolutionStateBlockData :=
  let flow := fun j => match j with H2O => flow_H2O | DrawSolution => flow_Draw end in
  let total := flow_H2O + (flow_Draw + 0) in
  let frac := fun j => flow j / total in
  let s := frac DrawSolution * 100 in
  {| flow_mass_phase_comp := flow;
     mass_frac_phase_comp := frac;
     dens_mass_phase := dens_mass s;
     flow_vol_phase := total / dens_mass s;
     conc_mass_phase_comp := fun j => dens_mass s * frac j;
     pressure_osm_phase := pressure_osm s;
     cp_mass_phase := cp_mass s |}.

End FOProperties.

(** ** A state block with its state variables only *)

Module FOStateOnly.

Import FODrawSolution.

(** The element as [build] constructs it, before any property is asked for. *)
Definition state_element : StateBlockData :=
  {| vars := list_to_map [
       (flow_H2O, {| value := 0.2; fixed := false |});
       (flow_DrawSolution, {| value := 0.8; fixed := false |});
       (temperature, {| value := 298.15; fixed := false |});
       (pressure, {| value := 101325; fixed := false |})
     ];
     constraints := [] |}.

Definition state_properties : StateBlock :=
  {| name := "fs.properties"; data := {[ 0%Z := state_element ]} |}.

(** A solver that fails. *)
Definition failing_solver (d : gmap Z StateBlockData) : bool * (Z -> var_id -> Q) :=
  (false, fun _ _ => 0).

End FOStateOnly.

(** ** analysis/case_studies/KBHDP/components/PV.py *)

Module PV.

Import FODrawSolution.

(** The variables that appear in activated equalities, each once. *)
Definition variables_in_activated_equalities_set (b : StateBlockData) : list var_id :=
  remove_dups (concat (map body (activated_equalities b))).

Definition fixed_variables_in_activated_equalities_set (b : StateBlockData)
  : list var_id :=
  List.filter (fun v => negb (is_unfixed b v)) (variables_in_activated_equalities_set b).

Definition unfixed_variables_in_activated_equalities_set (b : StateBlockData)
  : list var_id :=
  List.filter (is_unfixed b) (variables_in_activated_equalities_set b).

(** What [breakdown_dof] prints. *)
Record breakdown : Type := {
  dof : Z;
  active_vars : list var_id;
  equalities : list Constraint;
  fixed_active_vars : list var_id;
  unfixed_active_vars : list var_id;
  suggested : list var_id
}.

(** [breakdown_dof(blk)].  The guard of the suggestions compares the
    function [degrees_of_freedom] itself with zero, so the branch is always
    taken. *)
Definition breakdown_dof (blk : StateBlockData) : breakdown :=
  let equalities := activated_equalities blk in
  let active_vars := variables_in_activated_equalities_set blk in
  let fixed_active_vars := fixed_variables_in_activated_equalities_set blk in
  let unfixed_active_vars := unfixed_variables_in_activated_equalities_set blk in
  let unfixed_vars_without_constraint :=
    List.filter (fun v => negb (bool_decide (v ∈ unfixed_active_vars))) active_vars in
  {| dof := degrees_of_freedom blk;
     active_vars := active_vars;
     equalities := equalities;
     fixed_active_vars := fixed_active_vars;
     unfixed_active_vars := unfixed_active_vars;
     suggested := List.filter (is_unfixed blk) unfixed_vars_without_constraint |}.

End PV.

(** ** flat_plate_surrogate.py: [calculate_scaling_factors] *)

Module FlatPlateScaling.

(** The scaling suffix of the block: the factor of a variable, by name. *)
Abbreviation Suffix := (gmap string Q).

(** [iscale.get_scaling_factor(v, default)]. *)
Definition get_scaling_factor (sfx : Suffix) (v : string) (default : option Q)
  : option Q :=
  match sfx !! v with
  | Some sf => Some sf
  | None => default
  end.

Definition set_scaling_factor (sfx : Suffix) (v : string) (sf : Q) : Suffix :=
  <[v := sf]> sfx.

(** The variables that the method looks at, with the default of each, in
    the order of the source. *)
Definition defaults : list (string * Q) :=
  [("hours_storage", 1); ("heat_load", 0.01); ("temperature_hot", 0.1);
   ("heat_annual", 0.0001); ("heat", 0.0001); ("electricity_annual", 0.001);
   ("electricity", 0.001); ("number_collectors", 0.0001);
   ("collector_area_total", 0.000001); ("storage_volume", 0.0001)]%string.

(** One [if iscale.get_scaling_factor(v) is None:] block. *)
Definition scale_if_unset (sfx : Suffix) (vd : string * Q) : Suffix :=
  match get_scaling_factor sfx vd.1 None with
  | None =>
      match get_scaling_factor sfx vd.1 (Some vd.2) with
      | Some sf => set_scaling_factor sfx vd.1 sf
      | None => sfx
      end
  | Some _ => sfx
  end.

Definition calculate_scaling_factors (sfx : Suffix) : Suffix :=
  fold_left scale_if_unset defaults sfx.

End FlatPlateScaling.

(** * Properties *)

(** ** Outcomes *)

Lemma bind_Ok_inv {A B : Type} (r : Py.result A) (k : A -> Py.result B) (b : B) :
  r ≫= k = Py.Ok b -> exists a, r = Py.Ok a /\ k a = Py.Ok b.
Proof. destruct r as [a | e]; cbn; [ eauto | discriminate ]. Qed.

Lemma assert_Ok_inv (c : bool) (u : unit) : Py.assert c = Py.Ok u -> c = true.
Proof. destruct c; [ reflexivity | discriminate ]. Qed.

Ltac inv_bind H :=
  let a := fresh "a" in
  let Ha := fresh "Ha" in
  apply bind_Ok_inv in H; destruct H as (a & Ha & H).

(** ** The flat-plate storage volume against the PySAM tank volume *)

Section StorageVolume.

Import FlatPlate PySAM.

(** When the capacity is the heat load and the storage is not below the
    floor of a thousandth of an hour, the two volumes agree only if the
    hot temperature is twice the cold one. *)
Lemma storage_volume_agrees_iff (hl h Th Tc v : Q) :
  0 < hl -> 0.001 <= h -> 0 < Tc -> ~ Th - Tc == 0 ->
  volume_tank (Qmax h 0.001) (hl * 1000) Th Tc = Py.Ok v ->
  (storage_volume (solve_storage_volume (build hl h Th Tc)) == v <-> Th == 2 * Tc).
Proof.
  intros Hhl Hh HTc Hd Hv.
  unfold volume_tank, Py.div in Hv. cbn in Hv.
  destruct (Qeq_bool (cp_water * (Th - Tc)) 0) eqn:E; [discriminate |].
  injection Hv as <-.
  assert (Hmax : Qmax h 0.001 == h) by (apply Q.max_l; exact Hh).
  rewrite Hmax.
  unfold solve_storage_volume, build, storage_volume_expr, Units.h_MW_per_kJ_to_1,
    cp_water, density_water; cbn.
  assert (Hh0 : 0 < h) by lra.
  split.
  - intros Heq.
    assert (E1 : h * hl / (4.181 * Tc * 1000) * 3600000 * (Tc * (Th - Tc))
                 == h * hl * (3600000 / 4181) * (Th - Tc)) by (field; lra).
    assert (E2 : h * 3600 * (hl * 1000) / (4.181 * (Th - Tc)) / 1000 * (Tc * (Th - Tc))
                 == h * hl * (3600000 / 4181) * Tc) by (field; lra).
    rewrite Heq, E2 in E1.
    assert (Hc : 0 < h * hl * (3600000 / 4181)).
    { apply Qmult_lt_0_compat; [ apply Qmult_lt_0_compat; assumption | reflexivity ]. }
    assert (Hz : Tc == Th - Tc).
    { apply (Qmult_inj_l _ _ (h * hl * (3600000 / 4181))); [ lra | exact E1 ]. }
    lra.
  - intros Heq. rewrite Heq. field. lra.
Qed.

End StorageVolume.

(** C8: the storage-volume constraint of the flat-plate surrogate is claimed
    to give the tank volume that [run_pysam_fpc_model] assigns to [V_tank].
    At 500 MW, 20 hours of storage, 70 C hot and 20 C cold the sweep utility
    assigns a tank of about 172 thousand cubic metres, and the constraint
    gives more than twice that: it divides by the cold temperature where the
    utility divides by the temperature difference. *)
Theorem storage_volume_is_not_the_pysam_tank_volume :
  exists tm,
    PySAM.run_pysam_fpc_model_design PySAM.sam_defaults (Some 500) (Some 20) (Some 70)
    = Py.Ok tm
    /\ 172000 < PySAM.V_tank tm < 173000
    /\ 2 * PySAM.V_tank tm
       < FlatPlate.storage_volume
           (FlatPlate.solve_storage_volume (FlatPlate.build 500 20 70 20))
    /\ FlatPlate.storage_volume_constraint
         (FlatPlate.solve_storage_volume (FlatPlate.build 500 20 70 20)).
Proof.
  eexists. split; [ vm_compute; reflexivity |].
  split; [ split; vm_compute; reflexivity |].
  split; [ vm_compute; reflexivity |].
  unfold FlatPlate.storage_volume_constraint. reflexivity.
Qed.

(** ** The aggregate costing block of the KBHDP train *)

Section AggregateCosting.

Import KBHDP_ZLD.

Lemma build_agg_costing_blk_fields models bp pf b :
  build_agg_costing_blk models bp pf = Py.Ok b ->
  Agg.models b = models /\ Agg.base_period b = bp /\ Agg.product_flow b = pf
  /\ forall m, In m models ->
       capital_recovery_factor m == Agg.capital_recovery_factor b.
Proof.
  unfold build_agg_costing_blk.
  destruct models as [| m0 rest]; [discriminate |].
  intros Hb. inv_bind Hb. apply assert_Ok_inv in Ha.
  injection Hb as <-. cbn [Agg.models Agg.base_period Agg.product_flow
                           Agg.capital_recovery_factor].
  repeat split.
  intros m Hin.
  rewrite forallb_forall in Ha. specialize (Ha m Hin).
  unfold same_parameters in Ha.
  apply andb_prop in Ha as [Ha _]. apply andb_prop in Ha as [Ha _].
  apply Qeq_bool_iff in Ha. exact Ha.
Qed.

(** The constraints of the block have a solution. *)
Lemma solve_agg_solved (b : Agg.block) : agg_solved (solve_agg b).
Proof. split; reflexivity. Qed.

End AggregateCosting.

(** C6: on the aggregate costing block built over a list of models with a
    product flow in m3/s that is not zero, the two cost variables satisfy
    the constraints of the block exactly when the total capital cost is the
    sum of the models' total capital costs and the total operating cost the
    sum of their total operating costs, which is the assignment of the
    solved block; the capital recovery factor of the block is that of the
    first model and of every other model; and the LCOW expression then
    evaluates to (total capital cost times the capital recovery factor plus
    total operating cost) divided by the volume produced in one base
    period, the product flow times the seconds of the period (31557600 for
    the year). *)
Theorem LCOW_is_annualized_cost_per_volume
    (models : list KBHDP_ZLD.CostingData) (bp : Units.time_unit) (pf : Q)
    (b : KBHDP_ZLD.Agg.block) :
  KBHDP_ZLD.build_agg_costing_blk models bp pf = Py.Ok b ->
  ~ pf == 0 ->
  let capital := Py.sum (map KBHDP_ZLD.total_capital_cost models) in
  let operating := Py.sum (map KBHDP_ZLD.total_operating_cost models) in
  let crf := KBHDP_ZLD.Agg.capital_recovery_factor b in
  let volume_per_base_period :=
    pf * match bp with
         | Units.second => 1
         | Units.hour => 3600
         | Units.day => 86400
         | Units.year => 31557600
         end in
  (forall c o,
     KBHDP_ZLD.agg_solved (KBHDP_ZLD.with_costs b c o)
     <-> c == capital /\ o == operating)
  /\ KBHDP_ZLD.agg_solved (KBHDP_ZLD.solve_agg b)
  /\ (exists m0 rest,
        models = m0 :: rest /\ crf = KBHDP_ZLD.capital_recovery_factor m0)
  /\ (forall m, In m models -> KBHDP_ZLD.capital_recovery_factor m == crf)
  /\ (forall c o,
        KBHDP_ZLD.agg_solved (KBHDP_ZLD.with_costs b c o) ->
        exists v,
          KBHDP_ZLD.LCOW (KBHDP_ZLD.with_costs b c o) = Py.Ok v
          /\ v == (capital * crf + operating) / volume_per_base_period)
  /\ exists v,
       KBHDP_ZLD.LCOW (KBHDP_ZLD.solve_agg b) = Py.Ok v
       /\ v == (capital * crf + operating) / volume_per_base_period.
Proof.
  intros Hb Hnz capital operating crf volume.
  destruct (build_agg_costing_blk_fields _ _ _ _ Hb) as (Hm & Hbp & Hpf & Hcrf).
  assert (Hvol : ~ volume == 0).
  { unfold volume. intros E. apply Hnz. destruct bp; lra. }
  assert (Hiff : forall c o,
             KBHDP_ZLD.agg_solved (KBHDP_ZLD.with_costs b c o)
             <-> c == capital /\ o == operating).
  { intros c o.
    unfold KBHDP_ZLD.agg_solved, KBHDP_ZLD.eq_total_capital_cost,
      KBHDP_ZLD.eq_total_operating_cost.
    cbn. rewrite Hm. reflexivity. }
  assert (Heval : forall c o,
             exists v,
               KBHDP_ZLD.LCOW (KBHDP_ZLD.with_costs b c o) = Py.Ok v
               /\ v == (c * crf + o) / volume).
  { intros c o. unfold KBHDP_ZLD.LCOW, Py.div. cbn. rewrite Hbp, Hpf.
    change (Units.per_second_to_per bp pf) with volume.
    destruct (Qeq_bool volume 0) eqn:E.
    - apply Qeq_bool_iff in E. contradiction.
    - eexists. split; reflexivity. }
  split; [exact Hiff |].
  split; [split; reflexivity |].
  split.
  { unfold KBHDP_ZLD.build_agg_costing_blk in Hb.
    destruct models as [| m0 rest]; [discriminate |].
    inv_bind Hb. injection Hb as <-. exists m0, rest. split; reflexivity. }
  split; [exact Hcrf |].
  split.
  - intros c o Hs. apply Hiff in Hs as [Hc Ho].
    destruct (Heval c o) as (v & Hv & Hval).
    exists v. split; [exact Hv |]. rewrite Hval, Hc, Ho. reflexivity.
  - unfold KBHDP_ZLD.solve_agg. rewrite Hm. apply Heval.
Qed.

(** Three constituent models with a shared recovery factor of 0.1 a year,
    total capital costs of 1, 2 and 3 million and total operating costs of
    0.1, 0.2 and 0.3 million a year, and a product flow of 0.1 m3/s: the
    solved block has an LCOW of 1200000 / 3155760, about 0.38 per m3. *)
Lemma LCOW_is_annualized_cost_per_volume_witness :
  exists b v,
    KBHDP_ZLD.build_agg_costing_blk KBHDP_ZLD.example_costings Units.year 0.1
    = Py.Ok b
    /\ KBHDP_ZLD.LCOW (KBHDP_ZLD.solve_agg b) = Py.Ok v
    /\ v == (6000000 * 0.1 + 600000) / (0.1 * 31557600)
    /\ v == 1200000 / 3155760.
Proof.
  eexists.
  destruct (LCOW_is_annualized_cost_per_volume
              KBHDP_ZLD.example_costings Units.year 0.1 _ eq_refl)
    as (_ & _ & _ & _ & _ & v & Hv & Hval).
  - vm_compute. discriminate.
  - exists v. split; [reflexivity |]. split; [exact Hv |].
    split; rewrite Hval; vm_compute; reflexivity.
Defined.

(** ** The system costing block *)

Section SystemCostingFacts.

Import REFLOCosting.

Lemma reconcile_Ok_inv (cps : list string) (t e : CostingBlock) :
  forall acc m,
    reconcile_common_params cps t e acc = Py.Ok m ->
    (forall cp, cp ∈ cps -> agree t e cp /\ m !! cp = params t !! cp)
    /\ (forall cp, cp ∉ cps -> m !! cp = acc !! cp).
Proof.
  induction cps as [| c rest IH]; intros acc m Hr.
  - injection Hr as <-. split; [| reflexivity].
    intros cp Hin. inversion Hin.
  - cbn [reconcile_common_params] in Hr. unfold getattr in Hr.
    destruct (params t !! c) as [v |] eqn:Ht; [| discriminate].
    destruct (params e !! c) as [ve |] eqn:He; [| discriminate].
    cbn in Hr. destruct (pval_eqb v ve) eqn:Heq; [| discriminate].
    destruct (IH _ _ Hr) as [IHin IHout]. split.
    + intros cp Hin. destruct (decide (cp ∈ rest)) as [Hrest | Hrest].
      * apply IHin. exact Hrest.
      * apply elem_of_cons in Hin as [-> | Hin]; [| contradiction].
        split; [exists v, ve; auto |].
        rewrite (IHout c Hrest), lookup_insert_eq. symmetry. exact Ht.
    + intros cp Hout. apply not_elem_of_cons in Hout as [Hne Hout].
      rewrite (IHout cp Hout). apply lookup_insert_ne. congruence.
Qed.

Lemma reconcile_agree_Ok (cps : list string) (t e : CostingBlock) :
  (forall cp, cp ∈ cps -> agree t e cp) ->
  forall acc, exists m, reconcile_common_params cps t e acc = Py.Ok m.
Proof.
  induction cps as [| c rest IH]; intros Hag acc.
  - exists acc. reflexivity.
  - destruct (Hag c) as (v & ve & Ht & He & Heq); [left |].
    cbn [reconcile_common_params]. unfold getattr. rewrite Ht, He. cbn. rewrite Heq.
    apply IH. intros cp Hin. apply Hag. right. exact Hin.
Qed.

Lemma reconcile_differ_Raise (cps : list string) (t e : CostingBlock) :
  holds_params cps t -> holds_params cps e ->
  (exists cp, cp ∈ cps /\ differ t e cp) ->
  exists cp', cp' ∈ cps /\ differ t e cp'
    /\ forall acc, reconcile_common_params cps t e acc
                   = Py.Raise (Py.ValueError (different_value_msg cp')).
Proof.
  induction cps as [| c rest IH]; intros Hpt Hpe (cp & Hin & Hd).
  - inversion Hin.
  - destruct (Hpt c) as [v Ht]; [left |].
    destruct (Hpe c) as [ve He]; [left |].
    destruct (pval_eqb v ve) eqn:Heq.
    + destruct IH as (cp' & Hin' & Hd' & Hr).
      * intros x Hx. apply Hpt. right. exact Hx.
      * intros x Hx. apply Hpe. right. exact Hx.
      * exists cp. split; [| exact Hd].
        apply elem_of_cons in Hin as [-> | Hin]; [| exact Hin].
        destruct Hd as (v' & ve' & Ht' & He' & Heq'). congruence.
      * exists cp'. split; [right; exact Hin' |]. split; [exact Hd' |].
        intros acc. cbn [reconcile_common_params]. unfold getattr.
        rewrite Ht, He. cbn. rewrite Heq. apply Hr.
    + exists c. split; [left |]. split; [exists v, ve; auto |].
      intros acc. cbn [reconcile_common_params]. unfold getattr.
      rewrite Ht, He. cbn. rewrite Heq. reflexivity.
Qed.

Lemma REFLOSystemCosting_Ok_inv (cps : list string) (fs : flowsheet) (s : SystemCosting) :
  REFLOSystemCosting cps fs = Py.Ok s ->
  find_costing TreatmentCosting fs = Some (treatment s)
  /\ find_costing EnergyCosting fs = Some (energy s).
Proof.
  unfold REFLOSystemCosting. intros Hs.
  destruct (find_costing TreatmentCosting fs) as [t |]; [| discriminate].
  destruct (find_costing EnergyCosting fs) as [e |]; [| discriminate].
  cbn in Hs. inv_bind Hs. injection Hs as <-. split; reflexivity.
Qed.

Lemma REFLOSystemCosting_total (cps : list string) (fs : flowsheet) (t e : CostingBlock) :
  find_costing TreatmentCosting fs = Some t ->
  find_costing EnergyCosting fs = Some e ->
  (forall cp, cp ∈ cps -> agree t e cp) ->
  exists s, REFLOSystemCosting cps fs = Py.Ok s.
Proof.
  intros Ht He Hag. unfold REFLOSystemCosting. rewrite Ht, He. cbn.
  destruct (reconcile_agree_Ok _ _ _ Hag default_params) as [m ->]. cbn. eauto.
Qed.

(** The test flowsheets carry both blocks, which agree on the tested
    parameters, so that the system block is built on them. *)
Lemma test_flowsheet_built (consumption generation : Q) :
  exists s,
    REFLOSystemCosting tested_common_params (test_flowsheet consumption generation)
    = Py.Ok s
    /\ electricity_flows (treatment s) = [consumption]
    /\ electricity_flows (energy s) = [- generation].
Proof.
  destruct (REFLOSystemCosting_total tested_common_params
              (test_flowsheet consumption generation)
              (cost_unit (new_costing TreatmentCosting) consumption)
              (cost_unit (new_costing EnergyCosting) generation)
              eq_refl eq_refl) as [s Hs].
  - intros cp Hin.
    repeat (apply elem_of_cons in Hin as [-> | Hin];
            [eexists; eexists; repeat split; vm_compute; reflexivity |]).
    inversion Hin.
  - exists s. split; [exact Hs |].
    apply REFLOSystemCosting_Ok_inv in Hs as [Ht He].
    injection Ht as <-. injection He as <-. split; reflexivity.
Qed.

(** The constraints of the system block have a solution whenever the
    treatment units consume electricity: the shortfall is purchased or the
    surplus is sold. *)
Lemma solve_electricity_solved (s : SystemCosting) :
  ~ electricity_consumed s == 0 -> solved s (solve_electricity s).
Proof.
  intros Hc. unfold solved, solve_electricity. cbn.
  unfold electricity_consumed, electricity_generated in *.
  set (c := Py.sum (electricity_flows (treatment s))) in *.
  set (g := Py.sum (electricity_flows (energy s))) in *.
  assert (Hp : 0 <= Qmax 0 (c - - g)) by apply Q.le_max_l.
  assert (Hs : 0 <= Qmax 0 (- g - c)) by apply Q.le_max_l.
  assert (Hbal : Qmax 0 (c - - g) - Qmax 0 (- g - c) == c + g).
  { destruct (Q.max_spec 0 (c - - g)) as [[Hlt ->] | [Hle ->]];
      destruct (Q.max_spec 0 (- g - c)) as [[Hlt' ->] | [Hle' ->]]; lra. }
  split; [reflexivity |].
  split; [ring |].
  split; [lra |].
  split; [lra |].
  split; [field; exact Hc |].
  split; apply Qle_bool_iff; assumption.
Qed.

End SystemCostingFacts.

(** C1: on a flowsheet with a treatment and an energy costing block that
    hold the common costing parameters, constructing the system costing
    block raises a ValueError naming a common parameter whose values differ
    whenever one does; and when the values agree on every common parameter
    the block is built and, after cost_process, each common parameter has
    the same value on the system, treatment and energy blocks. *)
Theorem common_params_equivalent
    (common_params : list string) (fs : REFLOCosting.flowsheet)
    (t e : REFLOCosting.CostingBlock) :
  REFLOCosting.find_costing REFLOCosting.TreatmentCosting fs = Some t ->
  REFLOCosting.find_costing REFLOCosting.EnergyCosting fs = Some e ->
  REFLOCosting.holds_params common_params t ->
  REFLOCosting.holds_params common_params e ->
  ((exists cp, cp ∈ common_params /\ REFLOCosting.differ t e cp) ->
   exists cp', cp' ∈ common_params /\ REFLOCosting.differ t e cp'
     /\ REFLOCosting.REFLOSystemCosting common_params fs
        = Py.Raise (Py.ValueError (REFLOCosting.different_value_msg cp')))
  /\ ((forall cp, cp ∈ common_params -> REFLOCosting.agree t e cp) ->
      exists s, REFLOCosting.REFLOSystemCosting common_params fs = Py.Ok s
        /\ REFLOCosting.treatment s = t /\ REFLOCosting.energy s = e
        /\ forall cp, cp ∈ common_params ->
             exists v ve,
               REFLOCosting.sys_params (REFLOCosting.cost_process s) !! cp = Some v
               /\ REFLOCosting.params t !! cp = Some v
               /\ REFLOCosting.params e !! cp = Some ve
               /\ REFLOCosting.pval_eqb v ve = true).
Proof.
  intros Ht He Hpt Hpe. unfold REFLOCosting.REFLOSystemCosting. rewrite Ht, He. cbn.
  split.
  - intros Hd.
    destruct (reconcile_differ_Raise _ _ _ Hpt Hpe Hd) as (cp' & Hin & Hd' & Hr).
    exists cp'. split; [exact Hin |]. split; [exact Hd' |].
    rewrite Hr. reflexivity.
  - intros Hag.
    destruct (reconcile_agree_Ok _ _ _ Hag REFLOCosting.default_params) as [m Hm].
    rewrite Hm. cbn. eexists. split; [reflexivity |]. cbn.
    split; [reflexivity |]. split; [reflexivity |].
    intros cp Hin.
    destruct (reconcile_Ok_inv _ _ _ _ _ Hm) as [Hall _].
    destruct (Hall cp Hin) as [(v & ve & Hv & Hve & Heq) Hlook].
    exists v, ve. rewrite Hlook. auto.
Qed.

(** The flowsheets of [test_common_params_equivalent]: the electricity cost
    fixed at 0.02 on the energy block only raises the error for
    [electricity_cost]; fixed on both blocks, the three blocks agree. *)
Lemma common_params_equivalent_witness :
  REFLOCosting.REFLOSystemCosting REFLOCosting.tested_common_params
    (REFLOCosting.default_flowsheet [] [("electricity_cost"%string, REFLOCosting.PNum 0.02)])
  = Py.Raise (Py.ValueError (REFLOCosting.different_value_msg "electricity_cost"))
  /\ exists s,
       REFLOCosting.REFLOSystemCosting REFLOCosting.tested_common_params
         (REFLOCosting.default_flowsheet
            [("electricity_cost"%string, REFLOCosting.PNum 0.02)]
            [("electricity_cost"%string, REFLOCosting.PNum 0.02)])
       = Py.Ok s
       /\ REFLOCosting.sys_params (REFLOCosting.cost_process s) !! "electricity_cost"%string
          = Some (REFLOCosting.PNum 0.02).
Proof.
  split.
  - vm_compute. reflexivity.
  - pose proof (common_params_equivalent REFLOCosting.tested_common_params
       (REFLOCosting.default_flowsheet
          [("electricity_cost"%string, REFLOCosting.PNum 0.02)]
          [("electricity_cost"%string, REFLOCosting.PNum 0.02)])
       _ _ eq_refl eq_refl) as Hthm.
    destruct Hthm as [_ Hok].
    + intros cp Hin. vm_compute in Hin.
      repeat (apply elem_of_cons in Hin as [-> | Hin]; [vm_compute; eauto |]).
      inversion Hin.
    + intros cp Hin.
      repeat (apply elem_of_cons in Hin as [-> | Hin]; [vm_compute; eauto |]).
      inversion Hin.
    + destruct Hok as (s & Hs & _ & _ & Hall).
      * intros cp Hin.
        repeat (apply elem_of_cons in Hin as [-> | Hin];
                [eexists; eexists; repeat split; vm_compute; reflexivity |]).
        inversion Hin.
      * exists s. split; [exact Hs |].
        destruct (Hall "electricity_cost"%string) as (v & ve & Hv & Htv & _); [left |].
        rewrite Hv. vm_compute in Htv. congruence.
Defined.

(** C3: on a flowsheet with a treatment costing block and no energy
    costing block, constructing the system costing block raises a
    ValueError saying that the package requires a EnergyCosting block but
    one was not found. *)
Theorem no_energy_block_raises
    (common_params : list string) (fs : REFLOCosting.flowsheet)
    (t : REFLOCosting.CostingBlock) :
  REFLOCosting.find_costing REFLOCosting.TreatmentCosting fs = Some t ->
  REFLOCosting.find_costing REFLOCosting.EnergyCosting fs = None ->
  REFLOCosting.REFLOSystemCosting common_params fs
  = Py.Raise (Py.ValueError
      "REFLOSystemCosting package requires a EnergyCosting block but one was not found.").
Proof.
  intros Ht He. unfold REFLOCosting.REFLOSystemCosting. rewrite Ht, He. reflexivity.
Qed.

Lemma no_energy_block_raises_witness :
  REFLOCosting.REFLOSystemCosting REFLOCosting.tested_common_params
    REFLOCosting.treatment_only_flowsheet
  = Py.Raise (Py.ValueError
      "REFLOSystemCosting package requires a EnergyCosting block but one was not found.").
Proof.
  apply (no_energy_block_raises REFLOCosting.tested_common_params
           REFLOCosting.treatment_only_flowsheet
           (REFLOCosting.new_costing REFLOCosting.TreatmentCosting));
    reflexivity.
Defined.

(** C2: for every solved flowsheet carrying a system costing block, the
    system aggregate electricity flow is the sum of the aggregate
    electricity flows of the treatment and of the energy costing block, and
    it is the electricity purchased minus the electricity sold. *)
Theorem aggregate_flow_electricity_balance
    (common_params : list string) (fs : REFLOCosting.flowsheet)
    (s : REFLOCosting.SystemCosting) (x : REFLOCosting.ElectricitySolution) :
  REFLOCosting.REFLOSystemCosting common_params fs = Py.Ok s ->
  REFLOCosting.solved (REFLOCosting.cost_process s) x ->
  REFLOCosting.aggregate_flow_electricity x
  == REFLOCosting.treatment_aggregate_flow_electricity x
     + REFLOCosting.energy_aggregate_flow_electricity x
  /\ REFLOCosting.aggregate_flow_electricity x
     == REFLOCosting.aggregate_flow_electricity_purchased x
        - REFLOCosting.aggregate_flow_electricity_sold x.
Proof.
  intros _ (Ht & He & Hbal & Hnet & _). split; [| exact Hnet]. lra.
Qed.

(** The flowsheet that consumes 100 and generates 10: the net flow is 90,
    all of it purchased. *)
Lemma aggregate_flow_electricity_balance_witness :
  exists s,
    REFLOCosting.REFLOSystemCosting REFLOCosting.tested_common_params
      (REFLOCosting.test_flowsheet 100 10) = Py.Ok s
    /\ REFLOCosting.aggregate_flow_electricity
         (REFLOCosting.solve_electricity (REFLOCosting.cost_process s))
       == 100 + - 10
    /\ REFLOCosting.aggregate_flow_electricity
         (REFLOCosting.solve_electricity (REFLOCosting.cost_process s))
       == 90 - 0.
Proof.
  destruct (test_flowsheet_built 100 10) as (s & Hs & Ht & He).
  exists s. split; [exact Hs |].
  destruct (aggregate_flow_electricity_balance _ _ s
              (REFLOCosting.solve_electricity (REFLOCosting.cost_process s)) Hs)
    as [H1 H2].
  - unfold REFLOCosting.solved, REFLOCosting.solve_electricity,
      REFLOCosting.electricity_consumed, REFLOCosting.electricity_generated.
    cbn. rewrite Ht, He. repeat split; vm_compute; reflexivity.
  - split; [rewrite H1 | rewrite H2];
      unfold REFLOCosting.solve_electricity,
        REFLOCosting.electricity_consumed, REFLOCosting.electricity_generated;
      cbn; rewrite Ht, He; vm_compute; reflexivity.
Defined.

(** C4: for every solved flowsheet in which no electricity is sold and the
    treatment units consume electricity, the grid fraction is one minus the
    ratio of the electricity generated by the energy units to the
    electricity consumed by the treatment units, and the electricity
    purchased is that fraction times the consumption. *)
Theorem frac_elec_from_grid_without_sales
    (common_params : list string) (fs : REFLOCosting.flowsheet)
    (s : REFLOCosting.SystemCosting) (x : REFLOCosting.ElectricitySolution) :
  REFLOCosting.REFLOSystemCosting common_params fs = Py.Ok s ->
  REFLOCosting.solved (REFLOCosting.cost_process s) x ->
  REFLOCosting.aggregate_flow_electricity_sold x == 0 ->
  ~ REFLOCosting.electricity_consumed s == 0 ->
  REFLOCosting.frac_elec_from_grid x
  == 1 - REFLOCosting.electricity_generated s / REFLOCosting.electricity_consumed s
  /\ REFLOCosting.aggregate_flow_electricity_purchased x
     == REFLOCosting.frac_elec_from_grid x * REFLOCosting.electricity_consumed s.
Proof.
  intros _ (Ht & He & Hbal & _ & Hfrac & _) Hsold Hcons.
  unfold REFLOCosting.electricity_generated, REFLOCosting.electricity_consumed in *.
  cbn [REFLOCosting.cost_process REFLOCosting.treatment REFLOCosting.energy] in Ht, He.
  set (c := Py.sum (REFLOCosting.electricity_flows (REFLOCosting.treatment s))) in *.
  set (g := Py.sum (REFLOCosting.electricity_flows (REFLOCosting.energy s))) in *.
  assert (Hp : REFLOCosting.aggregate_flow_electricity_purchased x == c + g) by lra.
  assert (Hfc : REFLOCosting.frac_elec_from_grid x * c == c + g).
  { rewrite <- Hp, <- Hfrac, Ht. reflexivity. }
  split.
  - transitivity (REFLOCosting.frac_elec_from_grid x * c / c).
    + field. exact Hcons.
    + rewrite Hfc. field. exact Hcons.
  - rewrite Hfc. exact Hp.
Qed.

(** The two flowsheets of the tests: generation 10 against consumption 100
    gives the fraction 0.9 and 90 purchased; 7500 against 10000 gives 0.25
    and 2500. *)
Lemma frac_elec_from_grid_without_sales_witness :
  (exists s,
     REFLOCosting.REFLOSystemCosting REFLOCosting.tested_common_params
       (REFLOCosting.test_flowsheet 100 10) = Py.Ok s
     /\ REFLOCosting.frac_elec_from_grid
          (REFLOCosting.solve_electricity (REFLOCosting.cost_process s)) == 0.9
     /\ REFLOCosting.aggregate_flow_electricity_purchased
          (REFLOCosting.solve_electricity (REFLOCosting.cost_process s)) == 90)
  /\ (exists s,
        REFLOCosting.REFLOSystemCosting REFLOCosting.tested_common_params
          (REFLOCosting.test_flowsheet 10000 7500) = Py.Ok s
        /\ REFLOCosting.frac_elec_from_grid
             (REFLOCosting.solve_electricity (REFLOCosting.cost_process s)) == 0.25
        /\ REFLOCosting.aggregate_flow_electricity_purchased
             (REFLOCosting.solve_electricity (REFLOCosting.cost_process s)) == 2500).
Proof.
  split.
  - destruct (test_flowsheet_built 100 10) as (s & Hs & Ht & He).
    exists s. split; [exact Hs |].
    destruct (frac_elec_from_grid_without_sales _ _ s
                (REFLOCosting.solve_electricity (REFLOCosting.cost_process s)) Hs)
      as [H1 H2].
    + unfold REFLOCosting.solved, REFLOCosting.solve_electricity,
        REFLOCosting.electricity_consumed, REFLOCosting.electricity_generated.
      cbn. rewrite Ht, He. repeat split; vm_compute; reflexivity.
    + unfold REFLOCosting.solve_electricity,
        REFLOCosting.electricity_consumed, REFLOCosting.electricity_generated.
      cbn. rewrite Ht, He. vm_compute. reflexivity.
    + unfold REFLOCosting.electricity_consumed. rewrite Ht. vm_compute. discriminate.
    + split; [rewrite H1 | rewrite H2, H1];
        unfold REFLOCosting.electricity_consumed, REFLOCosting.electricity_generated;
        rewrite Ht, He; vm_compute; reflexivity.
  - destruct (test_flowsheet_built 10000 7500) as (s & Hs & Ht & He).
    exists s. split; [exact Hs |].
    destruct (frac_elec_from_grid_without_sales _ _ s
                (REFLOCosting.solve_electricity (REFLOCosting.cost_process s)) Hs)
      as [H1 H2].
    + unfold REFLOCosting.solved, REFLOCosting.solve_electricity,
        REFLOCosting.electricity_consumed, REFLOCosting.electricity_generated.
      cbn. rewrite Ht, He. repeat split; vm_compute; reflexivity.
    + unfold REFLOCosting.solve_electricity,
        REFLOCosting.electricity_consumed, REFLOCosting.electricity_generated.
      cbn. rewrite Ht, He. vm_compute. reflexivity.
    + unfold REFLOCosting.electricity_consumed. rewrite Ht. vm_compute. discriminate.
    + split; [rewrite H1 | rewrite H2, H1];
        unfold REFLOCosting.electricity_consumed, REFLOCosting.electricity_generated;
        rewrite Ht, He; vm_compute; reflexivity.
Defined.

(** ** The KBHDP case study *)

Section CaseStudy.

Import KBHDP_ZLD.

Context {S : Type} `{Framework S}.

Lemma solve_Ok_inv (m m' : model S) (r : bool) :
  solve m r = Py.Ok m' ->
  fs_arcs m' = fs_arcs m /\ fs_inputs m' = fs_inputs m
  /\ solver_solve (fs_state m) = (true, fs_state m').
Proof.
  unfold solve. destruct (solver_solve (fs_state m)) as [optimal s].
  destruct optimal; [| destruct r; discriminate].
  intros Hm. injection Hm as <-. auto.
Qed.

Lemma primary_Ok_inv kw m :
  build_and_run_primary_treatment kw = Py.Ok m ->
  fs_arcs m = add_primary_connections /\ fs_inputs m = PrimaryFeed (kw_Qin kw).
Proof.
  unfold build_and_run_primary_treatment. intros Hm.
  apply solve_Ok_inv in Hm as (Ha & Hi & _). rewrite Ha, Hi. split; reflexivity.
Qed.

Lemma md_before_final_solve_Ok_inv Qin Cin wr m :
  md_before_final_solve Qin Cin wr = Py.Ok m ->
  fs_arcs m = md_connections
  /\ fs_inputs m = MDFeed (Units.mgd_to_m3_s Qin) (Units.g_L_to_kg_m3 Cin).
Proof.
  unfold md_before_final_solve. intros Hm. inv_bind Hm.
  apply solve_Ok_inv in Ha as (Ha & Hi & _).
  injection Hm as <-. cbn. rewrite Ha, Hi. split; reflexivity.
Qed.

Lemma md_Ok_inv Qin Cin wr m :
  build_and_run_md_system Qin Cin wr = Py.Ok m ->
  fs_arcs m = md_connections
  /\ fs_inputs m = MDFeed (Units.mgd_to_m3_s Qin) (Units.g_L_to_kg_m3 Cin).
Proof.
  unfold build_and_run_md_system. intros Hm. inv_bind Hm.
  apply md_before_final_solve_Ok_inv in Ha as (Ha & Hi).
  inv_bind Hm. apply solve_Ok_inv in Hm as (Ha' & Hi' & _).
  rewrite Ha', Hi'. auto.
Qed.

Lemma mec_Ok_inv Qin Cin n w t m :
  build_and_run_mec_system Qin Cin n
    {| kw_flow_mass_water := Some w; kw_flow_mass_tds := Some t |} = Py.Ok m ->
  fs_arcs m = mec_connections /\ fs_inputs m = MECFeed w t.
Proof.
  unfold build_and_run_mec_system, set_mec_operating_conditions. cbn.
  intros Hm. apply solve_Ok_inv in Hm as (Ha & Hi & _).
  rewrite Ha, Hi. split; reflexivity.
Qed.

(** The flow handed to the MD system in million gallons a day is the
    brine flow again once converted back. *)
Lemma mgd_round_trip (x : Q) : Units.mgd_to_m3_s (Units.m3_s_to_mgd x) == x.
Proof.
  unfold Units.mgd_to_m3_s, Units.m3_s_to_mgd, Units.m3_per_Mgallon, Units.seconds.
  field.
Qed.

Lemma g_L_is_kg_m3 (x : Q) : Units.g_L_to_kg_m3 x == x.
Proof. unfold Units.g_L_to_kg_m3. ring. Qed.

End CaseStudy.

(** C5: the primary flowsheet connects electrocoagulation, then
    ultrafiltration, then reverse osmosis along its product line (the UF
    product reaches the RO feed through a translator and the pump); the RO
    disposal stream goes through a translator to the brine block, whose
    flow and salinity the train hands to the membrane-distillation system
    as its feed; and the MD concentrate goes to the MD disposal block, whose
    water and salt mass flows are fixed on the feed of the multi-effect
    crystallisation system. *)
Theorem kbhdp_zld_train_order
    {S : Type} `{KBHDP_ZLD.Framework S}
    (kw : KBHDP_ZLD.primary_kwargs) (m1 m_md m_mec : KBHDP_ZLD.model S) :
  KBHDP_ZLD.build_and_run_kbhdp_zld kw = Py.Ok (m1, m_md, m_mec) ->
  KBHDP_ZLD.fs_arcs m1 = KBHDP_ZLD.add_primary_connections
  /\ List.filter KBHDP_ZLD.is_treatment_unit
       (KBHDP_ZLD.product_line (KBHDP_ZLD.fs_arcs m1) 11 "feed")
     = ["EC"; "UF"; "RO"]%string
  /\ KBHDP_ZLD.fed_by (KBHDP_ZLD.fs_arcs m1) "EC" (Some "product"%string)
     = Some "UF"%string
  /\ KBHDP_ZLD.product_line (KBHDP_ZLD.fs_arcs m1) 3 "UF"
     = ["UF"; "TDS_to_NaCl_translator"; "pump"; "RO"]%string
  /\ KBHDP_ZLD.fed_by (KBHDP_ZLD.fs_arcs m1) "RO" (Some "disposal"%string)
     = Some "RO_brine_to_MD_translator"%string
  /\ KBHDP_ZLD.fed_by (KBHDP_ZLD.fs_arcs m1) "RO_brine_to_MD_translator" None
     = Some "brine"%string
  /\ (exists flow_vol conc_tds,
        KBHDP_ZLD.fs_inputs m_md = KBHDP_ZLD.MDFeed flow_vol conc_tds
        /\ flow_vol == KBHDP_ZLD.value_flow_vol (KBHDP_ZLD.fs_state m1) "brine"
        /\ conc_tds == KBHDP_ZLD.value_conc_tds (KBHDP_ZLD.fs_state m1) "brine")
  /\ KBHDP_ZLD.fed_by (KBHDP_ZLD.fs_arcs m_md) "md" (Some "concentrate"%string)
     = Some "disposal"%string
  /\ KBHDP_ZLD.fs_inputs m_mec
     = KBHDP_ZLD.MECFeed
         (KBHDP_ZLD.value_flow_mass (KBHDP_ZLD.fs_state m_md) "disposal" "H2O")
         (KBHDP_ZLD.value_flow_mass (KBHDP_ZLD.fs_state m_md) "disposal" "TDS").
Proof.
  unfold KBHDP_ZLD.build_and_run_kbhdp_zld. intros Hrun.
  inv_bind Hrun. rename a into p1, Ha into Hp.
  inv_bind Hrun. rename a into pmd, Ha into Hmd.
  inv_bind Hrun. rename a into pmec, Ha into Hmec.
  inv_bind Hrun. rename a into m_agg, Ha into Hagg.
  inv_bind Hrun. destruct a as [capital operating].
  inv_bind Hrun. injection Hrun as <- <- <-.
  apply primary_Ok_inv in Hp as [Harcs _].
  apply md_Ok_inv in Hmd as [Hmd_arcs Hmd_in].
  apply mec_Ok_inv in Hmec as [_ Hmec_in].
  rewrite Harcs, Hmd_arcs.
  split; [reflexivity |].
  split; [vm_compute; reflexivity |].
  split; [vm_compute; reflexivity |].
  split; [vm_compute; reflexivity |].
  split; [vm_compute; reflexivity |].
  split; [vm_compute; reflexivity |].
  split.
  { eexists _, _. split; [exact Hmd_in |]. split.
    - unfold KBHDP_ZLD.brine_flow_mgd. apply mgd_round_trip.
    - apply g_L_is_kg_m3. }
  split; [vm_compute; reflexivity |].
  exact Hmec_in.
Qed.

(** The train run in the framework where every model is square and every
    solve ends optimally. *)
Lemma kbhdp_zld_train_order_witness :
  exists m1 m_md m_mec,
    KBHDP_ZLD.build_and_run_kbhdp_zld (H := KBHDP_ZLD.square_framework)
      KBHDP_ZLD.default_primary_kwargs = Py.Ok (m1, m_md, m_mec)
    /\ List.filter KBHDP_ZLD.is_treatment_unit
         (KBHDP_ZLD.product_line (KBHDP_ZLD.fs_arcs m1) 11 "feed")
       = ["EC"; "UF"; "RO"]%string
    /\ KBHDP_ZLD.fs_inputs m_mec = KBHDP_ZLD.MECFeed 50 3.
Proof.
  eexists _, _, _. split; [vm_compute; reflexivity |].
  match goal with
  | |- context [KBHDP_ZLD.fs_arcs ?m1] =>
      match goal with
      | |- context [KBHDP_ZLD.fs_inputs ?m_mec] =>
          pose proof (kbhdp_zld_train_order (H := KBHDP_ZLD.square_framework)
                        KBHDP_ZLD.default_primary_kwargs m1 _ m_mec eq_refl)
            as (_ & Horder & _ & _ & _ & _ & _ & _ & Hmec)
      end
  end.
  split; [exact Horder | exact Hmec].
Defined.

(** ** The FO draw-solution state block *)

Section StateBlockFacts.

Import FODrawSolution.

Lemma fixed_fix_state_var (state_args : StateArgs) (id : var_id) (v : Var) :
  fixed (fix_state_var state_args id v) = if is_state_var id then true else fixed v.
Proof.
  unfold fix_state_var. destruct (is_state_var id); [| reflexivity].
  destruct (fixed v) eqn:E; [exact E |].
  destruct (state_args !! id.1) as [g |]; [destruct (g !! id.2) |]; reflexivity.
Qed.

Lemma fixed_status_with_data (blk : StateBlock) (f : var_id -> Var -> Var)
      (k : Z) (id : var_id) :
  fixed_status
    (with_data blk ((fun b => with_vars b (map_imap (fun i v => Some (f i v)) (vars b)))
                    <$> data blk)) k id
  = (b ← data blk !! k; v ← vars b !! id; Some (fixed (f id v))).
Proof.
  unfold fixed_status. cbn. rewrite lookup_fmap.
  destruct (data blk !! k) as [b |]; [| reflexivity]. cbn.
  rewrite map_lookup_imap. destruct (vars b !! id); reflexivity.
Qed.

Lemma fixed_status_with_data_imap (blk : StateBlock) (f : Z -> var_id -> Var -> Var)
      (k : Z) (id : var_id) :
  fixed_status
    (with_data blk
       (map_imap (fun k b =>
          Some (with_vars b (map_imap (fun i v => Some (f k i v)) (vars b))))
        (data blk))) k id
  = (b ← data blk !! k; v ← vars b !! id; Some (fixed (f k id v))).
Proof.
  unfold fixed_status. cbn. rewrite map_lookup_imap.
  destruct (data blk !! k) as [b |]; [| reflexivity]. cbn.
  rewrite map_lookup_imap. destruct (vars b !! id); reflexivity.
Qed.

(** What [fix_state_vars] returns and leaves behind. *)
Lemma fix_state_vars_Ok_inv (blk blk1 : StateBlock) (state_args : StateArgs) (flags : Flags) :
  fix_state_vars blk state_args = Py.Ok (flags, blk1) ->
  name blk1 = name blk
  /\ (forall k id, flag_of flags k id
                   = if is_state_var id then fixed_status blk k id else None)
  /\ (forall k id, fixed_status blk1 k id
                   = (fun f => if is_state_var id then true else f)
                     <$> fixed_status blk k id).
Proof.
  unfold fix_state_vars. case_bool_decide; [| discriminate].
  intros Hr. injection Hr as <- <-. split; [reflexivity |]. split.
  - intros k id. unfold flag_of, fixed_status, state_flags. rewrite lookup_fmap.
    destruct (data blk !! k) as [b |]; cbn; [| destruct (is_state_var id); reflexivity].
    rewrite map_lookup_imap.
    destruct (vars b !! id) as [v |]; cbn; destruct (is_state_var id); reflexivity.
  - intros k id. rewrite fixed_status_with_data. unfold fixed_status.
    destruct (data blk !! k) as [b |]; [| reflexivity]. cbn.
    destruct (vars b !! id) as [v |]; [| reflexivity]. cbn.
    rewrite fixed_fix_state_var. reflexivity.
Qed.

(** Without initial guesses the fixing always succeeds. *)
Lemma fix_state_vars_no_guess (blk : StateBlock) :
  fix_state_vars blk ∅
  = Py.Ok (state_flags <$> data blk,
           with_data blk
             ((fun b => with_vars b (map_imap (fun id v => Some (fix_state_var ∅ id v))
                                              (vars b))) <$> data blk)).
Proof.
  unfold fix_state_vars. case_bool_decide as Hall; [reflexivity |].
  exfalso. apply Hall. intros k b _ id v _ _ _ g Hg.
  rewrite lookup_empty in Hg. discriminate.
Qed.

Lemma fixed_status_load_solution (blk : StateBlock) (sol : Z -> var_id -> Q)
      (k : Z) (id : var_id) :
  fixed_status (with_data blk (load_solution sol (data blk))) k id = fixed_status blk k id.
Proof.
  unfold load_solution.
  rewrite (fixed_status_with_data_imap blk (fun k i v => assign (sol k i) v)).
  unfold fixed_status.
  destruct (data blk !! k) as [b |]; [| reflexivity]. cbn.
  destruct (vars b !! id) as [v |]; [| reflexivity]. cbn.
  unfold assign. destruct (fixed v) eqn:E; [rewrite E |]; reflexivity.
Qed.

Lemma fixed_revert_state_var (flags : Flags) (k : Z) (id : var_id) (v : Var) :
  fixed (revert_state_var flags k id v)
  = if is_state_var id
    then match flag_of flags k id with Some false => false | _ => fixed v end
    else fixed v.
Proof.
  unfold revert_state_var. destruct (is_state_var id); [| reflexivity].
  destruct (flag_of flags k id) as [[|] |]; reflexivity.
Qed.

Lemma revert_state_vars_Ok_inv (blk blk' : StateBlock) (flags : Flags) :
  revert_state_vars blk flags = Py.Ok blk' ->
  forall k id,
    fixed_status blk' k id
    = (fun f => if is_state_var id
                then match flag_of flags k id with Some false => false | _ => f end
                else f) <$> fixed_status blk k id.
Proof.
  unfold revert_state_vars. case_bool_decide; [| discriminate].
  intros Hr k id. injection Hr as <-.
  rewrite (fixed_status_with_data_imap blk (revert_state_var flags)).
  unfold fixed_status.
  destruct (data blk !! k) as [b |]; [| reflexivity]. cbn.
  destruct (vars b !! id) as [v |]; [| reflexivity]. cbn.
  rewrite fixed_revert_state_var. reflexivity.
Qed.

(** Reverting succeeds when every state variable of the block has a flag. *)
Lemma revert_state_vars_total (blk : StateBlock) (flags : Flags) :
  (forall k id, is_state_var id = true -> is_Some (fixed_status blk k id) ->
                is_Some (flag_of flags k id)) ->
  exists blk', revert_state_vars blk flags = Py.Ok blk'.
Proof.
  intros Hcover. unfold revert_state_vars. case_bool_decide as Hall; [eauto |].
  exfalso. apply Hall. intros k b Hb id v Hv Hs.
  apply Hcover; [exact Hs |]. unfold fixed_status. rewrite Hb. cbn. rewrite Hv. cbn. eauto.
Qed.

Lemma check_dof_Raise (blk : StateBlock) (k : Z) (b : StateBlockData) :
  data blk !! k = Some b -> degrees_of_freedom b <> 0%Z ->
  exists dof, dof <> 0%Z
    /\ check_dof blk = Py.Raise (Py.InitializationError (Py.DofNonzero (name blk) dof)).
Proof.
  intros Hb Hdof. unfold check_dof.
  destruct (List.find _ (map_to_list (data blk))) as [kb |] eqn:Hfind.
  - apply find_some in Hfind as [_ Hne].
    exists (degrees_of_freedom kb.2). split; [| reflexivity].
    apply negb_true_iff, Z.eqb_neq in Hne. exact Hne.
  - exfalso.
    assert (Hin : In (k, b) (map_to_list (data blk))).
    { apply list_elem_of_In, elem_of_map_to_list. exact Hb. }
    pose proof (find_none _ _ Hfind (k, b) Hin) as Hf. cbn in Hf.
    apply negb_false_iff, Z.eqb_eq in Hf. contradiction.
Qed.

Section WithSolver.

Variable solve_indexed_blocks : gmap Z StateBlockData -> bool * (Z -> var_id -> Q).

(** The block after the fixing, the check and the solve of [initialize],
    whatever is returned afterwards. *)
Lemma initialize_Ok_inv blk state_args svf hs r blk' :
  initialize solve_indexed_blocks blk state_args svf hs = Py.Ok (r, blk') ->
  exists flags blk1 blk2,
    fix_state_vars blk state_args = Py.Ok (flags, blk1)
    /\ check_dof blk1 = Py.Ok tt
    /\ (forall k id, fixed_status blk2 k id = fixed_status blk1 k id)
    /\ (if negb svf
        then if hs then r = Some flags /\ blk' = blk2
             else r = None /\ revert_state_vars blk2 flags = Py.Ok blk'
        else r = None /\ blk' = blk2).
Proof.
  unfold initialize. intros Hi. inv_bind Hi. destruct a as [flags blk1].
  exists flags, blk1.
  inv_bind Hi. destruct a. inv_bind Hi. rename a into blk2.
  exists blk2. split; [exact Ha |]. split; [exact Ha0 |]. split.
  - destruct (skip_solve blk1).
    + injection Ha1 as <-. reflexivity.
    + destruct (solve_indexed_blocks (data blk1)) as [optimal sol].
      destruct optimal; [| discriminate]. injection Ha1 as <-.
      intros k id. apply fixed_status_load_solution.
  - destruct (negb svf); [destruct hs |].
    + injection Hi as <- <-. auto.
    + inv_bind Hi. injection Hi as <- <-. auto.
    + injection Hi as <- <-. auto.
Qed.

(** [initialize] returns when the fixed block is square and the solve, if
    one is needed, ends optimally. *)
Lemma initialize_total blk state_args hs flags blk1 :
  fix_state_vars blk state_args = Py.Ok (flags, blk1) ->
  check_dof blk1 = Py.Ok tt ->
  skip_solve blk1 = true \/ (solve_indexed_blocks (data blk1)).1 = true ->
  exists r blk', initialize solve_indexed_blocks blk state_args false hs = Py.Ok (r, blk').
Proof.
  intros Hfix Hdof Hsolve. unfold initialize. rewrite Hfix. cbn. rewrite Hdof. cbn.
  destruct (fix_state_vars_Ok_inv _ _ _ _ Hfix) as (_ & Hflags & Hstat).
  assert (Hblk2 : exists blk2,
            (if skip_solve blk1 then Py.Ok blk1
             else let '(optimal, sol) := solve_indexed_blocks (data blk1) in
                  if optimal then Py.Ok (with_data blk1 (load_solution sol (data blk1)))
                  else Py.Raise (Py.InitializationError Py.SolveFailed)) = Py.Ok blk2
            /\ forall k id, fixed_status blk2 k id = fixed_status blk1 k id).
  { destruct (skip_solve blk1); [eauto |].
    destruct Hsolve as [Hs | Hs]; [discriminate |].
    destruct (solve_indexed_blocks (data blk1)) as [optimal sol]. cbn in Hs. subst optimal.
    eexists. split; [reflexivity |]. intros k id. apply fixed_status_load_solution. }
  destruct Hblk2 as (blk2 & -> & Hsame). cbn.
  destruct hs; [eauto |].
  destruct (revert_state_vars_total blk2 flags) as [blk' Hrev].
  - intros k id Hs Hsome. rewrite Hflags, Hs.
    rewrite Hsame, Hstat in Hsome. destruct (fixed_status blk k id); [eauto |].
    destruct Hsome as [x Hx]. discriminate.
  - rewrite Hrev. cbn. eauto.
Qed.

End WithSolver.

End StateBlockFacts.

Section ReleaseFacts.

Import FODrawSolution.

(** Reverting with the flags of the fixing restores the status that every
    variable had before the fixing. *)
Lemma revert_restores (blk blk2 blk' : StateBlock) (flags : Flags) :
  (forall k id, flag_of flags k id
                = if is_state_var id then fixed_status blk k id else None) ->
  (forall k id, fixed_status blk2 k id
                = (fun f => if is_state_var id then true else f)
                  <$> fixed_status blk k id) ->
  revert_state_vars blk2 flags = Py.Ok blk' ->
  forall k id, fixed_status blk' k id = fixed_status blk k id.
Proof.
  intros Hflags Hstat Hrev k id.
  rewrite (revert_state_vars_Ok_inv _ _ _ Hrev), Hstat, Hflags.
  destruct (fixed_status blk k id) as [[|] |]; cbn;
    destruct (is_state_var id); reflexivity.
Qed.

Lemma revert_after_fix_total (blk blk2 : StateBlock) (flags : Flags) :
  (forall k id, flag_of flags k id
                = if is_state_var id then fixed_status blk k id else None) ->
  (forall k id, fixed_status blk2 k id
                = (fun f => if is_state_var id then true else f)
                  <$> fixed_status blk k id) ->
  exists blk', revert_state_vars blk2 flags = Py.Ok blk'.
Proof.
  intros Hflags Hstat. apply revert_state_vars_total.
  intros k id Hs Hsome. rewrite Hflags, Hs. rewrite Hstat in Hsome.
  destruct (fixed_status blk k id); [eauto |].
  destruct Hsome as [x Hx]. discriminate.
Qed.

End ReleaseFacts.

(** C7: whenever, after the state variables of an FO draw-solution state
    block are fixed, an element of the block has nonzero degrees of
    freedom, [initialize] raises InitializationError reporting nonzero
    degrees of freedom; and [build_and_run_md_system] asserts zero degrees
    of freedom on the costed model immediately before its final solve: it
    raises AssertionError when they are not zero, and a model it returns is
    the result of solving a model with zero degrees of freedom. *)
Theorem zero_degrees_of_freedom_required :
  (forall solver blk state_args svf hs flags blk1 k b,
      FODrawSolution.fix_state_vars blk state_args = Py.Ok (flags, blk1) ->
      FODrawSolution.data blk1 !! k = Some b ->
      FODrawSolution.degrees_of_freedom b <> 0%Z ->
      exists dof, dof <> 0%Z
        /\ FODrawSolution.initialize solver blk state_args svf hs
           = Py.Raise (Py.InitializationError
                         (Py.DofNonzero (FODrawSolution.name blk) dof)))
  /\ (forall (S : Type) (F : KBHDP_ZLD.Framework S) Qin Cin wr m,
        KBHDP_ZLD.md_before_final_solve Qin Cin wr = Py.Ok m ->
        (KBHDP_ZLD.degrees_of_freedom (KBHDP_ZLD.fs_state m) <> 0%Z ->
         KBHDP_ZLD.build_and_run_md_system Qin Cin wr = Py.Raise Py.AssertionError)
        /\ (forall m', KBHDP_ZLD.build_and_run_md_system Qin Cin wr = Py.Ok m' ->
              KBHDP_ZLD.degrees_of_freedom (KBHDP_ZLD.fs_state m) = 0%Z
              /\ KBHDP_ZLD.solve m true = Py.Ok m')).
Proof.
  split.
  - intros solver blk state_args svf hs flags blk1 k b Hfix Hb Hdof.
    destruct (check_dof_Raise blk1 k b Hb Hdof) as (dof & Hne & Hraise).
    destruct (fix_state_vars_Ok_inv _ _ _ _ Hfix) as (Hname & _).
    exists dof. split; [exact Hne |].
    unfold FODrawSolution.initialize. rewrite Hfix. cbn. rewrite Hraise, Hname.
    reflexivity.
  - intros S F Qin Cin wr m Hm.
    unfold KBHDP_ZLD.build_and_run_md_system. rewrite Hm. cbn. split.
    + intros Hdof. apply Z.eqb_neq in Hdof. rewrite Hdof. reflexivity.
    + intros m' Hrun.
      destruct (KBHDP_ZLD.degrees_of_freedom (KBHDP_ZLD.fs_state m) =? 0)%Z eqn:E;
        [| discriminate].
      apply Z.eqb_eq in E. split; [exact E | exact Hrun].
Qed.

(** The state block whose water mass fraction was fixed beforehand is over
    specified by one equation, and the MD system built in a framework that
    leaves one degree of freedom fails its assertion. *)
Lemma zero_degrees_of_freedom_required_witness :
  (exists dof, dof <> 0%Z
     /\ FODrawSolution.initialize FODrawSolution.ideal_solver
          (FODrawSolution.properties true) ∅ false true
        = Py.Raise (Py.InitializationError (Py.DofNonzero "fs.properties" dof)))
  /\ KBHDP_ZLD.build_and_run_md_system (H := KBHDP_ZLD.underdetermined_framework) 1 60 0.5
     = Py.Raise Py.AssertionError
  /\ exists m, KBHDP_ZLD.build_and_run_md_system (H := KBHDP_ZLD.square_framework) 1 60 0.5
               = Py.Ok m.
Proof.
  destruct zero_degrees_of_freedom_required as [Hfo Hmd]. split; [| split].
  - eapply (Hfo FODrawSolution.ideal_solver (FODrawSolution.properties true) ∅ false true
              _ _ 0%Z).
    + apply fix_state_vars_no_guess.
    + cbn. rewrite lookup_fmap, lookup_singleton_eq. reflexivity.
    + vm_compute. discriminate.
  - eapply (Hmd unit KBHDP_ZLD.underdetermined_framework 1 60 0.5).
    + vm_compute. reflexivity.
    + vm_compute. discriminate.
  - eexists. vm_compute. reflexivity.
Defined.

(** C10: as the code has it, when [initialize] is called with
    [state_vars_fixed = False] and returns, then with [hold_state = True]
    it returns the flags, which record the fixed status that each state
    variable had before, and leaves every state variable fixed and every
    other variable as it was; passing those flags to [release_state]
    succeeds, unfixes exactly the variables that [initialize] fixed and
    restores the status of every variable; with [hold_state = False] it
    returns nothing and every variable has its former status;
    [release_state] with no flags leaves the block as it is; and
    [initialize] does return when the fixed block is square and the solve,
    if one is needed, ends optimally. *)
Theorem initialize_hold_and_release
    (solver : gmap Z FODrawSolution.StateBlockData
              -> bool * (Z -> FODrawSolution.var_id -> Q))
    (blk : FODrawSolution.StateBlock)
    (state_args : gmap string (gmap (list string) Q)) :
  (forall r blk',
      FODrawSolution.initialize solver blk state_args false true = Py.Ok (r, blk') ->
      exists flags,
        r = Some flags
        /\ (forall k id, FODrawSolution.is_state_var id = true ->
              FODrawSolution.flag_of flags k id = FODrawSolution.fixed_status blk k id)
        /\ (forall k id,
              FODrawSolution.fixed_status blk' k id
              = (fun f => if FODrawSolution.is_state_var id then true else f)
                <$> FODrawSolution.fixed_status blk k id)
        /\ exists blk'',
             FODrawSolution.release_state blk' (Some flags) = Py.Ok blk''
             /\ (forall k id, FODrawSolution.fixed_status blk'' k id
                              = FODrawSolution.fixed_status blk k id)
             /\ (forall k id,
                   FODrawSolution.fixed_status blk' k id = Some true
                   /\ FODrawSolution.fixed_status blk'' k id = Some false
                   <-> FODrawSolution.is_state_var id = true
                       /\ FODrawSolution.fixed_status blk k id = Some false))
  /\ (forall r blk',
        FODrawSolution.initialize solver blk state_args false false = Py.Ok (r, blk') ->
        r = None
        /\ forall k id, FODrawSolution.fixed_status blk' k id
                        = FODrawSolution.fixed_status blk k id)
  /\ FODrawSolution.release_state blk None = Py.Ok blk
  /\ (forall flags blk1 hs,
        FODrawSolution.fix_state_vars blk state_args = Py.Ok (flags, blk1) ->
        FODrawSolution.check_dof blk1 = Py.Ok tt ->
        FODrawSolution.skip_solve blk1 = true \/ (solver (FODrawSolution.data blk1)).1 = true ->
        exists r blk',
          FODrawSolution.initialize solver blk state_args false hs = Py.Ok (r, blk')).
Proof.
  split; [| split; [| split]].
  - intros r blk' Hi.
    destruct (initialize_Ok_inv _ _ _ _ _ _ _ Hi)
      as (flags & blk1 & blk2 & Hfix & _ & Hsame & Hret).
    cbn in Hret. destruct Hret as [-> ->].
    destruct (fix_state_vars_Ok_inv _ _ _ _ Hfix) as (_ & Hflags & Hstat).
    assert (Hstat2 : forall k id,
               FODrawSolution.fixed_status blk2 k id
               = (fun f => if FODrawSolution.is_state_var id then true else f)
                 <$> FODrawSolution.fixed_status blk k id).
    { intros k id. rewrite Hsame. apply Hstat. }
    exists flags. split; [reflexivity |]. split.
    { intros k id Hs. rewrite Hflags, Hs. reflexivity. }
    split; [exact Hstat2 |].
    destruct (revert_after_fix_total blk blk2 flags Hflags Hstat2) as [blk'' Hrev].
    exists blk''. split; [exact Hrev |].
    pose proof (revert_restores blk blk2 blk'' flags Hflags Hstat2 Hrev) as Hres.
    split; [exact Hres |].
    intros k id. rewrite Hres, Hstat2.
    destruct (FODrawSolution.fixed_status blk k id) as [[|] |]; cbn;
      destruct (FODrawSolution.is_state_var id); split; intros [H1 H2];
      try discriminate; split; congruence.
  - intros r blk' Hi.
    destruct (initialize_Ok_inv _ _ _ _ _ _ _ Hi)
      as (flags & blk1 & blk2 & Hfix & _ & Hsame & Hret).
    cbn in Hret. destruct Hret as [-> Hrev]. split; [reflexivity |].
    destruct (fix_state_vars_Ok_inv _ _ _ _ Hfix) as (_ & Hflags & Hstat).
    apply (revert_restores blk blk2 blk' flags Hflags); [| exact Hrev].
    intros k id. rewrite Hsame. apply Hstat.
  - reflexivity.
  - intros flags blk1 hs. apply initialize_total.
Qed.

(** The state block of one element with its mass fractions: all four state
    variables are fixed by [initialize] and unfixed again by
    [release_state]. *)
Lemma initialize_hold_and_release_witness :
  exists flags blk' blk'',
    FODrawSolution.initialize FODrawSolution.ideal_solver
      (FODrawSolution.properties false) ∅ false true = Py.Ok (Some flags, blk')
    /\ FODrawSolution.fixed_status blk' 0%Z FODrawSolution.temperature = Some true
    /\ FODrawSolution.release_state blk' (Some flags) = Py.Ok blk''
    /\ FODrawSolution.fixed_status blk'' 0%Z FODrawSolution.temperature = Some false.
Proof.
  destruct (initialize_hold_and_release FODrawSolution.ideal_solver
              (FODrawSolution.properties false) ∅) as (Hhold & _ & _ & Htotal).
  destruct (Htotal _ _ true eq_refl) as (r & blk' & Hi).
  - vm_compute. reflexivity.
  - right. reflexivity.
  - destruct (Hhold r blk' Hi) as (flags & -> & _ & Hstat & blk'' & Hrel & Hres & _).
    exists flags, blk', blk''. split; [exact Hi |].
    split; [rewrite Hstat; vm_compute; reflexivity |].
    split; [exact Hrel |].
    rewrite Hres. vm_compute. reflexivity.
Defined.

(** The statement of C10 without the proviso fails when the caller declares the state variables
    already fixed: with [state_vars_fixed = True] the call with
    [hold_state = True] returns no flags, and the call with
    [hold_state = False] leaves fixed the state variables it has fixed. *)
Lemma initialize_state_vars_fixed_counterexample :
  ~ (forall svf,
       (exists flags blk',
          FODrawSolution.initialize FODrawSolution.ideal_solver
            (FODrawSolution.properties false) ∅ svf true = Py.Ok (Some flags, blk'))
       /\ (forall r blk',
             FODrawSolution.initialize FODrawSolution.ideal_solver
               (FODrawSolution.properties false) ∅ svf false = Py.Ok (r, blk') ->
             FODrawSolution.fixed_status blk' 0%Z FODrawSolution.temperature
             = FODrawSolution.fixed_status (FODrawSolution.properties false) 0%Z
                 FODrawSolution.temperature)).
Proof.
  intros Hclaim. destruct (Hclaim true) as [(flags & blk' & Hi) _].
  destruct (initialize_Ok_inv _ _ _ _ _ _ _ Hi) as (fl & blk1 & blk2 & _ & _ & _ & Hret).
  cbn in Hret. destruct Hret as [Hnone _]. discriminate.
Qed.

(** ** The design step of the PySAM sweep utility *)

Section Rounding.

Lemma Qlt_bool_iff (a b : Q) : PySAMRun.Qlt_bool a b = true <-> a < b.
Proof.
  unfold PySAMRun.Qlt_bool. rewrite negb_true_iff.
  split.
  - intros H. apply Qnot_le_lt. intros Hle.
    apply Qle_bool_iff in Hle. congruence.
  - intros H. destruct (Qle_bool b a) eqn:E; [| reflexivity].
    apply Qle_bool_iff in E. apply Qlt_not_le in H. contradiction.
Qed.

Lemma between_iff (lb ub t : Q) : PySAMRun.between lb ub t = true <-> lb < t /\ t < ub.
Proof.
  unfold PySAMRun.between. rewrite andb_true_iff, !Qlt_bool_iff. reflexivity.
Qed.

(** Python's [round] moves a number by at most one half. *)
Lemma round_nearest (q : Q) :
  q - (1 # 2) <= inject_Z (Py.round q) <= q + (1 # 2).
Proof.
  unfold Py.round.
  pose proof (Qfloor_le q) as Hlo.
  pose proof (Qlt_floor q) as Hhi.
  rewrite inject_Z_plus in Hhi.
  change (inject_Z 1) with 1 in Hhi.
  destruct (Qle_bool (q - inject_Z (Qfloor q)) (1 # 2)) eqn:E.
  - apply Qle_bool_iff in E.
    destruct (Qeq_bool (q - inject_Z (Qfloor q)) (1 # 2)) eqn:E2.
    + apply Qeq_bool_iff in E2.
      destruct (Z.even (Qfloor q)).
      * split; lra.
      * rewrite inject_Z_plus. change (inject_Z 1) with 1. split; lra.
    + split; lra.
  - assert (H : ~ q - inject_Z (Qfloor q) <= 1 # 2).
    { intros Hc. apply Qle_bool_iff in Hc. congruence. }
    apply Qnot_le_lt in H.
    rewrite inject_Z_plus. change (inject_Z 1) with 1. split; lra.
Qed.

Lemma Qle_bool_comp (a a' b b' : Q) :
  a == a' -> b == b' -> Qle_bool a b = Qle_bool a' b'.
Proof.
  intros Ha Hb.
  destruct (Qle_bool a b) eqn:E, (Qle_bool a' b') eqn:E'; try reflexivity.
  - apply Qle_bool_iff in E. rewrite Ha, Hb in E. apply Qle_bool_iff in E. congruence.
  - apply Qle_bool_iff in E'. rewrite <- Ha, <- Hb in E'. apply Qle_bool_iff in E'.
    congruence.
Qed.

Lemma Qeq_bool_comp (a a' b b' : Q) :
  a == a' -> b == b' -> Qeq_bool a b = Qeq_bool a' b'.
Proof.
  intros Ha Hb.
  destruct (Qeq_bool a b) eqn:E, (Qeq_bool a' b') eqn:E'; try reflexivity.
  - apply Qeq_bool_iff in E. rewrite Ha, Hb in E. apply Qeq_bool_iff in E. congruence.
  - apply Qeq_bool_iff in E'. rewrite <- Ha, <- Hb in E'. apply Qeq_bool_iff in E'.
    congruence.
Qed.

(** [round] gives the same integer on equal rationals. *)
Lemma round_comp (q q' : Q) : q == q' -> Py.round q = Py.round q'.
Proof.
  intros Hq. unfold Py.round.
  assert (Hf : Qfloor q = Qfloor q') by (apply Qfloor_comp; exact Hq).
  rewrite <- Hf.
  assert (Hr : q - inject_Z (Qfloor q) == q' - inject_Z (Qfloor q))
    by lra.
  rewrite (Qle_bool_comp _ _ _ _ Hr (Qeq_refl (1 # 2))).
  rewrite (Qeq_bool_comp _ _ _ _ Hr (Qeq_refl (1 # 2))).
  reflexivity.
Qed.

Lemma div_Ok_inv (a b v : Q) :
  Py.div a b = Py.Ok v -> ~ b == 0 /\ v = a / b.
Proof.
  unfold Py.div. destruct (Qeq_bool b 0) eqn:E; [discriminate |].
  intros Hv. injection Hv as <-. split; [| reflexivity].
  intros Hb. apply Qeq_bool_iff in Hb. congruence.
Qed.

Lemma div_zero (a b : Q) : b == 0 -> Py.div a b = Py.Raise Py.ZeroDivisionError.
Proof.
  intros Hb. unfold Py.div. apply Qeq_bool_iff in Hb. rewrite Hb. reflexivity.
Qed.

Lemma div_nonzero (a b : Q) : ~ b == 0 -> Py.div a b = Py.Ok (a / b).
Proof.
  intros Hb. unfold Py.div.
  destruct (Qeq_bool b 0) eqn:E; [| reflexivity].
  apply Qeq_bool_iff in E. contradiction.
Qed.

End Rounding.

Section Design.

Import PySAM.

(** What the design step leaves in the model when a heat load is given. *)
Lemma design_Ok_inv tm hl hs th d :
  run_pysam_fpc_model_design tm (Some hl) hs th = Py.Ok d ->
  ~ area_coll tm * (FRta tm - FRUL tm * 30 / 1000) == 0
  /\ ncoll d = inject_Z (Py.round (hl * 1000
                                    / (area_coll tm * (FRta tm - FRUL tm * 30 / 1000))))
  /\ system_capacity d = area_coll tm * ncoll d * (FRta tm - FRUL tm * 30 / 1000)
  /\ area_coll d = area_coll tm /\ FRta d = FRta tm /\ FRUL d = FRUL tm
  /\ custom_mains_0 d = custom_mains_0 tm
  /\ T_set d = default (T_set tm) th
  /\ match hs with
     | Some h =>
         ~ cp_water * (T_set d - custom_mains_0 tm) == 0
         /\ V_tank d = Qmax h 0.001 * 3600 * system_capacity d
                       / (cp_water * (T_set d - custom_mains_0 tm)) / density_water
     | None => V_tank d = V_tank tm
     end.
Proof.
  unfold run_pysam_fpc_model_design, volume_tank, Py.div.
  cbn [option_map].
  destruct (Qeq_bool (area_coll tm * (FRta tm - FRUL tm * 30 / 1000)) 0) eqn:Ec;
    cbn; [discriminate |].
  assert (Hc : ~ area_coll tm * (FRta tm - FRUL tm * 30 / 1000) == 0).
  { intros Hc. apply Qeq_bool_iff in Hc. congruence. }
  destruct hs as [h |]; cbn.
  - match goal with |- context [Qeq_bool ?x 0] => destruct (Qeq_bool x 0) eqn:Et end;
      cbn; [discriminate |].
    intros Hd. injection Hd as <-.
    destruct th as [t |]; cbn in *; repeat split; try reflexivity; try exact Hc;
      intros Ht; apply Qeq_bool_iff in Ht; congruence.
  - intros Hd. injection Hd as <-.
    destruct th as [t |]; cbn; repeat split; try reflexivity; exact Hc.
Qed.

(** The design step fails only on a division by zero. *)
Lemma design_Raise tm hl hs th e :
  run_pysam_fpc_model_design tm (Some hl) hs th = Py.Raise e ->
  e = Py.ZeroDivisionError.
Proof.
  unfold run_pysam_fpc_model_design, volume_tank, Py.div. cbn [option_map].
  destruct (Qeq_bool (area_coll tm * (FRta tm - FRUL tm * 30 / 1000)) 0); cbn.
  - congruence.
  - destruct hs as [h |]; cbn; [| discriminate].
    match goal with |- context [Qeq_bool ?x 0] => destruct (Qeq_bool x 0) end; cbn.
    + congruence.
    + discriminate.
Qed.

End Design.

(** X1: when [run_pysam_fpc_model] is given a heat load, the number of
    collectors it sets is an integer, the system capacity it sets is the
    capacity computed from that number, and (for a collector of positive
    capacity) this capacity differs from the requested heat load by at most
    half the capacity of one collector. *)
Theorem design_capacity_within_half_a_collector
    (tm d : PySAM.tech_model) (hl : Q) (hs th : option Q) :
  0 < PySAM.area_coll tm * (PySAM.FRta tm - PySAM.FRUL tm * 30 / 1000) ->
  PySAM.run_pysam_fpc_model_design tm (Some hl) hs th = Py.Ok d ->
  (exists n : Z, PySAM.ncoll d = inject_Z n)
  /\ PySAM.system_capacity d = PySAM.system_capacity_computed d
  /\ - (PySAM.area_coll tm * (PySAM.FRta tm - PySAM.FRUL tm * 30 / 1000) / 2)
     <= PySAM.system_capacity d - hl * 1000
     <= PySAM.area_coll tm * (PySAM.FRta tm - PySAM.FRUL tm * 30 / 1000) / 2.
Proof.
  intros Hc Hd.
  destruct (design_Ok_inv _ _ _ _ _ Hd) as (Hc0 & Hn & Hcap & Ha & Hta & Hul & _).
  split; [eexists; exact Hn |].
  split.
  - unfold PySAM.system_capacity_computed. rewrite Hcap, Ha, Hta, Hul. reflexivity.
  - rewrite Hcap, Hn.
    set (c := PySAM.area_coll tm * (PySAM.FRta tm - PySAM.FRUL tm * 30 / 1000)) in *.
    set (q := hl * 1000 / c).
    pose proof (round_nearest q) as [Hlo Hhi].
    assert (E : PySAM.area_coll tm * inject_Z (Py.round q)
                * (PySAM.FRta tm - PySAM.FRUL tm * 30 / 1000) - hl * 1000
                == c * (inject_Z (Py.round q) - q)).
    { assert (E1 : PySAM.area_coll tm * inject_Z (Py.round q)
                   * (PySAM.FRta tm - PySAM.FRUL tm * 30 / 1000)
                   == c * inject_Z (Py.round q)) by (unfold c; ring).
      rewrite E1. clearbody c. unfold q. field. exact Hc0. }
    rewrite E. clear E.
    set (r := inject_Z (Py.round q)) in *. clearbody r q c.
    assert (H1 : 0 <= c * (r - q + (1 # 2))) by (apply Qmult_le_0_compat; lra).
    assert (H2 : 0 <= c * (q + (1 # 2) - r)) by (apply Qmult_le_0_compat; lra).
    assert (E1 : c * (r - q + (1 # 2)) == c * (r - q) + c / 2) by field.
    assert (E2 : c * (q + (1 # 2) - r) == c / 2 - c * (r - q)) by field.
    rewrite E1 in H1. rewrite E2 in H2.
    set (x := c * (r - q)) in *. clearbody x. split; lra.
Qed.

(** The SAM collector asked for 500 MW. *)
Lemma design_capacity_within_half_a_collector_witness :
  exists d,
    PySAM.run_pysam_fpc_model_design PySAM.sam_defaults (Some 500) (Some 20) (Some 70)
    = Py.Ok d
    /\ - (PySAM.area_coll PySAM.sam_defaults
          * (PySAM.FRta PySAM.sam_defaults - PySAM.FRUL PySAM.sam_defaults * 30 / 1000) / 2)
       <= PySAM.system_capacity d - 500 * 1000
       <= PySAM.area_coll PySAM.sam_defaults
          * (PySAM.FRta PySAM.sam_defaults - PySAM.FRUL PySAM.sam_defaults * 30 / 1000) / 2.
Proof.
  eexists. split; [ vm_compute; reflexivity |].
  refine (proj2 (proj2 (design_capacity_within_half_a_collector
                          PySAM.sam_defaults _ 500 (Some 20) (Some 70) _ _))).
  - vm_compute. reflexivity.
  - vm_compute. reflexivity.
Defined.

(** X2: the hours of storage have a floor of a thousandth of an hour: with
    a positive capacity and a set-point above the mains temperature the
    tank volume set by [run_pysam_fpc_model] is at least the volume of that
    floor, hence positive, whatever hours are asked for; and any request at
    or below the floor, zero or negative hours too, gives exactly the
    volume of the floor. *)
Theorem tank_volume_has_a_floor
    (tm d : PySAM.tech_model) (hl h : Q) (th : option Q) :
  PySAM.run_pysam_fpc_model_design tm (Some hl) (Some h) th = Py.Ok d ->
  0 < PySAM.system_capacity d ->
  PySAM.custom_mains_0 tm < PySAM.T_set d ->
  let floor := 0.001 * 3600 * PySAM.system_capacity d
               / (PySAM.cp_water * (PySAM.T_set d - PySAM.custom_mains_0 tm))
               / PySAM.density_water in
  0 < floor /\ floor <= PySAM.V_tank d
  /\ (h <= 0.001 -> PySAM.V_tank d == floor).
Proof.
  intros Hd Hcap HT floor.
  destruct (design_Ok_inv _ _ _ _ _ Hd) as (_ & _ & _ & _ & _ & _ & _ & _ & Hne & Hv).
  set (cap := PySAM.system_capacity d) in *.
  set (dT := PySAM.T_set d - PySAM.custom_mains_0 tm) in *.
  assert (HdT : 0 < dT) by (unfold dT; lra).
  assert (Hk : 0 < cap / (PySAM.cp_water * dT) / PySAM.density_water).
  { unfold PySAM.cp_water, PySAM.density_water.
    apply Qlt_shift_div_l; [reflexivity |]. apply Qlt_shift_div_l; [| lra].
    apply (Qmult_lt_0_compat 4.181 dT); [reflexivity | exact HdT]. }
  assert (Efloor : floor == 0.001 * 3600 * (cap / (PySAM.cp_water * dT) / PySAM.density_water)).
  { unfold floor, PySAM.cp_water, PySAM.density_water. field. lra. }
  assert (Ev : PySAM.V_tank d
               == Qmax h 0.001 * 3600 * (cap / (PySAM.cp_water * dT) / PySAM.density_water)).
  { rewrite Hv. unfold PySAM.cp_water, PySAM.density_water. field. lra. }
  set (k := cap / (PySAM.cp_water * dT) / PySAM.density_water) in *.
  assert (Hmax : 0.001 <= Qmax h 0.001) by apply Q.le_max_r.
  split; [| split].
  - rewrite Efloor.
    apply (Qmult_lt_0_compat (0.001 * 3600) k); [reflexivity | exact Hk].
  - rewrite Efloor, Ev.
    apply Qmult_le_compat_r; [lra | lra].
  - intros Hh. rewrite Efloor, Ev.
    assert (Em : Qmax h 0.001 == 0.001) by (apply Q.max_r; exact Hh).
    rewrite Em. reflexivity.
Qed.

(** No hours of storage asked of the SAM collector at 500 MW and 70 C. *)
Lemma tank_volume_has_a_floor_witness :
  exists d,
    PySAM.run_pysam_fpc_model_design PySAM.sam_defaults (Some 500) (Some 0) (Some 70)
    = Py.Ok d
    /\ 0 < PySAM.V_tank d.
Proof.
  eexists. split; [ vm_compute; reflexivity |].
  refine (let H := tank_volume_has_a_floor PySAM.sam_defaults _ 500 0 (Some 70) _ _ _ in
          Qlt_le_trans _ _ _ (proj1 H) (proj1 (proj2 H))).
  - vm_compute. reflexivity.
  - vm_compute. reflexivity.
  - vm_compute. reflexivity.
Defined.

(** ** The draw search of the PySAM sweep utility *)

Section DrawSearch.

Import PySAM PySAMRun.

Variable execute : swh -> Outputs.

Lemma linspace_head (a b : Q) (n : positive) :
  exists x l, linspace a b n = x :: l /\ x == a.
Proof.
  assert (Hgen : forall f : nat -> Q, f 0%nat == a ->
            exists x l, map f (seq 0 (Pos.to_nat n)) = x :: l /\ x == a).
  { intros f Hf. destruct (Pos2Nat.is_succ n) as [k Hk]. rewrite Hk. cbn.
    eexists _, _. split; [reflexivity | exact Hf]. }
  unfold linspace. destruct n.
  - apply Hgen. cbn. ring.
  - apply Hgen. cbn. ring.
  - exists a, []. split; reflexivity.
Qed.

(** After a pass over a non-empty grid the model holds a point of the grid
    and the outputs and temperature are those of its simulation. *)
Lemma scan_ran (lb ub : Q) (tm : swh) (pts : list Q) :
  forall s,
    (forall sd, set_scaled_draw (s_model s) sd = set_scaled_draw tm sd) ->
    pts <> [] ->
    exists sd,
      In sd pts
      /\ s_model (scan execute lb ub pts s) = set_scaled_draw tm sd
      /\ s_outputs (scan execute lb ub pts s)
         = Some (execute (s_model (scan execute lb ub pts s)))
      /\ temp_delivered (scan execute lb ub pts s)
         = np_mean (T_deliv (execute (s_model (scan execute lb ub pts s)))).
Proof.
  induction pts as [| p rest IH]; intros s Hs Hne; [congruence |].
  cbn [scan].
  destruct (Qlt_bool _ lb).
  { exists p. cbn. rewrite Hs. auto. }
  destruct (between lb ub _).
  { exists p. cbn. rewrite Hs. auto. }
  destruct rest as [| p' rest'].
  { exists p. cbn. rewrite Hs. auto. }
  edestruct IH as (sd & Hin & Hrest); [| discriminate |].
  2: { exists sd. split; [right; exact Hin | exact Hrest]. }
  intros sd'. cbn [s_model]. exact (Hs sd').
Qed.

Lemma draw_search_ran (tm : swh) (lb ub a b : Q) (n : positive) :
  exists sd,
    (In sd (linspace a b n) \/ In sd (linspace a b (n * 10))
     \/ In sd (linspace a b (n * 100)))
    /\ s_model (draw_search execute tm lb ub a b n) = set_scaled_draw tm sd
    /\ s_outputs (draw_search execute tm lb ub a b n)
       = Some (execute (s_model (draw_search execute tm lb ub a b n)))
    /\ temp_delivered (draw_search execute tm lb ub a b n)
       = np_mean (T_deliv (execute (s_model (draw_search execute tm lb ub a b n)))).
Proof.
  assert (Hne : forall k, linspace a b k <> []).
  { intros k. destruct (linspace_head a b k) as (x & l & -> & _). discriminate. }
  unfold draw_search.
  set (s0 := {| s_model := tm; s_outputs := None; temp_delivered := 0;
                num_runs := 0 |}).
  destruct (scan_ran lb ub tm (linspace a b n) s0 (fun _ => eq_refl) (Hne _))
    as (sd1 & Hin1 & Hm1 & H1).
  set (s1 := scan execute lb ub (linspace a b n) s0) in *.
  assert (Hs1 : forall sd, set_scaled_draw (s_model s1) sd = set_scaled_draw tm sd)
    by (intros sd; rewrite Hm1; reflexivity).
  destruct (between lb ub (temp_delivered s1)).
  - destruct (between lb ub (temp_delivered s1)).
    + exists sd1. auto.
    + destruct (scan_ran lb ub tm (linspace a b (n * 100)) s1 Hs1 (Hne _))
        as (sd3 & Hin3 & H3).
      exists sd3. auto.
  - destruct (scan_ran lb ub tm (linspace a b (n * 10)) s1 Hs1 (Hne _))
      as (sd2 & Hin2 & Hm2 & H2).
    set (s2 := scan execute lb ub (linspace a b (n * 10)) s1) in *.
    assert (Hs2 : forall sd, set_scaled_draw (s_model s2) sd = set_scaled_draw tm sd)
      by (intros sd; rewrite Hm2; reflexivity).
    destruct (between lb ub (temp_delivered s2)).
    + exists sd2. auto.
    + destruct (scan_ran lb ub tm (linspace a b (n * 100)) s2 Hs2 (Hne _))
        as (sd3 & Hin3 & H3).
      exists sd3. auto.
Qed.

Lemma prepare_Ok_inv tm hl hs th frac tm0 mh :
  prepare tm hl hs th frac = Py.Ok (tm0, mh) ->
  run_pysam_fpc_model_design (inputs tm) (Some hl) hs th = Py.Ok (inputs tm0)
  /\ ~ cp_water * (T_set (inputs tm0) - custom_mains_0 (inputs tm)) == 0
  /\ mh = system_capacity (inputs tm0)
          / (cp_water * (T_set (inputs tm0) - custom_mains_0 (inputs tm))) * 3600
  /\ T_tank_max tm0 <= 99
  /\ mdot tm0 = test_flow tm * ncoll (inputs tm0).
Proof.
  unfold prepare. intros Hp.
  destruct (run_pysam_fpc_model_design (inputs tm) (Some hl) hs th) as [d | e];
    [| discriminate].
  cbn in Hp.
  destruct (Py.div (system_capacity d) (cp_water * (T_set d - custom_mains_0 (inputs tm))))
    as [q | e] eqn:Eq; [| discriminate].
  apply div_Ok_inv in Eq as [Hne ->].
  cbn in Hp. injection Hp as <- <-. cbn.
  repeat split; try assumption.
  destruct (Qlt_bool 99 (T_set d * (1 + frac))) eqn:E.
  - apply Qle_refl.
  - apply Qnot_lt_le. intros Hlt. apply Qlt_bool_iff in Hlt. congruence.
Qed.

(** Before the search the function fails only on a division by zero. *)
Lemma prepare_Raise tm hl hs th frac e :
  prepare tm hl hs th frac = Py.Raise e -> e = Py.ZeroDivisionError.
Proof.
  unfold prepare.
  destruct (run_pysam_fpc_model_design (inputs tm) (Some hl) hs th) as [d | e'] eqn:Ed.
  - cbn. unfold Py.div.
    destruct (Qeq_bool _ 0); cbn; [congruence | discriminate].
  - cbn. intros He. injection He as <-. exact (design_Raise _ _ _ _ _ Ed).
Qed.

Lemma prepare_equal_temperatures tm hl hs th frac :
  default (T_set (inputs tm)) th == custom_mains_0 (inputs tm) ->
  prepare tm hl hs th frac = Py.Raise Py.ZeroDivisionError.
Proof.
  intros HT.
  destruct (prepare tm hl hs th frac) as [[tm0 mh] | e] eqn:Ep.
  - exfalso.
    destruct (prepare_Ok_inv _ _ _ _ _ _ _ Ep) as (Hd & Hne & _).
    destruct (design_Ok_inv _ _ _ _ _ Hd) as (_ & _ & _ & _ & _ & _ & _ & Hset & _).
    apply Hne. rewrite Hset. unfold cp_water. lra.
  - rewrite (prepare_Raise _ _ _ _ _ _ Ep). reflexivity.
Qed.

End DrawSearch.

(** X3: [run_pysam_fpc_model] raises ZeroDivisionError whenever the hot
    set-point it works with (the one passed, or else the one held by the
    model) equals the mains temperature, whether or not hours of storage
    are given: the hot-water mass flow divides by their difference. *)
Theorem equal_temperatures_divide_by_zero
    (execute : PySAMRun.swh -> PySAMRun.Outputs) (tm : PySAMRun.swh) (hl : Q)
    (hs th : option Q) (lbt : Q) (ubt : option Q) (sdmin : Q) (n : positive)
    (frac : Q) :
  default (PySAM.T_set (PySAMRun.inputs tm)) th
  == PySAM.custom_mains_0 (PySAMRun.inputs tm) ->
  PySAMRun.run_pysam_fpc_model execute tm hl hs th lbt ubt sdmin n frac
  = Py.Raise Py.ZeroDivisionError.
Proof.
  intros HT. unfold PySAMRun.run_pysam_fpc_model.
  rewrite (prepare_equal_temperatures tm hl hs th frac HT). reflexivity.
Qed.

(** A set-point of 20 C on mains water of 20 C. *)
Lemma equal_temperatures_divide_by_zero_witness :
  PySAMRun.run_pysam_fpc_model PySAMRun.ideal_execute PySAMRun.swh_defaults
    500 None (Some 20) 1 None 1 200 0.05
  = Py.Raise Py.ZeroDivisionError.
Proof.
  apply (equal_temperatures_divide_by_zero PySAMRun.ideal_execute
           PySAMRun.swh_defaults 500 None (Some 20) 1 None 1 200 0.05).
  vm_compute. reflexivity.
Defined.

(** X4: [temperature_hot] is optional in the signature of
    [run_pysam_fpc_model] but the function never returns without it: the
    assertion that the model's set-point equals it fails (AssertionError),
    unless the division by the temperature difference has failed before. *)
Theorem temperature_hot_is_required
    (execute : PySAMRun.swh -> PySAMRun.Outputs) (tm : PySAMRun.swh) (hl : Q)
    (hs : option Q) (lbt : Q) (ubt : option Q) (sdmin : Q) (n : positive)
    (frac : Q) :
  PySAMRun.run_pysam_fpc_model execute tm hl hs None lbt ubt sdmin n frac
  = Py.Raise Py.AssertionError
  \/ PySAMRun.run_pysam_fpc_model execute tm hl hs None lbt ubt sdmin n frac
     = Py.Raise Py.ZeroDivisionError.
Proof.
  unfold PySAMRun.run_pysam_fpc_model.
  destruct (PySAMRun.prepare tm hl hs None frac) as [[tm0 mh] | e] eqn:Ep.
  - left. reflexivity.
  - right. rewrite (prepare_Raise _ _ _ _ _ _ Ep). reflexivity.
Qed.

(** X5: when [run_pysam_fpc_model] returns, the delivered temperature it
    reports lies strictly between the set-point minus the lower threshold
    and the set-point plus the upper threshold (the lower one when none is
    given); the reported figures are those of the simulation of the
    returned model, whose set-point is the one asked for and whose draw is
    a point of one of the three grids; and the annual heat is not zero. *)
Theorem returned_design_is_within_bounds
    (execute : PySAMRun.swh -> PySAMRun.Outputs) (tm tm' : PySAMRun.swh) (hl : Q)
    (hs : option Q) (th lbt : Q) (ubt : option Q) (sdmin : Q) (n : positive)
    (frac : Q) (r : PySAMRun.results) :
  PySAMRun.run_pysam_fpc_model execute tm hl hs (Some th) lbt ubt sdmin n frac
  = Py.Ok (r, tm') ->
  (th - lbt < PySAMRun.temperature_delivered r
   /\ PySAMRun.temperature_delivered r < th + default lbt ubt)
  /\ PySAMRun.temperature_delivered r
     = PySAMRun.np_mean (PySAMRun.T_deliv (execute tm'))
  /\ PySAMRun.r_scaled_draw r = PySAMRun.np_mean (PySAMRun.draw (execute tm'))
  /\ PySAMRun.heat_annual r = PySAMRun.annual_Q_deliv (execute tm')
  /\ ~ PySAMRun.heat_annual r == 0
  /\ PySAMRun.electricity_annual r
     = Py.sum (PySAMRun.P_pump (execute tm')) + Py.sum (PySAMRun.Q_aux (execute tm'))
  /\ PySAM.T_set (PySAMRun.inputs tm') = th
  /\ PySAMRun.system_capacity_actual r = PySAM.system_capacity (PySAMRun.inputs tm')
  /\ (let mdot_hot :=
        PySAM.system_capacity (PySAMRun.inputs tm')
        / (PySAM.cp_water * (th - PySAM.custom_mains_0 (PySAMRun.inputs tm))) * 3600 in
      In (PySAMRun.scaled_draw tm') (PySAMRun.linspace sdmin mdot_hot n)
      \/ In (PySAMRun.scaled_draw tm') (PySAMRun.linspace sdmin mdot_hot (n * 10))
      \/ In (PySAMRun.scaled_draw tm') (PySAMRun.linspace sdmin mdot_hot (n * 100))).
Proof.
  unfold PySAMRun.run_pysam_fpc_model. intros Hr.
  destruct (PySAMRun.prepare tm hl hs (Some th) frac) as [[tm0 mh] | e] eqn:Ep;
    [| discriminate].
  cbn in Hr.
  destruct (prepare_Ok_inv _ _ _ _ _ _ _ Ep) as (Hd & Hne & Hmh & _).
  destruct (design_Ok_inv _ _ _ _ _ Hd)
    as (_ & _ & Hcap & Ha & Hta & Hul & _ & Hset & _).
  cbn in Hset.
  destruct (Py.assert (Qeq_bool (PySAM.T_set (PySAMRun.inputs tm0)) th)); [| discriminate].
  cbn in Hr.
  destruct (draw_search_ran execute tm0 (th - lbt) (th + default lbt ubt) sdmin mh n)
    as (sd & Hin & Hm & Hout & Htemp).
  set (s := PySAMRun.draw_search execute tm0 (th - lbt) (th + default lbt ubt)
              sdmin mh n) in *.
  destruct (PySAMRun.between (th - lbt) (th + default lbt ubt)
              (PySAMRun.temp_delivered s)) eqn:Eb; [| discriminate].
  cbn in Hr. rewrite Hout in Hr.
  destruct (Py.div _ _) as [fr | e] eqn:Ediv; [| discriminate].
  apply div_Ok_inv in Ediv as [Hheat _].
  cbn in Hr. injection Hr as <- <-. cbn.
  apply between_iff in Eb. rewrite Htemp in Eb.
  split; [exact Eb |].
  split; [reflexivity |]. split; [reflexivity |]. split; [reflexivity |].
  split; [exact Hheat |]. split; [reflexivity |].
  rewrite Hm. cbn.
  split; [exact Hset |].
  split.
  - unfold PySAM.system_capacity_computed. rewrite Hcap, Ha, Hta, Hul. reflexivity.
  - rewrite <- Hset. rewrite <- Hmh. exact Hin.
Qed.

(** A simulation that delivers the set-point is accepted at the first
    point of the first grid. *)
Lemma returned_design_is_within_bounds_witness :
  exists r tm',
    PySAMRun.run_pysam_fpc_model PySAMRun.ideal_execute PySAMRun.swh_defaults
      (1 # 100) (Some 2) (Some 70) 1 None 1 3 0.05
    = Py.Ok (r, tm')
    /\ 70 - 1 < PySAMRun.temperature_delivered r
    /\ PySAMRun.temperature_delivered r < 70 + 1.
Proof.
  eexists _, _. split; [vm_compute; reflexivity |].
  refine (proj1 (returned_design_is_within_bounds PySAMRun.ideal_execute
                   PySAMRun.swh_defaults _ (1 # 100) (Some 2) 70 1 None 1 3 0.05 _ _)).
  vm_compute. reflexivity.
Defined.

(** X6: all three passes of the search start at [scaled_draw_min], and a
    pass stops as soon as the delivered temperature is below the lower
    bound; so when the simulation at the starting draw delivers less than
    the lower bound, no refinement of the grid helps: the function runs
    exactly three simulations and raises RuntimeError. *)
Theorem cold_start_never_converges
    (execute : PySAMRun.swh -> PySAMRun.Outputs) (tm tm0 : PySAMRun.swh) (hl : Q)
    (hs : option Q) (th lbt : Q) (ubt : option Q) (sdmin mdot_hot : Q)
    (n : positive) (frac : Q) :
  PySAMRun.prepare tm hl hs (Some th) frac = Py.Ok (tm0, mdot_hot) ->
  (forall sd, sd == sdmin ->
     PySAMRun.np_mean (PySAMRun.T_deliv (execute (PySAMRun.set_scaled_draw tm0 sd)))
     < th - lbt) ->
  PySAMRun.run_pysam_fpc_model execute tm hl hs (Some th) lbt ubt sdmin n frac
  = Py.Raise (Py.RuntimeError PySAMRun.outside_bounds_msg)
  /\ PySAMRun.num_runs
       (PySAMRun.draw_search execute tm0 (th - lbt) (th + default lbt ubt)
          sdmin mdot_hot n)
     = 3%nat.
Proof.
  intros Ep Hcold.
  assert (Hpass : forall k s,
            (forall sd, PySAMRun.set_scaled_draw (PySAMRun.s_model s) sd
                        = PySAMRun.set_scaled_draw tm0 sd) ->
            let s' := PySAMRun.scan execute (th - lbt) (th + default lbt ubt)
                        (PySAMRun.linspace sdmin mdot_hot k) s in
            PySAMRun.num_runs s' = S (PySAMRun.num_runs s)
            /\ PySAMRun.between (th - lbt) (th + default lbt ubt)
                 (PySAMRun.temp_delivered s') = false
            /\ (forall sd, PySAMRun.set_scaled_draw (PySAMRun.s_model s') sd
                           = PySAMRun.set_scaled_draw tm0 sd)).
  { intros k s Hs.
    destruct (linspace_head sdmin mdot_hot k) as (x & l & -> & Hx).
    cbn [PySAMRun.scan]. rewrite Hs.
    pose proof (Hcold x Hx) as Hlt.
    assert (Hb : PySAMRun.Qlt_bool
                   (PySAMRun.np_mean
                      (PySAMRun.T_deliv (execute (PySAMRun.set_scaled_draw tm0 x))))
                   (th - lbt) = true) by (apply Qlt_bool_iff; exact Hlt).
    rewrite Hb. cbn. split; [reflexivity |]. split; [| reflexivity].
    destruct (PySAMRun.between _ _ _) eqn:Eb; [| reflexivity].
    apply between_iff in Eb. destruct Eb as [Eb _].
    exfalso. exact (Qlt_irrefl _ (Qlt_trans _ _ _ Hlt Eb)). }
  assert (Hruns : PySAMRun.num_runs
                    (PySAMRun.draw_search execute tm0 (th - lbt) (th + default lbt ubt)
                       sdmin mdot_hot n) = 3%nat
                  /\ PySAMRun.between (th - lbt) (th + default lbt ubt)
                       (PySAMRun.temp_delivered
                          (PySAMRun.draw_search execute tm0 (th - lbt)
                             (th + default lbt ubt) sdmin mdot_hot n)) = false).
  { unfold PySAMRun.draw_search.
    set (s0 := {| PySAMRun.s_model := tm0; PySAMRun.s_outputs := None;
                  PySAMRun.temp_delivered := 0; PySAMRun.num_runs := 0 |}).
    destruct (Hpass n s0 (fun _ => eq_refl)) as (Hn1 & Hb1 & Hs1).
    rewrite Hb1.
    destruct (Hpass (n * 10)%positive _ Hs1) as (Hn2 & Hb2 & Hs2).
    rewrite Hb2.
    destruct (Hpass (n * 100)%positive _ Hs2) as (Hn3 & Hb3 & _).
    split; [| exact Hb3].
    rewrite Hn3, Hn2, Hn1. reflexivity. }
  destruct Hruns as [Hruns Hb].
  split; [| exact Hruns].
  unfold PySAMRun.run_pysam_fpc_model. rewrite Ep. cbn.
  destruct (prepare_Ok_inv _ _ _ _ _ _ _ Ep) as (Hd & _).
  destruct (design_Ok_inv _ _ _ _ _ Hd) as (_ & _ & _ & _ & _ & _ & _ & Hset & _).
  cbn in Hset. rewrite Hset.
  assert (Hq : Qeq_bool th th = true) by (apply Qeq_bool_iff; reflexivity).
  rewrite Hq. cbn. rewrite Hb. reflexivity.
Qed.

(** A simulation that delivers mains water at 20 C against a set-point of
    70 C. *)
Lemma cold_start_never_converges_witness :
  PySAMRun.run_pysam_fpc_model PySAMRun.cold_execute PySAMRun.swh_defaults
    (1 # 100) (Some 2) (Some 70) 1 None 1 3 0.05
  = Py.Raise (Py.RuntimeError PySAMRun.outside_bounds_msg).
Proof.
  refine (proj1 (cold_start_never_converges PySAMRun.cold_execute
                   PySAMRun.swh_defaults _ (1 # 100) (Some 2) 70 1 None 1 _ 3 0.05
                   _ _)).
  - vm_compute. reflexivity.
  - intros sd _. vm_compute. reflexivity.
Defined.

(** ** The collector count of the surrogate against the PySAM design *)

(** X7: when the surrogate's collector parameters are those of the PySAM
    model (with [factor_delta_T] the 30/1000 of the SAM formula) and its two
    sizing constraints hold, the number of collectors that
    [run_pysam_fpc_model] sets for the same heat load is the surrogate's
    [number_collectors] rounded to the nearest integer, so the two differ by
    at most one half. *)
Theorem surrogate_collectors_round_to_pysam
    (b : FlatPlateSizing.Sizing) (tm d : PySAM.tech_model) (hs th : option Q) :
  FlatPlateSizing.FR_ta b == PySAM.FRta tm ->
  FlatPlateSizing.FR_UL b == PySAM.FRUL tm ->
  FlatPlateSizing.factor_delta_T b == 30 / 1000 ->
  FlatPlateSizing.collector_area_per b == PySAM.area_coll tm ->
  FlatPlateSizing.collector_area_total_constraint b ->
  FlatPlateSizing.number_collectors_constraint b ->
  PySAM.run_pysam_fpc_model_design tm (Some (FlatPlateSizing.heat_load b)) hs th
  = Py.Ok d ->
  PySAM.ncoll d = inject_Z (Py.round (FlatPlateSizing.number_collectors b))
  /\ FlatPlateSizing.number_collectors b - (1 # 2) <= PySAM.ncoll d
  /\ PySAM.ncoll d <= FlatPlateSizing.number_collectors b + (1 # 2).
Proof.
  intros Hta Hul HdT Hper Harea Hnum Hd.
  destruct (design_Ok_inv _ _ _ _ _ Hd) as (Hc & Hn & _).
  unfold FlatPlateSizing.collector_area_total_constraint, FlatPlateSizing.MW_to_kW
    in Harea.
  unfold FlatPlateSizing.number_collectors_constraint in Hnum.
  rewrite Hta, Hul, HdT in Harea. rewrite Hper in Hnum.
  set (A := PySAM.area_coll tm) in *.
  set (f := PySAM.FRta tm - PySAM.FRUL tm * 30 / 1000) in *.
  assert (HA : ~ A == 0).
  { intros H0. apply Hc. rewrite H0. ring. }
  assert (Hf : ~ f == 0).
  { intros H0. apply Hc. rewrite H0. ring. }
  assert (Harea' : FlatPlateSizing.collector_area_total b * f
                   == FlatPlateSizing.heat_load b * 1000).
  { rewrite <- Harea. unfold f. field. }
  assert (E : FlatPlateSizing.number_collectors b
              == FlatPlateSizing.heat_load b * 1000 / (A * f)).
  { rewrite Hnum, <- Harea'. field. split; assumption. }
  assert (Hround : PySAM.ncoll d
                   = inject_Z (Py.round (FlatPlateSizing.number_collectors b))).
  { rewrite Hn. f_equal. apply round_comp. symmetry. exact E. }
  split; [exact Hround |].
  rewrite Hround. exact (round_nearest _).
Qed.

(** The surrogate as built, solved for 500 MW, against the SAM defaults. *)
Lemma surrogate_collectors_round_to_pysam_witness :
  exists d,
    PySAM.run_pysam_fpc_model_design PySAM.sam_defaults (Some 500) None None = Py.Ok d
    /\ PySAM.ncoll d
       = inject_Z (Py.round (FlatPlateSizing.number_collectors
                               (FlatPlateSizing.with_sizing (FlatPlateSizing.build_sizing 500)
                                  (500000 / 0.5735) (500000 / 0.5735 / 2.98)))).
Proof.
  eexists. split; [vm_compute; reflexivity |].
  refine (proj1 (surrogate_collectors_round_to_pysam
                   (FlatPlateSizing.with_sizing (FlatPlateSizing.build_sizing 500)
                      (500000 / 0.5735) (500000 / 0.5735 / 2.98))
                   PySAM.sam_defaults _ None None _ _ _ _ _ _ _));
    vm_compute; reflexivity.
Defined.

(** ** The aggregate block and the feeds of the KBHDP train *)

(** X8: [build_agg_costing_blk] raises IndexError on an empty list of
    models; otherwise it builds the block, with the three economic
    parameters of the first model, exactly when every model has the
    capital recovery factor, the electricity cost and the heat cost of the
    first one, and raises AssertionError as soon as one model differs. *)
Theorem agg_block_needs_shared_parameters
    (models : list KBHDP_ZLD.CostingData) (bp : Units.time_unit) (pf : Q) :
  match models with
  | [] => KBHDP_ZLD.build_agg_costing_blk models bp pf = Py.Raise Py.IndexError
  | m0 :: _ =>
      ((forall m, In m models ->
          KBHDP_ZLD.capital_recovery_factor m == KBHDP_ZLD.capital_recovery_factor m0
          /\ KBHDP_ZLD.electricity_cost m == KBHDP_ZLD.electricity_cost m0
          /\ KBHDP_ZLD.heat_cost m == KBHDP_ZLD.heat_cost m0) ->
       exists b,
         KBHDP_ZLD.build_agg_costing_blk models bp pf = Py.Ok b
         /\ KBHDP_ZLD.Agg.capital_recovery_factor b = KBHDP_ZLD.capital_recovery_factor m0
         /\ KBHDP_ZLD.Agg.electricity_cost b = KBHDP_ZLD.electricity_cost m0
         /\ KBHDP_ZLD.Agg.heat_cost b = KBHDP_ZLD.heat_cost m0)
      /\ (forall m, In m models ->
            ~ (KBHDP_ZLD.capital_recovery_factor m == KBHDP_ZLD.capital_recovery_factor m0
               /\ KBHDP_ZLD.electricity_cost m == KBHDP_ZLD.electricity_cost m0
               /\ KBHDP_ZLD.heat_cost m == KBHDP_ZLD.heat_cost m0) ->
            KBHDP_ZLD.build_agg_costing_blk models bp pf = Py.Raise Py.AssertionError)
  end.
Proof.
  destruct models as [| m0 rest]; [reflexivity |].
  unfold KBHDP_ZLD.build_agg_costing_blk.
  set (same := KBHDP_ZLD.same_parameters (KBHDP_ZLD.capital_recovery_factor m0)
                 (KBHDP_ZLD.electricity_cost m0) (KBHDP_ZLD.heat_cost m0)).
  assert (Hsame : forall m,
            same m = true
            <-> KBHDP_ZLD.capital_recovery_factor m == KBHDP_ZLD.capital_recovery_factor m0
                /\ KBHDP_ZLD.electricity_cost m == KBHDP_ZLD.electricity_cost m0
                /\ KBHDP_ZLD.heat_cost m == KBHDP_ZLD.heat_cost m0).
  { intros m. unfold same, KBHDP_ZLD.same_parameters.
    rewrite !andb_true_iff, !Qeq_bool_iff. tauto. }
  split.
  - intros Hall.
    assert (Hf : forallb same (m0 :: rest) = true).
    { apply forallb_forall. intros m Hin. apply Hsame, Hall, Hin. }
    rewrite Hf. cbn. eexists. split; [reflexivity |]. cbn. auto.
  - intros m Hin Hdiff.
    destruct (forallb same (m0 :: rest)) eqn:Hf; [| reflexivity].
    exfalso. apply Hdiff, Hsame.
    rewrite forallb_forall in Hf. apply Hf, Hin.
Qed.

(** Three models that share their parameters, and two that differ in the
    heat cost. *)
Lemma agg_block_needs_shared_parameters_witness :
  (exists b, KBHDP_ZLD.build_agg_costing_blk KBHDP_ZLD.example_costings Units.year 0.1
             = Py.Ok b)
  /\ KBHDP_ZLD.build_agg_costing_blk
       [ {| KBHDP_ZLD.capital_recovery_factor := 0.1; KBHDP_ZLD.electricity_cost := 0.066;
            KBHDP_ZLD.heat_cost := 0.0166; KBHDP_ZLD.total_capital_cost := 1;
            KBHDP_ZLD.total_operating_cost := 1 |};
         {| KBHDP_ZLD.capital_recovery_factor := 0.1; KBHDP_ZLD.electricity_cost := 0.066;
            KBHDP_ZLD.heat_cost := 0.02; KBHDP_ZLD.total_capital_cost := 1;
            KBHDP_ZLD.total_operating_cost := 1 |} ] Units.year 0.1
     = Py.Raise Py.AssertionError.
Proof.
  split.
  - destruct (proj1 (agg_block_needs_shared_parameters
                       KBHDP_ZLD.example_costings Units.year 0.1)) as (b & Hb & _).
    + intros m [<- | [<- | [<- | []]]]; vm_compute; auto.
    + exists b. exact Hb.
  - refine (proj2 (agg_block_needs_shared_parameters
                     [ {| KBHDP_ZLD.capital_recovery_factor := 0.1;
                          KBHDP_ZLD.electricity_cost := 0.066;
                          KBHDP_ZLD.heat_cost := 0.0166;
                          KBHDP_ZLD.total_capital_cost := 1;
                          KBHDP_ZLD.total_operating_cost := 1 |};
                       {| KBHDP_ZLD.capital_recovery_factor := 0.1;
                          KBHDP_ZLD.electricity_cost := 0.066;
                          KBHDP_ZLD.heat_cost := 0.02;
                          KBHDP_ZLD.total_capital_cost := 1;
                          KBHDP_ZLD.total_operating_cost := 1 |} ]
                     Units.year 0.1) _ _ _).
    + right. left. reflexivity.
    + vm_compute. intros (_ & _ & Hh). discriminate Hh.
Defined.

Section FeedsAndTrain.

Import KBHDP_ZLD.

Context {S : Type} `{Framework S}.

(** What [build_agg_model] hands to the aggregate block. *)
Lemma build_agg_model_Ok_inv (m1 m_md m_mec : model S) (b : Agg.block) :
  build_agg_model m1 m_md m_mec = Py.Ok b ->
  Agg.models b = [value_costing (fs_state m1); value_costing (fs_state m_md);
                  value_costing (fs_state m_mec)]
  /\ Agg.base_period b = Units.year
  /\ Agg.product_flow b
     = value_flow_vol (fs_state m1) "product"
       + (value_flow_vol (fs_state m_md) "product"
          + (value_flow_vol (fs_state m_mec) "product" + 0))
  /\ Agg.capital_recovery_factor b = capital_recovery_factor (value_costing (fs_state m1)).
Proof.
  unfold build_agg_model, build_agg_costing_blk. cbn [map].
  intros Hb. inv_bind Hb. injection Hb as <-. cbn. auto.
Qed.

End FeedsAndTrain.

(** X9: in the aggregate model of the train the LCOW is the sum of the
    three capital costs times the capital recovery factor of the primary
    system, plus the sum of the three operating costs, divided by the
    volume that the three product streams together give in a year of
    31557600 seconds; when the three product flows sum to zero the
    expression raises ZeroDivisionError. *)
Theorem train_LCOW_over_all_product_streams
    (S : Type) (F : KBHDP_ZLD.Framework S) (m1 m_md m_mec : KBHDP_ZLD.model S)
    (b : KBHDP_ZLD.Agg.block) :
  KBHDP_ZLD.build_agg_model m1 m_md m_mec = Py.Ok b ->
  let costing := fun m => KBHDP_ZLD.value_costing (KBHDP_ZLD.fs_state m) in
  let product := fun m => KBHDP_ZLD.value_flow_vol (KBHDP_ZLD.fs_state m) "product" in
  let capital := KBHDP_ZLD.total_capital_cost (costing m1)
                 + KBHDP_ZLD.total_capital_cost (costing m_md)
                 + KBHDP_ZLD.total_capital_cost (costing m_mec) in
  let operating := KBHDP_ZLD.total_operating_cost (costing m1)
                   + KBHDP_ZLD.total_operating_cost (costing m_md)
                   + KBHDP_ZLD.total_operating_cost (costing m_mec) in
  let volume := (product m1 + product m_md + product m_mec) * 31557600 in
  (~ volume == 0 ->
   exists v, KBHDP_ZLD.LCOW (KBHDP_ZLD.solve_agg b) = Py.Ok v
             /\ v == (capital * KBHDP_ZLD.capital_recovery_factor (costing m1) + operating)
                     / volume)
  /\ (volume == 0 ->
      KBHDP_ZLD.LCOW (KBHDP_ZLD.solve_agg b) = Py.Raise Py.ZeroDivisionError).
Proof.
  intros Hb costing product capital operating volume.
  destruct (build_agg_model_Ok_inv _ _ _ _ Hb) as (Hm & Hbp & Hpf & Hcrf).
  unfold KBHDP_ZLD.LCOW, KBHDP_ZLD.solve_agg, KBHDP_ZLD.with_costs. cbn.
  rewrite Hm, Hbp, Hpf, Hcrf. cbn.
  fold (costing m1) (costing m_md) (costing m_mec).
  fold (product m1) (product m_md) (product m_mec).
  assert (Ev : Units.per_second_to_per Units.year
                 (product m1 + (product m_md + (product m_mec + 0))) == volume).
  { unfold Units.per_second_to_per, Units.seconds, volume. ring. }
  split.
  - intros Hne. rewrite div_nonzero; [| rewrite Ev; exact Hne].
    eexists. split; [reflexivity |].
    rewrite Ev. unfold capital, operating.
    apply Qdiv_comp; [ring | reflexivity].
  - intros Hz. apply div_zero. rewrite Ev. exact Hz.
Qed.

(** Three solved models of the square framework, each with a product flow
    of 0.05 m3/s. *)
Lemma train_LCOW_over_all_product_streams_witness :
  exists b v,
    KBHDP_ZLD.build_agg_model (H := KBHDP_ZLD.square_framework)
      {| KBHDP_ZLD.fs_arcs := KBHDP_ZLD.add_primary_connections;
         KBHDP_ZLD.fs_inputs := KBHDP_ZLD.NoFeed; KBHDP_ZLD.fs_state := tt |}
      {| KBHDP_ZLD.fs_arcs := KBHDP_ZLD.md_connections;
         KBHDP_ZLD.fs_inputs := KBHDP_ZLD.NoFeed; KBHDP_ZLD.fs_state := tt |}
      {| KBHDP_ZLD.fs_arcs := KBHDP_ZLD.mec_connections;
         KBHDP_ZLD.fs_inputs := KBHDP_ZLD.NoFeed; KBHDP_ZLD.fs_state := tt |}
    = Py.Ok b
    /\ KBHDP_ZLD.LCOW (KBHDP_ZLD.solve_agg b) = Py.Ok v.
Proof.
  eexists. 
  destruct (proj1 (train_LCOW_over_all_product_streams unit KBHDP_ZLD.square_framework
              {| KBHDP_ZLD.fs_arcs := KBHDP_ZLD.add_primary_connections;
                 KBHDP_ZLD.fs_inputs := KBHDP_ZLD.NoFeed; KBHDP_ZLD.fs_state := tt |}
              {| KBHDP_ZLD.fs_arcs := KBHDP_ZLD.md_connections;
                 KBHDP_ZLD.fs_inputs := KBHDP_ZLD.NoFeed; KBHDP_ZLD.fs_state := tt |}
              {| KBHDP_ZLD.fs_arcs := KBHDP_ZLD.mec_connections;
                 KBHDP_ZLD.fs_inputs := KBHDP_ZLD.NoFeed; KBHDP_ZLD.fs_state := tt |}
              _ eq_refl)) as (v & Hv & _).
  - vm_compute. discriminate.
  - exists v. split; [reflexivity | exact Hv].
Defined.

(** X10: [set_mec_operating_conditions] called with a flow in MGD and a
    salinity in g/L (and no mass flows) fixes a water mass flow of the
    volumetric flow times 1000 kg/m3 and a salt mass flow whose ratio to
    the water is the salinity over 1000; called with [flow_mass_water] but
    without [flow_mass_tds] it never succeeds, whatever flow and salinity
    are passed besides. *)
Theorem mec_feed_arguments
    (S : Type) (F : KBHDP_ZLD.Framework S) (m : KBHDP_ZLD.model S) :
  (forall q t,
     exists m' water nacl,
       KBHDP_ZLD.set_mec_operating_conditions m (Some q) (Some t)
         {| KBHDP_ZLD.kw_flow_mass_water := None; KBHDP_ZLD.kw_flow_mass_tds := None |}
       = Py.Ok m'
       /\ KBHDP_ZLD.fs_inputs m' = KBHDP_ZLD.MECFeed water nacl
       /\ KBHDP_ZLD.fs_state m'
          = KBHDP_ZLD.fix_feed (KBHDP_ZLD.MECFeed water nacl) (KBHDP_ZLD.fs_state m)
       /\ water == Units.mgd_to_m3_s q * 1000
       /\ nacl * 1000 == water * t)
  /\ (forall w Qin tds,
        exists e,
          KBHDP_ZLD.set_mec_operating_conditions m Qin tds
            {| KBHDP_ZLD.kw_flow_mass_water := Some w;
               KBHDP_ZLD.kw_flow_mass_tds := None |}
          = Py.Raise e).
Proof.
  split.
  - intros q t. unfold KBHDP_ZLD.set_mec_operating_conditions. cbn.
    eexists _, _, _. split; [reflexivity |]. cbn.
    split; [reflexivity |]. split; [reflexivity |].
    unfold KBHDP_ZLD.rho, Units.g_L_to_kg_m3. split; ring.
  - intros w Qin tds. unfold KBHDP_ZLD.set_mec_operating_conditions. cbn.
    destruct Qin, tds; cbn; eexists; reflexivity.
Qed.

(** ** The inlet conditions of the primary treatment *)

Section Inlet.

Import KBHDP_Inlet.

Lemma value_flow_fix_flow (f : feed) (j : string) (v : Q) :
  value_flow (fix_flow f j v) j = v.
Proof. unfold value_flow, fix_flow. cbn. rewrite lookup_insert_eq. reflexivity. Qed.

Lemma value_flow_fix_flow_ne (f : feed) (i j : string) (v : Q) :
  i <> j -> value_flow (fix_flow f i v) j = value_flow f j.
Proof.
  intros Hne. unfold value_flow, fix_flow. cbn. rewrite lookup_insert_ne; auto.
Qed.

(** The loop over the dictionary, when no solute flow comes out zero: each
    solute gets the water flow over 1000 times its concentration and the
    inverse of that as scaling factor; nothing else is touched. *)
Lemma set_solutes_Ok (l : list (string * Q)) :
  forall f : feed,
    NoDup (map fst l) ->
    ~ In "H2O"%string (map fst l) ->
    (forall j c, In (j, c) l -> ~ value_flow f "H2O" / 1000 * c == 0) ->
    exists f',
      set_solutes f l = Py.Ok f'
      /\ (forall j c, In (j, c) l ->
            flow_mass_phase_comp f' !! j = Some (value_flow f "H2O" / 1000 * c)
            /\ default_scaling f' !! j = Some (1 / (value_flow f "H2O" / 1000 * c)))
      /\ (forall j, ~ In j (map fst l) ->
            flow_mass_phase_comp f' !! j = flow_mass_phase_comp f !! j
            /\ default_scaling f' !! j = default_scaling f !! j)
      /\ pressure f' = pressure f /\ temperature f' = temperature f.
Proof.
  induction l as [| [s c] l IH]; intros f Hnd Hw Hnz.
  - exists f. cbn. repeat split; intros; contradiction.
  - cbn [set_solutes]. unfold set_solute.
    rewrite value_flow_fix_flow.
    rewrite div_nonzero; [| apply (Hnz s c); left; reflexivity]. cbn.
    set (f1 := set_default_scaling
                 (fix_flow f s (value_flow f "H2O" / 1000 * c)) s
                 (1 / (value_flow f "H2O" / 1000 * c))).
    cbn in Hnd, Hw. apply NoDup_cons in Hnd as [Hs Hnd].
    assert (Hs' : ~ In s (map fst l)) by (rewrite <- list_elem_of_In; exact Hs).
    assert (Hsw : s <> "H2O"%string) by (intros ->; apply Hw; left; reflexivity).
    assert (Hw1 : value_flow f1 "H2O" = value_flow f "H2O").
    { unfold f1, set_default_scaling, value_flow. cbn.
      rewrite lookup_insert_ne; auto. }
    destruct (IH f1 Hnd) as (f' & Hrun & Hin & Hout & Hp & Ht).
    { intros Hc. apply Hw. right. exact Hc. }
    { intros j c' Hj. rewrite Hw1. apply (Hnz j c'). right. exact Hj. }
    exists f'. split; [exact Hrun |]. rewrite Hw1 in Hin.
    split; [| split; [| split; [exact Hp | exact Ht]]].
    + intros j c' [Heq | Hj].
      * injection Heq as <- <-.
        destruct (Hout s Hs') as [Hfl Hsc]. rewrite Hfl, Hsc.
        unfold f1, set_default_scaling, fix_flow. cbn.
        rewrite !lookup_insert_eq. auto.
      * apply Hin, Hj.
    + intros j Hj. cbn in Hj.
      assert (Hjs : s <> j) by (intros ->; apply Hj; left; reflexivity).
      destruct (Hout j) as [Hfl Hsc]; [intros Hc; apply Hj; right; exact Hc |].
      rewrite Hfl, Hsc. unfold f1, set_default_scaling, fix_flow. cbn.
      rewrite !lookup_insert_ne; auto.
Qed.

Lemma inverse_scaling (x : Q) : ~ x == 0 -> 1 / x * x == 1.
Proof. intros Hx. field. exact Hx. Qed.

Lemma set_solute_zero (f : feed) (s : string) (c : Q) :
  value_flow f "H2O" / 1000 * c == 0 ->
  set_solute f s c = Py.Raise Py.ZeroDivisionError.
Proof.
  intros Hz. unfold set_solute. rewrite value_flow_fix_flow.
  rewrite (div_zero _ _ Hz). reflexivity.
Qed.

Lemma inlet_dict_keys :
  NoDup (map fst inlet_dict) /\ ~ In "H2O"%string (map fst inlet_dict)
  /\ forall j c, In (j, c) inlet_dict -> 0 < c.
Proof.
  split; [| split].
  - apply (bool_decide_unpack _). vm_compute. exact I.
  - cbn. intros Hin. repeat (destruct Hin as [Hin | Hin]; [discriminate |]). exact Hin.
  - intros j c Hin. cbn in Hin.
    repeat (destruct Hin as [Hin | Hin]; [injection Hin as <- <-; reflexivity |]).
    contradiction.
Qed.

End Inlet.

(** X11: for a positive feed flow [set_inlet_conditions] returns, with the
    water mass flow fixed at the volumetric flow (converted from MGD) times
    1000 kg/m3, every solute of the dictionary fixed at the volumetric flow
    times its concentration, for water and each solute a default scaling
    factor that is the inverse of the fixed flow, and the supply pressure
    and 293.15 K fixed; the solutes of the dictionary are exactly the
    solutes of the property package, so no component flow is left free. *)
Theorem inlet_flows_follow_concentrations
    (f : KBHDP_Inlet.feed) (Qin supply_pressure : Q) :
  0 < Qin ->
  exists f',
    KBHDP_Inlet.set_inlet_conditions f Qin supply_pressure = Py.Ok f'
    /\ KBHDP_Inlet.value_flow f' "H2O" == Units.mgd_to_m3_s Qin * 1000
    /\ (forall j c, In (j, c) KBHDP_Inlet.inlet_dict ->
          is_Some (KBHDP_Inlet.flow_mass_phase_comp f' !! j)
          /\ KBHDP_Inlet.value_flow f' j == Units.mgd_to_m3_s Qin * c)
    /\ (forall j, j = "H2O"%string \/ In j KBHDP_Inlet.solute_list ->
          exists sf, KBHDP_Inlet.default_scaling f' !! j = Some sf
                     /\ sf * KBHDP_Inlet.value_flow f' j == 1)
    /\ KBHDP_Inlet.pressure f' = Some supply_pressure
    /\ KBHDP_Inlet.temperature f' = Some 293.15
    /\ (forall j, In j KBHDP_Inlet.solute_list
                  <-> exists c, In (j, c) KBHDP_Inlet.inlet_dict).
Proof.
  intros HQ.
  destruct inlet_dict_keys as (Hnd & Hw & Hpos).
  set (q := Units.mgd_to_m3_s Qin).
  assert (Hq : 0 < q).
  { unfold q, Units.mgd_to_m3_s, Units.m3_per_Mgallon, Units.seconds.
    apply Qlt_shift_div_l; [reflexivity |].
    assert (E : 0 * 86400 == 0) by ring. rewrite E.
    apply (Qmult_lt_0_compat Qin 3785.411784); [exact HQ | reflexivity]. }
  set (f0 := KBHDP_Inlet.fix_flow f "H2O" (q * 1000)).
  assert (Hw0 : KBHDP_Inlet.value_flow f0 "H2O" = q * 1000)
    by apply value_flow_fix_flow.
  assert (Hsol : forall c, 0 < c -> q * 1000 / 1000 * c == q * c /\ 0 < q * c).
  { intros c Hc. split; [field |]. apply Qmult_lt_0_compat; assumption. }
  destruct (set_solutes_Ok KBHDP_Inlet.inlet_dict f0 Hnd Hw)
    as (f1 & Hrun & Hin & Hout & Hp & Ht).
  { intros j c Hj. rewrite Hw0.
    destruct (Hsol c (Hpos j c Hj)) as [E Hc]. rewrite E. lra. }
  rewrite Hw0 in Hin.
  assert (Hw1 : KBHDP_Inlet.flow_mass_phase_comp f1 !! "H2O"%string = Some (q * 1000)).
  { destruct (Hout "H2O"%string Hw) as [Hfl _]. rewrite Hfl.
    unfold f0, KBHDP_Inlet.fix_flow. cbn. apply lookup_insert_eq. }
  assert (Hv1 : KBHDP_Inlet.value_flow f1 "H2O" = q * 1000).
  { unfold KBHDP_Inlet.value_flow. rewrite Hw1. reflexivity. }
  assert (Hnz : ~ q * 1000 == 0) by lra.
  unfold KBHDP_Inlet.set_inlet_conditions. fold q. fold f0.
  rewrite Hrun. cbn. rewrite Hv1. rewrite (div_nonzero _ _ Hnz). cbn.
  eexists. split; [reflexivity |].
  unfold KBHDP_Inlet.value_flow. cbn.
  split; [rewrite Hw1; reflexivity |].
  split; [| split; [| split; [reflexivity | split; [reflexivity |]]]].
  - intros j c Hj. destruct (Hin j c Hj) as [Hfl _]. rewrite Hfl. cbn.
    split; [eauto |]. apply (Hsol c (Hpos j c Hj)).
  - intros j [-> | Hj].
    + rewrite lookup_insert_eq, Hw1. cbn. eexists. split; [reflexivity |].
      apply inverse_scaling. exact Hnz.
    + assert (Hc : exists c, In (j, c) KBHDP_Inlet.inlet_dict).
      { cbn in Hj. cbn.
        repeat (destruct Hj as [<- | Hj]; [eexists; tauto |]). contradiction. }
      destruct Hc as [c Hc].
      assert (Hjw : "H2O"%string <> j).
      { intros <-. apply Hw. apply (in_map fst _ _ Hc). }
      rewrite lookup_insert_ne by exact Hjw.
      destruct (Hin j c Hc) as [Hfl Hsc]. rewrite Hfl, Hsc. cbn.
      eexists. split; [reflexivity |].
      destruct (Hsol c (Hpos j c Hc)) as [E Hc0].
      apply inverse_scaling. rewrite E. lra.
  - intros j. cbn. split.
    + intros Hj. repeat (destruct Hj as [<- | Hj]; [eexists; tauto |]). contradiction.
    + intros [c Hj].
      repeat (destruct Hj as [Hj | Hj]; [injection Hj as <- _; tauto |]). contradiction.
Qed.

(** The default feed of 4 MGD at atmospheric pressure. *)
Lemma inlet_flows_follow_concentrations_witness :
  exists f',
    KBHDP_Inlet.set_inlet_conditions KBHDP_Inlet.no_feed 4 101325 = Py.Ok f'
    /\ KBHDP_Inlet.value_flow f' "H2O" == Units.mgd_to_m3_s 4 * 1000.
Proof.
  destruct (inlet_flows_follow_concentrations KBHDP_Inlet.no_feed 4 101325)
    as (f' & Hrun & Hw & _).
  - reflexivity.
  - exists f'. split; [exact Hrun | exact Hw].
Defined.

(** X12: with a feed flow of zero [set_inlet_conditions] raises
    ZeroDivisionError: the first solute flow is fixed at zero and its
    scaling factor is one over that flow. *)
Theorem zero_inlet_flow_divides_by_zero
    (f : KBHDP_Inlet.feed) (Qin supply_pressure : Q) :
  Qin == 0 ->
  KBHDP_Inlet.set_inlet_conditions f Qin supply_pressure
  = Py.Raise Py.ZeroDivisionError.
Proof.
  intros HQ. unfold KBHDP_Inlet.set_inlet_conditions.
  cbn [KBHDP_Inlet.inlet_dict KBHDP_Inlet.set_solutes].
  rewrite set_solute_zero; [reflexivity |].
  rewrite value_flow_fix_flow.
  unfold Units.mgd_to_m3_s. rewrite HQ. unfold Units.seconds. field.
Qed.

Lemma zero_inlet_flow_divides_by_zero_witness :
  KBHDP_Inlet.set_inlet_conditions KBHDP_Inlet.no_feed 0 101325
  = Py.Raise Py.ZeroDivisionError.
Proof.
  apply (zero_inlet_flow_divides_by_zero KBHDP_Inlet.no_feed 0 101325). reflexivity.
Defined.

(** ** The properties of the FO draw solution *)

Section DrawSolutionProperties.

Import FOProperties.

(** The product of a quantity between 0 and 100 with a bounded one. *)
Lemma mult_bounds (s u lo hi : Q) :
  0 <= s -> s <= 100 -> lo <= u -> u <= hi -> lo <= 0 -> 0 <= hi ->
  100 * lo <= s * u /\ s * u <= 100 * hi.
Proof.
  intros Hs0 Hs1 Hlo Hhi Hl0 Hh0.
  assert (H1 : 0 <= s * (u - lo)) by (apply Qmult_le_0_compat; lra).
  assert (H2 : 0 <= (100 - s) * (0 - lo)) by (apply Qmult_le_0_compat; lra).
  assert (H3 : 0 <= s * (hi - u)) by (apply Qmult_le_0_compat; lra).
  assert (H4 : 0 <= (100 - s) * hi) by (apply Qmult_le_0_compat; lra).
  assert (E1 : s * (u - lo) == s * u - s * lo) by ring.
  assert (E2 : (100 - s) * (0 - lo) == s * lo - 100 * lo) by ring.
  assert (E3 : s * (hi - u) == s * hi - s * u) by ring.
  assert (E4 : (100 - s) * hi == 100 * hi - s * hi) by ring.
  rewrite E1 in H1. rewrite E2 in H2. rewrite E3 in H3. rewrite E4 in H4.
  set (su := s * u) in *. set (sl := s * lo) in *. set (sh := s * hi) in *.
  clearbody su sl sh. split; lra.
Qed.

Lemma dens_mass_range (s : Q) :
  0 <= s -> s <= 100 -> 1000 <= dens_mass s /\ dens_mass s <= 1300.
Proof.
  intros Hs0 Hs1.
  assert (E : dens_mass s
              == 1000.446 + s * (1.1849 + s * (0.011455 + (- 0.000163) * s))).
  { unfold dens_mass, dens_mass_param_A0, dens_mass_param_A1, dens_mass_param_A2,
      dens_mass_param_A3. ring. }
  rewrite E.
  destruct (mult_bounds s (0.011455 + (- 0.000163) * s) (- 0.004845) 0.011455)
    as [Hu0 Hu1]; [lra | lra | lra | lra | lra | lra |].
  set (su := s * (0.011455 + (- 0.000163) * s)) in *. clearbody su.
  destruct (mult_bounds s (1.1849 + su) 0 2.3304) as [Hv0 Hv1];
    [lra | lra | lra | lra | lra | lra |].
  set (sv := s * (1.1849 + su)) in *. clearbody sv.
  split; lra.
Qed.

Lemma cp_mass_range (s : Q) :
  0 <= s -> s <= 100 -> 700 <= cp_mass s /\ cp_mass s <= 4200.03.
Proof.
  intros Hs0 Hs1.
  assert (E : cp_mass s == 4200.03 + s * (- 34.9888 + 0.133883 * s)).
  { unfold cp_mass, cp_phase_param_A0, cp_phase_param_A1, cp_phase_param_A2. ring. }
  rewrite E.
  destruct (mult_bounds s (- 34.9888 + 0.133883 * s) (- 34.9888) 0) as [Hu0 Hu1];
    [lra | lra | lra | lra | lra | lra |].
  set (su := s * (- 34.9888 + 0.133883 * s)) in *. clearbody su.
  split; lra.
Qed.

(** From a draw share of 60 per cent on, the osmotic pressure of the
    correlation is above 10^8 Pa: its expansion about 60 has positive
    coefficients only. *)
Lemma pressure_osm_above (s : Q) : 60 <= s -> 105000000 <= pressure_osm s.
Proof.
  intros Hs.
  set (t := s - 60).
  assert (Ht : 0 <= t) by (unfold t; lra).
  assert (E : pressure_osm s
              == (5273061237 # 50)
                 + t * ((357852811 # 100)
                        + t * ((4831797 # 125)
                               + t * ((4701817 # 10000)
                                      + t * ((12113 # 1250) + (173 # 2500) * t))))).
  { unfold t, pressure_osm, osm_coeff_param_0, osm_coeff_param_1, osm_coeff_param_2,
      osm_coeff_param_3, osm_coeff_param_4, osm_coeff_param_5. ring. }
  rewrite E. clearbody t.
  assert (H5 : 0 <= (173 # 2500) * t) by (apply Qmult_le_0_compat; lra).
  assert (H4 : 0 <= t * ((12113 # 1250) + (173 # 2500) * t))
    by (apply Qmult_le_0_compat; lra).
  set (x4 := t * ((12113 # 1250) + (173 # 2500) * t)) in *. clearbody x4.
  assert (H3 : 0 <= t * ((4701817 # 10000) + x4)) by (apply Qmult_le_0_compat; lra).
  set (x3 := t * ((4701817 # 10000) + x4)) in *. clearbody x3.
  assert (H2 : 0 <= t * ((4831797 # 125) + x3)) by (apply Qmult_le_0_compat; lra).
  set (x2 := t * ((4831797 # 125) + x3)) in *. clearbody x2.
  assert (H1 : 0 <= t * ((357852811 # 100) + x2)) by (apply Qmult_le_0_compat; lra).
  set (x1 := t * ((357852811 # 100) + x2)) in *. clearbody x1.
  lra.
Qed.

(** The mass fraction of a component of a non-negative mixture. *)
Lemma mass_frac_range (b : FODrawSolutionStateBlockData) (j : draw_component) :
  flow_mass_bounds b -> 0 < flow_mass_total b -> eq_mass_frac_phase_comp b j ->
  0 <= mass_frac_phase_comp b j /\ mass_frac_phase_comp b j <= 1.
Proof.
  intros Hb Ht Hj. unfold eq_mass_frac_phase_comp in Hj. rewrite Hj.
  assert (Hsum : flow_mass_total b
                 == flow_mass_phase_comp b H2O + flow_mass_phase_comp b DrawSolution).
  { unfold flow_mass_total. cbn. ring. }
  pose proof (Hb H2O) as H0. pose proof (Hb DrawSolution) as H1.
  split.
  - apply Qle_shift_div_l; [exact Ht |]. destruct j; lra.
  - apply Qle_shift_div_r; [exact Ht |]. destruct j; lra.
Qed.

End DrawSolutionProperties.

(** X13: in an FO draw-solution state block with a non-zero total mass
    flow, the mass fractions defined by [eq_mass_frac_phase_comp] sum to
    one, the mass concentrations sum to the density, and the volumetric
    flow times the mass concentration of a component is the mass flow of
    that component. *)
Theorem draw_solution_properties_conserve_mass (b : FOProperties.FODrawSolutionStateBlockData) :
  ~ FOProperties.flow_mass_total b == 0 ->
  ~ FOProperties.dens_mass_phase b == 0 ->
  (forall j, FOProperties.eq_mass_frac_phase_comp b j) ->
  FOProperties.eq_flow_vol_phase b ->
  (forall j, FOProperties.eq_conc_mass_phase_comp b j) ->
  FOProperties.mass_frac_phase_comp b FOProperties.H2O
  + FOProperties.mass_frac_phase_comp b FOProperties.DrawSolution == 1
  /\ FOProperties.conc_mass_phase_comp b FOProperties.H2O
     + FOProperties.conc_mass_phase_comp b FOProperties.DrawSolution
     == FOProperties.dens_mass_phase b
  /\ forall j, FOProperties.flow_vol_phase b * FOProperties.conc_mass_phase_comp b j
               == FOProperties.flow_mass_phase_comp b j.
Proof.
  intros Ht Hd Hfrac Hvol Hconc.
  unfold FOProperties.eq_mass_frac_phase_comp in Hfrac.
  unfold FOProperties.eq_flow_vol_phase in Hvol.
  unfold FOProperties.eq_conc_mass_phase_comp in Hconc.
  assert (Hsum : FOProperties.flow_mass_total b
                 == FOProperties.flow_mass_phase_comp b FOProperties.H2O
                    + FOProperties.flow_mass_phase_comp b FOProperties.DrawSolution).
  { unfold FOProperties.flow_mass_total. cbn. ring. }
  assert (Hone : FOProperties.mass_frac_phase_comp b FOProperties.H2O
                 + FOProperties.mass_frac_phase_comp b FOProperties.DrawSolution == 1).
  { rewrite (Hfrac FOProperties.H2O), (Hfrac FOProperties.DrawSolution).
    transitivity ((FOProperties.flow_mass_phase_comp b FOProperties.H2O
                   + FOProperties.flow_mass_phase_comp b FOProperties.DrawSolution)
                  / FOProperties.flow_mass_total b); [field; exact Ht |].
    rewrite <- Hsum. field. exact Ht. }
  split; [exact Hone |]. split.
  - rewrite (Hconc FOProperties.H2O), (Hconc FOProperties.DrawSolution).
    rewrite <- Qmult_plus_distr_r, Hone. ring.
  - intros j. rewrite (Hconc j), Hvol, (Hfrac j). field. split; assumption.
Qed.

(** The block calculated from 0.2 kg/s of water and 0.8 kg/s of draw. *)
Lemma draw_solution_properties_conserve_mass_witness :
  FOProperties.mass_frac_phase_comp (FOProperties.calculate 0.2 0.8) FOProperties.H2O
  + FOProperties.mass_frac_phase_comp (FOProperties.calculate 0.2 0.8)
      FOProperties.DrawSolution == 1.
Proof.
  refine (proj1 (draw_solution_properties_conserve_mass
                   (FOProperties.calculate 0.2 0.8) _ _ _ _ _)).
  - vm_compute. discriminate.
  - vm_compute. discriminate.
  - intros j. unfold FOProperties.eq_mass_frac_phase_comp. reflexivity.
  - unfold FOProperties.eq_flow_vol_phase. reflexivity.
  - intros j. unfold FOProperties.eq_conc_mass_phase_comp. reflexivity.
Defined.

(** X14: for non-negative component flows with a positive total, the draw
    mass fraction lies between 0 and 1, and the density and the specific
    heat given by their correlations stay within the bounds declared on
    the two variables (1 to 10^6 kg/m3, 0 to 10^8 J/kg/K): the density is
    between 1000 and 1300 kg/m3 and the specific heat between 700 and
    4200.03 J/kg/K. *)
Theorem density_and_specific_heat_within_bounds (b : FOProperties.FODrawSolutionStateBlockData) :
  FOProperties.flow_mass_bounds b ->
  0 < FOProperties.flow_mass_total b ->
  FOProperties.eq_mass_frac_phase_comp b FOProperties.DrawSolution ->
  FOProperties.eq_dens_mass_phase b ->
  FOProperties.eq_cp_mass_phase b ->
  (0 <= FOProperties.mass_frac_phase_comp b FOProperties.DrawSolution
   /\ FOProperties.mass_frac_phase_comp b FOProperties.DrawSolution <= 1)
  /\ FOProperties.dens_mass_bounds b
  /\ FOProperties.cp_mass_bounds b
  /\ (1000 <= FOProperties.dens_mass_phase b
      /\ FOProperties.dens_mass_phase b <= 1300)
  /\ (700 <= FOProperties.cp_mass_phase b
      /\ FOProperties.cp_mass_phase b <= 4200.03).
Proof.
  intros Hb Ht Hfrac Hdens Hcp.
  destruct (mass_frac_range b FOProperties.DrawSolution Hb Ht Hfrac) as [Hx0 Hx1].
  set (x := FOProperties.mass_frac_phase_comp b FOProperties.DrawSolution) in *.
  assert (Hs0 : 0 <= x * 100) by lra.
  assert (Hs1 : x * 100 <= 100) by lra.
  destruct (dens_mass_range (x * 100) Hs0 Hs1) as [Hd0 Hd1].
  destruct (cp_mass_range (x * 100) Hs0 Hs1) as [Hc0 Hc1].
  unfold FOProperties.eq_dens_mass_phase in Hdens.
  unfold FOProperties.eq_cp_mass_phase in Hcp.
  cbv zeta in Hdens, Hcp. fold x in Hdens, Hcp.
  unfold FOProperties.dens_mass_bounds, FOProperties.cp_mass_bounds.
  rewrite Hdens, Hcp.
  split; [split; assumption |].
  split; [split; lra |]. split; [split; lra |].
  split; split; assumption.
Qed.

Lemma density_and_specific_heat_within_bounds_witness :
  FOProperties.dens_mass_bounds (FOProperties.calculate 0.2 0.8).
Proof.
  refine (proj1 (proj2 (density_and_specific_heat_within_bounds
                          (FOProperties.calculate 0.2 0.8) _ _ _ _ _))).
  - intros [|]; vm_compute; discriminate.
  - vm_compute. reflexivity.
  - unfold FOProperties.eq_mass_frac_phase_comp. reflexivity.
  - unfold FOProperties.eq_dens_mass_phase. reflexivity.
  - unfold FOProperties.eq_cp_mass_phase. reflexivity.
Defined.

(** X15: the bounds declared on the osmotic pressure (1 to 10^8 Pa) cannot
    be met by a draw solution of 60 per cent mass fraction or more: there
    the correlation of [eq_pressure_osm_phase] gives more than 1.05 * 10^8
    Pa. *)
Theorem osmotic_pressure_bound_excludes_strong_draw (b : FOProperties.FODrawSolutionStateBlockData) :
  FOProperties.eq_pressure_osm_phase b ->
  0.6 <= FOProperties.mass_frac_phase_comp b FOProperties.DrawSolution ->
  105000000 <= FOProperties.pressure_osm_phase b
  /\ ~ FOProperties.pressure_osm_bounds b.
Proof.
  intros Hp Hx. unfold FOProperties.eq_pressure_osm_phase in Hp. cbv zeta in Hp.
  assert (Hs : 60 <= FOProperties.mass_frac_phase_comp b FOProperties.DrawSolution * 100)
    by lra.
  pose proof (pressure_osm_above _ Hs) as Habove.
  rewrite <- Hp in Habove.
  split; [exact Habove |].
  unfold FOProperties.pressure_osm_bounds. intros [_ Hub]. lra.
Qed.

(** The block calculated from 0.2 kg/s of water and 0.8 kg/s of draw has a
    draw share of 80 per cent. *)
Lemma osmotic_pressure_bound_excludes_strong_draw_witness :
  ~ FOProperties.pressure_osm_bounds (FOProperties.calculate 0.2 0.8).
Proof.
  refine (proj2 (osmotic_pressure_bound_excludes_strong_draw
                   (FOProperties.calculate 0.2 0.8) _ _)).
  - unfold FOProperties.eq_pressure_osm_phase. reflexivity.
  - vm_compute. discriminate.
Defined.

(** ** More on the FO draw-solution state block *)

Section StateBlockMore.

Import FODrawSolution.

(** Once the state variables are fixed, a block whose other variables are
    all fixed has no unfixed variable left, and the solve is skipped. *)
Lemma skip_solve_after_fix (blk blk1 : StateBlock) (state_args : StateArgs)
      (flags : Flags) :
  map_Forall (fun _ b => map_Forall (fun id v => is_state_var id = true \/ fixed v = true)
                                    (vars b)) (data blk) ->
  fix_state_vars blk state_args = Py.Ok (flags, blk1) ->
  skip_solve blk1 = true.
Proof.
  intros Hall Hfix. unfold fix_state_vars in Hfix.
  case_bool_decide; [| discriminate]. injection Hfix as <- <-.
  unfold skip_solve. apply forallb_forall. intros [k b1] Hin.
  apply list_elem_of_In, elem_of_map_to_list in Hin. cbn in Hin.
  apply lookup_fmap_Some in Hin as (b & <- & Hb).
  cbn. apply Nat.eqb_eq. unfold number_unfixed_variables. cbn.
  apply map_size_empty_iff, map_empty_filter_2.
  intros id v1 Hv1. cbn. rewrite map_lookup_imap in Hv1.
  destruct (vars b !! id) as [v |] eqn:Hv; [| discriminate].
  cbn in Hv1. injection Hv1 as <-.
  rewrite fixed_fix_state_var.
  destruct (Hall k b Hb id v Hv) as [Hs | Hf].
  - rewrite Hs. discriminate.
  - rewrite Hf. destruct (is_state_var id); discriminate.
Qed.

Lemma filter_none {A : Type} (f : A -> bool) (l : list A) :
  (forall x, In x l -> f x = false) -> List.filter f l = [].
Proof.
  induction l as [| a l IH]; intros Hf; [reflexivity |].
  cbn. rewrite (Hf a (or_introl eq_refl)). apply IH.
  intros x Hx. apply Hf. right. exact Hx.
Qed.

Lemma filter_partition_length {A : Type} (f : A -> bool) (l : list A) :
  (length (List.filter f l) + length (List.filter (fun x => negb (f x)) l))%nat
  = length l.
Proof.
  induction l as [| a l IH]; [reflexivity |].
  cbn. destruct (f a); cbn; lia.
Qed.

End StateBlockMore.

(** X16: [initialize] called with [state_vars_fixed = True] returns no
    flags whatever [hold_state] is, and leaves every state variable fixed,
    also those that were unfixed before the call, and every other variable
    with its former status: nothing is released.  It does return when the
    fixed block is square and the solve, if one is needed, ends
    optimally. *)
Theorem initialize_with_states_declared_fixed
    (solver : gmap Z FODrawSolution.StateBlockData
              -> bool * (Z -> FODrawSolution.var_id -> Q))
    (blk : FODrawSolution.StateBlock)
    (state_args : gmap string (gmap (list string) Q)) (hs : bool) :
  (forall r blk',
      FODrawSolution.initialize solver blk state_args true hs = Py.Ok (r, blk') ->
      r = None
      /\ forall k id,
           FODrawSolution.fixed_status blk' k id
           = (fun f => if FODrawSolution.is_state_var id then true else f)
             <$> FODrawSolution.fixed_status blk k id)
  /\ (forall flags blk1,
        FODrawSolution.fix_state_vars blk state_args = Py.Ok (flags, blk1) ->
        FODrawSolution.check_dof blk1 = Py.Ok tt ->
        FODrawSolution.skip_solve blk1 = true
        \/ (solver (FODrawSolution.data blk1)).1 = true ->
        exists blk',
          FODrawSolution.initialize solver blk state_args true hs = Py.Ok (None, blk')).
Proof.
  split.
  - intros r blk' Hi.
    destruct (initialize_Ok_inv _ _ _ _ _ _ _ Hi)
      as (flags & blk1 & blk2 & Hfix & _ & Hsame & Hret).
    cbn in Hret. destruct Hret as [-> ->]. split; [reflexivity |].
    destruct (fix_state_vars_Ok_inv _ _ _ _ Hfix) as (_ & _ & Hstat).
    intros k id. rewrite Hsame. apply Hstat.
  - intros flags blk1 Hfix Hdof Hsolve.
    unfold FODrawSolution.initialize. rewrite Hfix. cbn. rewrite Hdof. cbn.
    destruct (FODrawSolution.skip_solve blk1).
    + cbn. eauto.
    + destruct Hsolve as [Hs | Hs]; [discriminate |].
      destruct (solver (FODrawSolution.data blk1)) as [optimal sol].
      cbn in Hs. subst optimal. cbn. eauto.
Qed.

(** The state block of one element with its mass fractions: the
    temperature, unfixed before, stays fixed. *)
Lemma initialize_with_states_declared_fixed_witness :
  exists blk',
    FODrawSolution.initialize FODrawSolution.ideal_solver
      (FODrawSolution.properties false) ∅ true false = Py.Ok (None, blk')
    /\ FODrawSolution.fixed_status blk' 0%Z FODrawSolution.temperature = Some true.
Proof.
  destruct (initialize_with_states_declared_fixed FODrawSolution.ideal_solver
              (FODrawSolution.properties false) ∅ false) as (Hkeep & Htotal).
  destruct (Htotal _ _ (fix_state_vars_no_guess _)) as (blk' & Hi).
  - vm_compute. reflexivity.
  - right. reflexivity.
  - exists blk'. split; [exact Hi |].
    destruct (Hkeep _ _ Hi) as [_ Hstat]. rewrite Hstat. vm_compute. reflexivity.
Defined.

(** X17: when every variable of the block is a state variable or is fixed
    already (a block on which no property has been built), [initialize]
    never consults the solver: its outcome is the same under any two
    solvers, so a failing solver cannot make it raise. *)
Theorem state_only_block_needs_no_solver
    (solver1 solver2 : gmap Z FODrawSolution.StateBlockData
                       -> bool * (Z -> FODrawSolution.var_id -> Q))
    (blk : FODrawSolution.StateBlock)
    (state_args : gmap string (gmap (list string) Q)) (svf hs : bool) :
  map_Forall (fun _ b =>
                map_Forall (fun id v => FODrawSolution.is_state_var id = true
                                        \/ FODrawSolution.fixed v = true)
                           (FODrawSolution.vars b))
             (FODrawSolution.data blk) ->
  FODrawSolution.initialize solver1 blk state_args svf hs
  = FODrawSolution.initialize solver2 blk state_args svf hs.
Proof.
  intros Hall. unfold FODrawSolution.initialize.
  destruct (FODrawSolution.fix_state_vars blk state_args) as [[flags blk1] | e] eqn:Hfix;
    [| reflexivity].
  cbn. rewrite (skip_solve_after_fix blk blk1 state_args flags Hall Hfix). reflexivity.
Qed.

(** The block with its four state variables only, under a solver that
    succeeds and under one that fails. *)
Lemma state_only_block_needs_no_solver_witness :
  FODrawSolution.initialize FODrawSolution.ideal_solver FOStateOnly.state_properties ∅
    false true
  = FODrawSolution.initialize FOStateOnly.failing_solver FOStateOnly.state_properties ∅
      false true.
Proof.
  apply (state_only_block_needs_no_solver FODrawSolution.ideal_solver
           FOStateOnly.failing_solver FOStateOnly.state_properties ∅ false true).
  apply (bool_decide_unpack _). vm_compute. exact I.
Defined.



(** ** The breakdown of the degrees of freedom in PV.py *)

(** X19: the count printed by [breakdown_dof] adds up (the variables in
    activated equalities, less the fixed ones, less the activated
    equalities, are the degrees of freedom), but its list of suggested
    variables to fix is always empty, whatever the degrees of freedom: it
    keeps the active variables that are not among the unfixed ones and then
    prints those of them that are unfixed. *)
Theorem breakdown_dof_suggests_nothing (blk : FODrawSolution.StateBlockData) :
  PV.suggested (PV.breakdown_dof blk) = []
  /\ (Z.of_nat (length (PV.active_vars (PV.breakdown_dof blk)))
      - Z.of_nat (length (PV.fixed_active_vars (PV.breakdown_dof blk)))
      - Z.of_nat (length (PV.equalities (PV.breakdown_dof blk)))
      = PV.dof (PV.breakdown_dof blk))%Z
  /\ (length (PV.fixed_active_vars (PV.breakdown_dof blk))
      + length (PV.unfixed_active_vars (PV.breakdown_dof blk))
      = length (PV.active_vars (PV.breakdown_dof blk)))%nat.
Proof.
  unfold PV.breakdown_dof. cbn.
  pose proof (filter_partition_length (FODrawSolution.is_unfixed blk)
                (PV.variables_in_activated_equalities_set blk)) as Hpart.
  split; [| split].
  - apply filter_none. intros v Hv.
    apply filter_In in Hv as [Hact Hnot].
    destruct (FODrawSolution.is_unfixed blk v) eqn:E; [| reflexivity].
    exfalso. apply negb_true_iff in Hnot.
    apply bool_decide_eq_false in Hnot. apply Hnot.
    apply list_elem_of_In. unfold PV.unfixed_variables_in_activated_equalities_set.
    apply filter_In. split; assumption.
  - unfold FODrawSolution.degrees_of_freedom,
      FODrawSolution.unfixed_variables_in_activated_equalities,
      PV.fixed_variables_in_activated_equalities_set.
    unfold PV.variables_in_activated_equalities_set in *. lia.
  - unfold PV.fixed_variables_in_activated_equalities_set,
      PV.unfixed_variables_in_activated_equalities_set. lia.
Qed.

(** ** The scaling factors of the flat-plate surrogate *)

Section Scaling.

Import FlatPlateScaling.

Lemma scale_if_unset_lookup (sfx : Suffix) (vd : string * Q) (v : string) :
  scale_if_unset sfx vd !! v
  = match sfx !! v with
    | Some x => Some x
    | None => if bool_decide (vd.1 = v) then Some vd.2 else None
    end.
Proof.
  unfold scale_if_unset, get_scaling_factor, set_scaling_factor.
  destruct (sfx !! vd.1) as [x |] eqn:E.
  - destruct (sfx !! v) as [y |] eqn:Ev; [reflexivity |].
    case_bool_decide as Hv; [| reflexivity]. congruence.
  - case_bool_decide as Hv.
    + subst v. rewrite lookup_insert_eq, E. reflexivity.
    + rewrite lookup_insert_ne by exact Hv. destruct (sfx !! v); reflexivity.
Qed.

Lemma fold_scale_lookup (l : list (string * Q)) :
  forall (sfx : Suffix) (v : string),
    fold_left scale_if_unset l sfx !! v
    = match sfx !! v with
      | Some x => Some x
      | None => snd <$> List.find (fun vd => bool_decide (vd.1 = v)) l
      end.
Proof.
  induction l as [| vd l IH]; intros sfx v; cbn [fold_left List.find].
  - destruct (sfx !! v); reflexivity.
  - rewrite IH, scale_if_unset_lookup.
    destruct (sfx !! v) as [x |]; [reflexivity |].
    destruct (bool_decide (vd.1 = v)); reflexivity.
Qed.

End Scaling.

(** X20: [calculate_scaling_factors] of the flat-plate surrogate never
    overwrites a scaling factor that is already set; each of its ten
    variables without one gets its default; no other entry of the suffix
    changes; and a second call changes nothing. *)
Theorem flat_plate_scaling_keeps_user_factors (sfx : gmap string Q) :
  (forall v x, sfx !! v = Some x ->
     FlatPlateScaling.calculate_scaling_factors sfx !! v = Some x)
  /\ (forall v d, In (v, d) FlatPlateScaling.defaults -> sfx !! v = None ->
        FlatPlateScaling.calculate_scaling_factors sfx !! v = Some d)
  /\ (forall v, ~ In v (map fst FlatPlateScaling.defaults) ->
        FlatPlateScaling.calculate_scaling_factors sfx !! v = sfx !! v)
  /\ FlatPlateScaling.calculate_scaling_factors
       (FlatPlateScaling.calculate_scaling_factors sfx)
     = FlatPlateScaling.calculate_scaling_factors sfx.
Proof.
  unfold FlatPlateScaling.calculate_scaling_factors.
  split; [| split; [| split]].
  - intros v x Hv. rewrite fold_scale_lookup, Hv. reflexivity.
  - intros v d Hin Hv. rewrite fold_scale_lookup, Hv.
    cbn in Hin.
    repeat (destruct Hin as [Hin | Hin]; [injection Hin as <- <-; reflexivity |]).
    contradiction.
  - intros v Hv. rewrite fold_scale_lookup.
    destruct (sfx !! v) as [x |]; [reflexivity |].
    destruct (List.find _ FlatPlateScaling.defaults) as [vd |] eqn:Hf; [| reflexivity].
    exfalso. apply find_some in Hf as [Hin Heq].
    apply bool_decide_eq_true in Heq. subst v.
    apply Hv. apply in_map. exact Hin.
  - apply map_eq. intros v. rewrite (fold_scale_lookup _ (fold_left _ _ _)).
    rewrite fold_scale_lookup.
    destruct (sfx !! v) as [x |]; [reflexivity |].
    destruct (List.find _ FlatPlateScaling.defaults); reflexivity.
Qed.

(** A user factor on the heat load is kept and the heat gets its default. *)
Lemma flat_plate_scaling_keeps_user_factors_witness :
  FlatPlateScaling.calculate_scaling_factors {[ "heat_load"%string := 5 ]}
    !! "heat_load"%string = Some 5
  /\ FlatPlateScaling.calculate_scaling_factors {[ "heat_load"%string := 5 ]}
       !! "heat"%string = Some 0.0001.
Proof.
  destruct (flat_plate_scaling_keeps_user_factors {[ "heat_load"%string := 5 ]})
    as (Hkeep & Hdefault & _).
  split.
  - apply Hkeep. apply lookup_singleton_eq.
  - apply Hdefault.
    + right. right. right. right. left. reflexivity.
    + apply lookup_singleton_ne. discriminate.
Defined.

(** ** The economics shared along the KBHDP train *)

Section SharedEconomics.

Import KBHDP_ZLD.

Lemma same_parameters_iff (crf elec heat : Q) (m : CostingData) :
  same_parameters crf elec heat m = true
  <-> capital_recovery_factor m == crf /\ electricity_cost m == elec
      /\ heat_cost m == heat.
Proof.
  unfold same_parameters. rewrite !andb_true_iff, !Qeq_bool_iff. tauto.
Qed.

Lemma build_agg_costing_blk_three (c1 c2 c3 : CostingData) bp pf :
  (same_parameters (capital_recovery_factor c1) (electricity_cost c1) (heat_cost c1) c2
   && same_parameters (capital_recovery_factor c1) (electricity_cost c1) (heat_cost c1) c3
   = true ->
   exists b, build_agg_costing_blk [c1; c2; c3] bp pf = Py.Ok b)
  /\ (same_parameters (capital_recovery_factor c1) (electricity_cost c1) (heat_cost c1) c2
      && same_parameters (capital_recovery_factor c1) (electricity_cost c1) (heat_cost c1) c3
      = false ->
      build_agg_costing_blk [c1; c2; c3] bp pf = Py.Raise Py.AssertionError).
Proof.
  unfold build_agg_costing_blk. cbn [forallb].
  assert (H1 : same_parameters (capital_recovery_factor c1) (electricity_cost c1)
                 (heat_cost c1) c1 = true).
  { apply same_parameters_iff. repeat split; reflexivity. }
  rewrite H1, andb_true_r. cbn [andb].
  split; intros ->; cbn; eauto.
Qed.

Lemma LCOW_with_costs_year (b : Agg.block) (c o flow : Q) :
  Agg.base_period b = Units.year ->
  Agg.product_flow b == flow ->
  (flow == 0 -> LCOW (with_costs b c o) = Py.Raise Py.ZeroDivisionError)
  /\ (~ flow == 0 -> exists v, LCOW (with_costs b c o) = Py.Ok v).
Proof.
  intros Hbp Hpf. unfold LCOW. cbn. rewrite Hbp.
  unfold Units.per_second_to_per, Units.seconds.
  split; intros Hf.
  - apply div_zero. rewrite Hpf, Hf. ring.
  - rewrite div_nonzero; [eauto |].
    intros E. apply Hf. rewrite <- Hpf. lra.
Qed.

Section Tail.

Context {S : Type} `{Framework S}.

(** The driver once its three systems have been built and solved. *)
Lemma build_and_run_kbhdp_zld_tail kw (m1 m_md m_mec : model S) :
  build_and_run_primary_treatment kw = Py.Ok m1 ->
  build_and_run_md_system (brine_flow_mgd m1)
    (value_conc_tds (fs_state m1) "brine") 0.5 = Py.Ok m_md ->
  build_and_run_mec_system None None 4
    {| kw_flow_mass_water := Some (value_flow_mass (fs_state m_md) "disposal" "H2O");
       kw_flow_mass_tds := Some (value_flow_mass (fs_state m_md) "disposal" "TDS") |}
  = Py.Ok m_mec ->
  build_and_run_kbhdp_zld kw
  = (m_agg ← build_agg_model m1 m_md m_mec;
     '(capital, operating) ← solver_solve_agg m_agg;
     LCOW (with_costs m_agg capital operating);;
     Py.Ok (m1, m_md, m_mec)).
Proof.
  intros H1 Hmd Hmec. unfold build_and_run_kbhdp_zld.
  rewrite H1. cbv beta iota zeta delta [mbind result_bind Py.bind].
  rewrite Hmd. cbv beta iota zeta delta [mbind result_bind Py.bind].
  rewrite Hmec. reflexivity.
Qed.

End Tail.

End SharedEconomics.

(** X21: once its three systems have been built and solved,
    [build_and_run_kbhdp_zld] builds the aggregate model, solves it and
    displays its LCOW before it returns.  When the MD or the MEC system
    does not have the capital recovery factor, the electricity cost and
    the heat cost of the primary system, it raises AssertionError from the
    aggregate costing block.  Otherwise the aggregate model is built; an
    exception of its solve is the driver's; and when the solve loads
    values, the driver raises ZeroDivisionError if the three product flows
    sum to zero and returns the three models if they do not.  So the three
    models are returned only with shared economics and a total product
    flow that is not zero. *)
Theorem train_needs_shared_economics
    (S : Type) (F : KBHDP_ZLD.Framework S) (kw : KBHDP_ZLD.primary_kwargs)
    (m1 m_md m_mec : KBHDP_ZLD.model S) :
  KBHDP_ZLD.build_and_run_primary_treatment kw = Py.Ok m1 ->
  KBHDP_ZLD.build_and_run_md_system (KBHDP_ZLD.brine_flow_mgd m1)
    (KBHDP_ZLD.value_conc_tds (KBHDP_ZLD.fs_state m1) "brine") 0.5 = Py.Ok m_md ->
  KBHDP_ZLD.build_and_run_mec_system None None 4
    {| KBHDP_ZLD.kw_flow_mass_water :=
         Some (KBHDP_ZLD.value_flow_mass (KBHDP_ZLD.fs_state m_md) "disposal" "H2O");
       KBHDP_ZLD.kw_flow_mass_tds :=
         Some (KBHDP_ZLD.value_flow_mass (KBHDP_ZLD.fs_state m_md) "disposal" "TDS") |}
  = Py.Ok m_mec ->
  let costing := fun m => KBHDP_ZLD.value_costing (KBHDP_ZLD.fs_state m) in
  let shares := fun m =>
    KBHDP_ZLD.capital_recovery_factor (costing m)
    == KBHDP_ZLD.capital_recovery_factor (costing m1)
    /\ KBHDP_ZLD.electricity_cost (costing m) == KBHDP_ZLD.electricity_cost (costing m1)
    /\ KBHDP_ZLD.heat_cost (costing m) == KBHDP_ZLD.heat_cost (costing m1) in
  let product := fun m => KBHDP_ZLD.value_flow_vol (KBHDP_ZLD.fs_state m) "product" in
  let flow_treated := product m1 + product m_md + product m_mec in
  (~ (shares m_md /\ shares m_mec) ->
   KBHDP_ZLD.build_and_run_kbhdp_zld kw = Py.Raise Py.AssertionError)
  /\ (shares m_md /\ shares m_mec ->
      exists m_agg,
        KBHDP_ZLD.build_agg_model m1 m_md m_mec = Py.Ok m_agg
        /\ (forall e,
              KBHDP_ZLD.solver_solve_agg m_agg = Py.Raise e ->
              KBHDP_ZLD.build_and_run_kbhdp_zld kw = Py.Raise e)
        /\ (forall capital operating,
              KBHDP_ZLD.solver_solve_agg m_agg = Py.Ok (capital, operating) ->
              (flow_treated == 0 ->
               KBHDP_ZLD.build_and_run_kbhdp_zld kw = Py.Raise Py.ZeroDivisionError)
              /\ (~ flow_treated == 0 ->
                  KBHDP_ZLD.build_and_run_kbhdp_zld kw = Py.Ok (m1, m_md, m_mec))))
  /\ (KBHDP_ZLD.build_and_run_kbhdp_zld kw = Py.Ok (m1, m_md, m_mec) ->
      (shares m_md /\ shares m_mec) /\ ~ flow_treated == 0).
Proof.
  intros H1 Hmd Hmec costing shares product flow_treated.
  rewrite (build_and_run_kbhdp_zld_tail kw m1 m_md m_mec H1 Hmd Hmec).
  pose proof (build_agg_costing_blk_three (costing m1) (costing m_md) (costing m_mec)
                Units.year
                (Py.sum [product m1; product m_md; product m_mec]))
    as [Hok Hfail].
  change (KBHDP_ZLD.build_agg_costing_blk _ _ _)
    with (KBHDP_ZLD.build_agg_model m1 m_md m_mec) in Hok, Hfail.
  assert (Hiff : KBHDP_ZLD.same_parameters
                   (KBHDP_ZLD.capital_recovery_factor (costing m1))
                   (KBHDP_ZLD.electricity_cost (costing m1))
                   (KBHDP_ZLD.heat_cost (costing m1)) (costing m_md)
                 && KBHDP_ZLD.same_parameters
                      (KBHDP_ZLD.capital_recovery_factor (costing m1))
                      (KBHDP_ZLD.electricity_cost (costing m1))
                      (KBHDP_ZLD.heat_cost (costing m1)) (costing m_mec) = true
                 <-> shares m_md /\ shares m_mec).
  { rewrite andb_true_iff, !same_parameters_iff. reflexivity. }
  assert (Hcases : forall m_agg capital operating,
             KBHDP_ZLD.build_agg_model m1 m_md m_mec = Py.Ok m_agg ->
             (flow_treated == 0 ->
              KBHDP_ZLD.LCOW (KBHDP_ZLD.with_costs m_agg capital operating)
              = Py.Raise Py.ZeroDivisionError)
             /\ (~ flow_treated == 0 ->
                 exists v,
                   KBHDP_ZLD.LCOW (KBHDP_ZLD.with_costs m_agg capital operating)
                   = Py.Ok v)).
  { intros m_agg capital operating Hb.
    destruct (build_agg_model_Ok_inv _ _ _ _ Hb) as (_ & Hbp & Hpf & _).
    apply LCOW_with_costs_year; [exact Hbp |].
    rewrite Hpf. unfold flow_treated, product. ring. }
  split; [| split].
  - intros Hn.
    destruct (KBHDP_ZLD.same_parameters _ _ _ (costing m_md)
              && KBHDP_ZLD.same_parameters _ _ _ (costing m_mec)) eqn:E.
    + exfalso. apply Hn, Hiff. reflexivity.
    + rewrite (Hfail eq_refl). reflexivity.
  - intros Hs. apply Hiff in Hs. destruct (Hok Hs) as [m_agg Hb].
    exists m_agg. split; [exact Hb |]. rewrite Hb.
    cbv beta iota zeta delta [mbind result_bind Py.bind].
    split.
    + intros e He. rewrite He. reflexivity.
    + intros capital operating Hsol. rewrite Hsol.
      destruct (Hcases m_agg capital operating Hb) as [Hz Hnz].
      split; intros Hf.
      * rewrite (Hz Hf). reflexivity.
      * destruct (Hnz Hf) as [v Hv]. rewrite Hv. reflexivity.
  - intros Hrun.
    destruct (KBHDP_ZLD.build_agg_model m1 m_md m_mec) as [m_agg | e] eqn:Hb;
      [| discriminate].
    cbv beta iota zeta delta [mbind result_bind Py.bind] in Hrun.
    split.
    + apply Hiff.
      destruct (KBHDP_ZLD.same_parameters _ _ _ (costing m_md)
                && KBHDP_ZLD.same_parameters _ _ _ (costing m_mec)) eqn:E;
        [reflexivity |].
      specialize (Hfail eq_refl). discriminate.
    + intros Hf.
      destruct (KBHDP_ZLD.solver_solve_agg m_agg) as [[capital operating] | e];
        [| discriminate].
      destruct (Hcases m_agg capital operating eq_refl) as [Hz _].
      rewrite (Hz Hf) in Hrun. discriminate.
Qed.

(** The train in the square framework, where the three systems have the
    same costing values and each a product flow of 0.05 m3/s. *)
Lemma train_needs_shared_economics_witness :
  exists m1 m_md m_mec,
    KBHDP_ZLD.build_and_run_kbhdp_zld (H := KBHDP_ZLD.square_framework)
      KBHDP_ZLD.default_primary_kwargs = Py.Ok (m1, m_md, m_mec).
Proof.
  eexists _, _, _.
  destruct (train_needs_shared_economics unit KBHDP_ZLD.square_framework
              KBHDP_ZLD.default_primary_kwargs _ _ _ eq_refl eq_refl eq_refl)
    as (_ & Hshared & _).
  destruct Hshared as (m_agg & _ & _ & Hloaded).
  - vm_compute. repeat split; reflexivity.
  - refine (proj2 (Hloaded _ _ eq_refl) _). vm_compute. discriminate.
Defined.
